(** * prometheus-rds-exporter: the scrape orchestration engine

    A shallow embedding of the two packages that make up the core of the
    exporter, [internal/app/cloudwatch] (the time-series fetcher) and
    [internal/app/exporter] (the per-region collector), followed by the
    properties of the specification that are settled against them.

    Conventions of the embedding:
    - a Go [float64] is a primitive float of Rocq (IEEE 754 binary64);
    - a [*float64] is an [option float], [nil] being [None];
    - a Go [map[string]V] is a [gmap string V]; where the result of a
      [for ... range] over a map depends on the (unspecified) iteration
      order, the order is an explicit argument;
    - a method with a pointer receiver returns the updated receiver;
    - an [error] is a value of [error] below, [nil] being [None];
    - wall-clock inputs ([time.Now]) and loggers are left out: no
      result of the modelled functions depends on them. *)

From Stdlib Require Import ZArith List String Ascii Bool Lia Permutation.
From Stdlib Require Import Floats.PrimFloat Numbers.Cyclic.Int63.Uint63.
From stdpp Require Import base option list gmap strings pretty fin_maps.

Local Open Scope string_scope.
Local Open Scope nat_scope.
Local Open Scope list_scope.

(** ** Go runtime pieces used by the two packages *)

Module golang.

(** [float64]. *)
Definition float64 : Set := float.

(** A signed integer of at most 64 bits is a [Z]; [int64 n] is the
    value that [n] has in an [int64], the wrap-around written out. *)
Definition int64 (n : Z) : Z :=
  ((n + 2 ^ 63) mod 2 ^ 64 - 2 ^ 63)%Z.

(** The conversion [float64(n)] of a signed integer: the nearest
    float, ties to even.  [PrimFloat.of_uint63] converts the magnitude,
    which fits in 63 bits except for the least [int64], [-2^63],
    which is a float. *)
Definition float64_of_int (n : Z) : float64 :=
  let n := int64 n in
  if (n =? - 2 ^ 63)%Z then (-0x1p+63)%float
  else if (n <? 0)%Z
  then PrimFloat.opp (PrimFloat.of_uint63 (Uint63.of_Z (- n)))
  else PrimFloat.of_uint63 (Uint63.of_Z n).

(** Errors: sentinel values created by [errors.New], errors coming from
    a client or another package, and [fmt.Errorf("<msg>: %w", err)]. *)
Inductive error : Set :=
| errUnknownMetric : error
| errExternal (msg : string) : error
| Errorf (msg : string) (wrapped : error) : error.

(** [errors.Is err target]: [target] is [err] or is wrapped by it. *)
Fixpoint errors_Is (err target : error) : Prop :=
  err = target \/
  match err with
  | Errorf _ wrapped => errors_Is wrapped target
  | _ => False
  end.

(** [strings.ToLower] on a string of ASCII characters. *)
Definition lower_ascii (a : ascii) : ascii :=
  let n := N_of_ascii a in
  if ((65 <=? n) && (n <=? 90))%N then ascii_of_N (n + 32) else a.

Fixpoint ToLower (s : string) : string :=
  match s with
  | EmptyString => EmptyString
  | String a s' => String (lower_ascii a) (ToLower s')
  end.

(** [fmt.Sprintf("%s_%d", s, i)] for a non-negative [i]. *)
Definition Sprintf_s_d (s : string) (i : nat) : string :=
  s +:+ "_" +:+ pretty i.

(** [strconv.FormatBool]. *)
Definition FormatBool (b : bool) : string := if b then "true" else "false".

End golang.

(** ** Package cloudwatch *)

Module cloudwatch.
Import golang.

Definition MaxQueriesPerCloudwatchRequest : nat := 500.
Definition Minute : Z := 60.

Record RdsMetrics : Set := mkRdsMetrics {
  CPUUtilization : option float64;
  DBLoad : option float64;
  DBLoadCPU : option float64;
  DBLoadNonCPU : option float64;
  DatabaseConnections : option float64;
  FreeStorageSpace : option float64;
  FreeableMemory : option float64;
  MaximumUsedTransactionIDs : option float64;
  ReadIOPS : option float64;
  ReadThroughput : option float64;
  ReplicaLag : option float64;
  ReplicationSlotDiskUsage : option float64;
  SwapUsage : option float64;
  TransactionLogsDiskUsage : option float64;
  WriteIOPS : option float64;
  WriteThroughput : option float64;
  BufferCacheHitRatio : option float64;
  Deadlocks : option float64;
  Queries : option float64;
  EngineUptime : option float64;
  SumBinaryLogSize : option float64;
  NumBinaryLogFiles : option float64;
  AuroraBinlogReplicaLag : option float64;
  BinLogDiskUsage : option float64
}.

(** [&RdsMetrics{}]: every field is [nil]. *)
Definition emptyRdsMetrics : RdsMetrics :=
  mkRdsMetrics None None None None None None None None None None None None
               None None None None None None None None None None None None.

Record CloudWatchMetrics : Set := {
  Instances : gmap string RdsMetrics
}.

(** [CloudWatchMetrics{}]: the map is nil, read as the empty map. *)
Definition emptyCloudWatchMetrics : CloudWatchMetrics :=
  {| Instances := ∅ |}.

(** [func (m *RdsMetrics) Update(field string, value float64) error]:
    the [switch] in the order of the source. *)
Definition Update (m : RdsMetrics) (field : string) (value : float64)
  : RdsMetrics * option error :=
  let 'mkRdsMetrics cpu dbl dblc dbln conn fss fmem txid riops rtp rlag rsdu
                    swap tldu wiops wtp bchr dlk qrs eup sbls nblf ablr bldu := m in
  let v := Some value in
  if String.eqb field "DBLoad" then
    (mkRdsMetrics cpu v dblc dbln conn fss fmem txid riops rtp rlag rsdu swap tldu wiops wtp bchr dlk qrs eup sbls nblf ablr bldu, None)
  else if String.eqb field "DBLoadCPU" then
    (mkRdsMetrics cpu dbl v dbln conn fss fmem txid riops rtp rlag rsdu swap tldu wiops wtp bchr dlk qrs eup sbls nblf ablr bldu, None)
  else if String.eqb field "DBLoadNonCPU" then
    (mkRdsMetrics cpu dbl dblc v conn fss fmem txid riops rtp rlag rsdu swap tldu wiops wtp bchr dlk qrs eup sbls nblf ablr bldu, None)
  else if String.eqb field "CPUUtilization" then
    (mkRdsMetrics v dbl dblc dbln conn fss fmem txid riops rtp rlag rsdu swap tldu wiops wtp bchr dlk qrs eup sbls nblf ablr bldu, None)
  else if String.eqb field "DatabaseConnections" then
    (mkRdsMetrics cpu dbl dblc dbln v fss fmem txid riops rtp rlag rsdu swap tldu wiops wtp bchr dlk qrs eup sbls nblf ablr bldu, None)
  else if String.eqb field "FreeStorageSpace" then
    (mkRdsMetrics cpu dbl dblc dbln conn v fmem txid riops rtp rlag rsdu swap tldu wiops wtp bchr dlk qrs eup sbls nblf ablr bldu, None)
  else if String.eqb field "FreeableMemory" then
    (mkRdsMetrics cpu dbl dblc dbln conn fss v txid riops rtp rlag rsdu swap tldu wiops wtp bchr dlk qrs eup sbls nblf ablr bldu, None)
  else if String.eqb field "SwapUsage" then
    (mkRdsMetrics cpu dbl dblc dbln conn fss fmem txid riops rtp rlag rsdu v tldu wiops wtp bchr dlk qrs eup sbls nblf ablr bldu, None)
  else if String.eqb field "WriteIOPS" then
    (mkRdsMetrics cpu dbl dblc dbln conn fss fmem txid riops rtp rlag rsdu swap tldu v wtp bchr dlk qrs eup sbls nblf ablr bldu, None)
  else if String.eqb field "ReadIOPS" then
    (mkRdsMetrics cpu dbl dblc dbln conn fss fmem txid v rtp rlag rsdu swap tldu wiops wtp bchr dlk qrs eup sbls nblf ablr bldu, None)
  else if String.eqb field "ReplicaLag" then
    (mkRdsMetrics cpu dbl dblc dbln conn fss fmem txid riops rtp v rsdu swap tldu wiops wtp bchr dlk qrs eup sbls nblf ablr bldu, None)
  else if String.eqb field "ReplicationSlotDiskUsage" then
    (mkRdsMetrics cpu dbl dblc dbln conn fss fmem txid riops rtp rlag v swap tldu wiops wtp bchr dlk qrs eup sbls nblf ablr bldu, None)
  else if String.eqb field "MaximumUsedTransactionIDs" then
    (mkRdsMetrics cpu dbl dblc dbln conn fss fmem v riops rtp rlag rsdu swap tldu wiops wtp bchr dlk qrs eup sbls nblf ablr bldu, None)
  else if String.eqb field "ReadThroughput" then
    (mkRdsMetrics cpu dbl dblc dbln conn fss fmem txid riops v rlag rsdu swap tldu wiops wtp bchr dlk qrs eup sbls nblf ablr bldu, None)
  else if String.eqb field "WriteThroughput" then
    (mkRdsMetrics cpu dbl dblc dbln conn fss fmem txid riops rtp rlag rsdu swap tldu wiops v bchr dlk qrs eup sbls nblf ablr bldu, None)
  else if String.eqb field "TransactionLogsDiskUsage" then
    (mkRdsMetrics cpu dbl dblc dbln conn fss fmem txid riops rtp rlag rsdu swap v wiops wtp bchr dlk qrs eup sbls nblf ablr bldu, None)
  else if String.eqb field "BufferCacheHitRatio" then
    (mkRdsMetrics cpu dbl dblc dbln conn fss fmem txid riops rtp rlag rsdu swap tldu wiops wtp v dlk qrs eup sbls nblf ablr bldu, None)
  else if String.eqb field "Deadlocks" then
    (mkRdsMetrics cpu dbl dblc dbln conn fss fmem txid riops rtp rlag rsdu swap tldu wiops wtp bchr v qrs eup sbls nblf ablr bldu, None)
  else if String.eqb field "Queries" then
    (mkRdsMetrics cpu dbl dblc dbln conn fss fmem txid riops rtp rlag rsdu swap tldu wiops wtp bchr dlk v eup sbls nblf ablr bldu, None)
  else if String.eqb field "EngineUptime" then
    (mkRdsMetrics cpu dbl dblc dbln conn fss fmem txid riops rtp rlag rsdu swap tldu wiops wtp bchr dlk qrs v sbls nblf ablr bldu, None)
  else if String.eqb field "SumBinaryLogSize" then
    (mkRdsMetrics cpu dbl dblc dbln conn fss fmem txid riops rtp rlag rsdu swap tldu wiops wtp bchr dlk qrs eup v nblf ablr bldu, None)
  else if String.eqb field "NumBinaryLogFiles" then
    (mkRdsMetrics cpu dbl dblc dbln conn fss fmem txid riops rtp rlag rsdu swap tldu wiops wtp bchr dlk qrs eup sbls v ablr bldu, None)
  else if String.eqb field "AuroraBinlogReplicaLag" then
    (mkRdsMetrics cpu dbl dblc dbln conn fss fmem txid riops rtp rlag rsdu swap tldu wiops wtp bchr dlk qrs eup sbls nblf v bldu, None)
  else if String.eqb field "BinLogDiskUsage" then
    (mkRdsMetrics cpu dbl dblc dbln conn fss fmem txid riops rtp rlag rsdu swap tldu wiops wtp bchr dlk qrs eup sbls nblf ablr v, None)
  else
    (m, Some (Errorf ("can't process '" +:+ field +:+ "' metrics") errUnknownMetric)).

(** [getCloudWatchMetricsName]: the names of the Cloudwatch metrics to collect. *)
Definition getCloudWatchMetricsName : list string :=
  [ "CPUUtilization"; "DBLoad"; "DBLoadCPU"; "DBLoadNonCPU";
    "DatabaseConnections"; "FreeStorageSpace"; "FreeableMemory";
    "MaximumUsedTransactionIDs"; "ReadIOPS"; "ReadThroughput";
    "ReplicaLag"; "ReplicationSlotDiskUsage"; "SwapUsage";
    "TransactionLogsDiskUsage"; "WriteIOPS"; "WriteThroughput";
    "BufferCacheHitRatio"; "Deadlocks"; "Queries"; "EngineUptime";
    "SumBinaryLogSize"; "NumBinaryLogFiles"; "AuroraBinlogReplicaLag";
    "BinLogDiskUsage" ].

(** The SDK's [types.MetricDataQuery] with its one [MetricStat], flattened. *)
Record MetricDataQuery : Set := {
  Id : string;
  Namespace : string;
  StatMetricName : string;
  DimensionName : string;
  DimensionValue : string;
  Stat : string;
  Period : Z
}.

(** The struct built by [generateCloudWatchQueryForInstance]; its
    declaration is in a file of the package that is not part of the
    sources, the fields are those of the composite literal. *)
Record CloudWatchMetricRequest : Set := {
  Dbidentifier : string;
  MetricName : string;
  Query : MetricDataQuery
}.

(** The zero value, which a Go map lookup returns for a missing key. *)
Definition zeroMetricDataQuery : MetricDataQuery :=
  {| Id := EmptyString; Namespace := EmptyString; StatMetricName := EmptyString;
     DimensionName := EmptyString; DimensionValue := EmptyString;
     Stat := EmptyString; Period := 0 |}.

Definition zeroCloudWatchMetricRequest : CloudWatchMetricRequest :=
  {| Dbidentifier := EmptyString; MetricName := EmptyString;
     Query := zeroMetricDataQuery |}.

(** [requests[key]]. *)
Definition index (requests : gmap string CloudWatchMetricRequest) (key : string)
  : CloudWatchMetricRequest :=
  default zeroCloudWatchMetricRequest (requests !! key).

Definition generateCloudWatchQueryForInstance
  (queryID : string) (metricName : string) (dbIdentifier : string)
  : CloudWatchMetricRequest :=
  let query :=
    {| Id := queryID;
       Namespace := "AWS/RDS";
       StatMetricName := metricName;
       DimensionName := "DBInstanceIdentifier";
       DimensionValue := dbIdentifier;
       Stat := "Average";
       Period := Minute |} in
  {| Dbidentifier := dbIdentifier; MetricName := metricName; Query := query |}.

(** The body of the outer loop of [generateCloudWatchQueriesForInstances]
    for the identifier at index [i]: the inner loop over the metric names. *)
Definition queriesForInstance (i : nat) (dbIdentifier : string)
  (queries : gmap string CloudWatchMetricRequest)
  : gmap string CloudWatchMetricRequest :=
  foldl (fun queries metricName =>
           let queryID := Sprintf_s_d (ToLower metricName) i in
           let query := generateCloudWatchQueryForInstance queryID metricName dbIdentifier in
           <[queryID := query]> queries)
        queries getCloudWatchMetricsName.

(** [for i, dbIdentifier := range dbIdentifiers], started at index [i]. *)
Fixpoint queriesFrom (i : nat) (dbIdentifiers : list string)
  (queries : gmap string CloudWatchMetricRequest)
  : gmap string CloudWatchMetricRequest :=
  match dbIdentifiers with
  | [] => queries
  | dbIdentifier :: rest =>
      queriesFrom (S i) rest (queriesForInstance i dbIdentifier queries)
  end.

Definition generateCloudWatchQueriesForInstances (dbIdentifiers : list string)
  : gmap string CloudWatchMetricRequest :=
  queriesFrom 0 dbIdentifiers ∅.


(** *** The upstream client

    [GetMetricDataInput] without its time window, [GetMetricDataOutput],
    and the results of the SDK.  [Values] is [None] for a nil slice. *)
Record MetricDataResult : Set := {
  ResultId : string;
  Label : string;
  Values : option (list float64)
}.

Record GetMetricDataInput : Set := {
  ScanBy : string;
  MetricDataQueries : list MetricDataQuery
}.

Record GetMetricDataOutput : Set := {
  MetricDataResults : list MetricDataResult
}.

(** The [CloudWatchClient] interface.  The upstream is not a function
    of the request alone: [GetMetricData n params] is its answer to
    [params] when [n] requests were issued before through this fetcher. *)
Record CloudWatchClient : Set := {
  GetMetricData : nat -> GetMetricDataInput -> GetMetricDataOutput + error
}.

(** Modelled from the spec: [Statistics], the call count that a
    fetcher returns with its result.  Its declaration is in a file of
    the package that is not part of the sources; [CloudWatchAPICall]
    is the field the fetcher increments and the collector adds to its
    counter. *)
Record Statistics : Set := {
  CloudWatchAPICall : float64
}.

(** [RdsFetcher].  [issued] is a ghost field: the requests sent to the
    client so far, oldest first. *)
Record RdsFetcher : Set := {
  client : CloudWatchClient;
  statistics : Statistics;
  issued : list GetMetricDataInput
}.

Definition NewRDSFetcher (client : CloudWatchClient) : RdsFetcher :=
  {| client := client;
     statistics := {| CloudWatchAPICall := 0%float |};
     issued := [] |}.

Definition GetStatistics (c : RdsFetcher) : Statistics := statistics c.

(** The body of the loop over [resp.MetricDataResults]. *)
Definition processResult (requests : gmap string CloudWatchMetricRequest)
  (metrics : gmap string RdsMetrics) (m : MetricDataResult)
  : gmap string RdsMetrics * option error :=
  match Values m with
  | None => (metrics, None)
  | Some values =>
      let val := index requests (ResultId m) in
      let metrics :=
        match metrics !! Dbidentifier val with
        | Some _ => metrics
        | None => <[Dbidentifier val := emptyRdsMetrics]> metrics
        end in
      match values with
      | [] => (metrics, None)
      | value :: _ =>
          let '(updated, err) :=
            Update (default emptyRdsMetrics (metrics !! Dbidentifier val))
                   (MetricName val) value in
          let metrics := <[Dbidentifier val := updated]> metrics in
          match err with
          | Some err =>
              (metrics, Some (Errorf ("failed to process metrics " +:+ MetricName val) err))
          | None => (metrics, None)
          end
      end
  end.

Fixpoint processResults (requests : gmap string CloudWatchMetricRequest)
  (metrics : gmap string RdsMetrics) (results : list MetricDataResult)
  : gmap string RdsMetrics * option error :=
  match results with
  | [] => (metrics, None)
  | m :: rest =>
      match processResult requests metrics m with
      | (metrics, Some err) => (metrics, Some err)
      | (metrics, None) => processResults requests metrics rest
      end
  end.

Definition updateMetricsWithCloudWatchQueriesResult (c : RdsFetcher)
  (metrics : gmap string RdsMetrics)
  (requests : gmap string CloudWatchMetricRequest) (chunk : list string)
  : RdsFetcher * gmap string RdsMetrics * option error :=
  let params :=
    {| ScanBy := "TimestampDescending";
       MetricDataQueries := (fun key => Query (index requests key)) <$> chunk |} in
  let resp := GetMetricData (client c) (length (issued c)) params in
  let c := {| client := client c; statistics := statistics c;
              issued := (issued c ++ [params])%list |} in
  match resp with
  | inr err => (c, metrics, Some (Errorf "error calling GetMetricData" err))
  | inl resp =>
      let '(metrics, err) := processResults requests metrics (MetricDataResults resp) in
      (c, metrics, err)
  end.

(** The local variables of [GetRDSInstanceMetrics] that its first loop
    changes, with the receiver. *)
Record loopState : Set := {
  fetcher : RdsFetcher;
  metrics : gmap string RdsMetrics;
  chunk : list string;
  cloudWatchAPICalls : float64
}.

(** [for query := range cloudWatchQueries], over the keys in the order
    [order] of this run; [inr] is the early [return] with an error. *)
Fixpoint rangeQueries (cloudWatchQueries : gmap string CloudWatchMetricRequest)
  (chunkSize : nat) (order : list string) (s : loopState)
  : loopState + (RdsFetcher * error) :=
  match order with
  | [] => inl s
  | query :: rest =>
      let chunk := (chunk s ++ [query])%list in
      if length chunk =? chunkSize then
        match updateMetricsWithCloudWatchQueriesResult
                (fetcher s) (metrics s) cloudWatchQueries chunk with
        | (c, _, Some err) => inr (c, Errorf "can't fetch Cloudwatch metrics" err)
        | (c, metrics, None) =>
            rangeQueries cloudWatchQueries chunkSize rest
              {| fetcher := c; metrics := metrics; chunk := [];
                 cloudWatchAPICalls := (cloudWatchAPICalls s + 1)%float |}
        end
      else
        rangeQueries cloudWatchQueries chunkSize rest
          {| fetcher := fetcher s; metrics := metrics s; chunk := chunk;
             cloudWatchAPICalls := cloudWatchAPICalls s |}
  end.

(** [func (c *RdsFetcher) GetRDSInstanceMetrics(dbIdentifiers []string)].
    [range] gives the order in which this run iterates over the map of
    queries. *)
Definition GetRDSInstanceMetrics
  (range : gmap string CloudWatchMetricRequest -> list string)
  (c : RdsFetcher) (dbIdentifiers : list string)
  : RdsFetcher * CloudWatchMetrics * option error :=
  let cloudWatchQueries := generateCloudWatchQueriesForInstances dbIdentifiers in
  let chunkSize := MaxQueriesPerCloudwatchRequest in
  match rangeQueries cloudWatchQueries chunkSize (range cloudWatchQueries)
          {| fetcher := c; metrics := ∅; chunk := [];
             cloudWatchAPICalls := 0%float |} with
  | inr (c, err) => (c, emptyCloudWatchMetrics, Some err)
  | inl s =>
      if 0 <? length (chunk s) then
        match updateMetricsWithCloudWatchQueriesResult
                (fetcher s) (metrics s) cloudWatchQueries (chunk s) with
        | (c, _, Some err) =>
            (c, emptyCloudWatchMetrics,
             Some (Errorf "can't fetch Cloudwatch metrics" err))
        | (c, metrics, None) =>
            ({| client := client c;
                statistics :=
                  {| CloudWatchAPICall := (CloudWatchAPICall (statistics c) + 1)%float |};
                issued := issued c |},
             {| Instances := metrics |}, None)
        end
      else (fetcher s, {| Instances := metrics s |}, None)
  end.

(** Modelled from the spec: [UsageMetrics], the usage record
    (allocated storage, DB-instance count, manual-snapshot count).  It
    is declared with the usage fetcher in a file that is not part of
    the sources; the fields are those [Collect] reads. *)
Record UsageMetrics : Set := {
  AllocatedStorage : float64;
  DBInstances : float64;
  ManualSnapshots : float64
}.

End cloudwatch.

(** ** Packages rds, ec2, servicequotas and build

    Their files are not part of the sources.  The collector only moves
    their results around, so their types are given with the fields
    that [Collect] reads, and their fetchers are collaborators of the
    collector (see [exporter.World]). *)

Module rds.
Import golang.

(** Modelled from the spec: [rds.RdsInstanceMetrics], the instance
    record, with the fields read by [Collect] and
    [getInstanceTagLabels] under the names and types they have there.  [CertificateValidTill] is a [*time.Time],
    kept as the seconds that [Unix()] returns. *)
Record RdsInstanceMetrics : Set := {
  AllocatedStorage : Z;
  DbiResourceID : string;
  DBInstanceClass : string;
  Engine : string;
  EngineVersion : string;
  StorageType : string;
  MultiAZ : bool;
  DeletionProtection : bool;
  Role : string;
  SourceDBInstanceIdentifier : string;
  PendingModifiedValues : bool;
  PendingMaintenanceAction : string;
  PerformanceInsightsEnabled : bool;
  CACertificateIdentifier : string;
  Arn : string;
  MaxAllocatedStorage : Z;
  MaxIops : Z;
  Status : Z;
  StorageThroughput : Z;
  BackupRetentionPeriod : Z;
  Tags : gmap string string;
  CertificateValidTill : option Z;
  Age : option float64;
  LogFilesSize : option Z
}.

Record Metrics : Set := {
  Instances : gmap string RdsInstanceMetrics
}.

Definition zeroMetrics : Metrics := {| Instances := ∅ |}.

End rds.

Module ec2.
Import golang.

(** Modelled from the spec: [ec2.EC2InstanceMetrics], the
    instance-type record (vCPU count, memory, maximum IOPS, maximum
    throughput), with the fields read by [Collect]. *)
Record EC2InstanceMetrics : Set := {
  MaximumIops : Z;
  MaximumThroughput : float64;
  Memory : Z;
  Vcpu : Z
}.

Record Metrics : Set := {
  Instances : gmap string EC2InstanceMetrics
}.

Definition zeroMetrics : Metrics := {| Instances := ∅ |}.

End ec2.

Module servicequotas.
Import golang.

(** Modelled from the spec: [servicequotas.Metrics], the quota record
    that [GetRDSQuotas] returns. *)
Record Metrics : Set := {
  DBinstances : float64;
  TotalStorage : float64;
  ManualDBInstanceSnapshots : float64
}.

Definition zeroMetrics : Metrics :=
  {| DBinstances := 0%float; TotalStorage := 0%float;
     ManualDBInstanceSnapshots := 0%float |}.

End servicequotas.

(** ** Package exporter *)

Module exporter.
Import golang.

Definition exporterUpStatusCode : float64 := 1%float.
Definition exporterDownStatusCode : float64 := 0%float.

Record Configuration : Set := {
  CollectInstanceMetrics : bool;
  CollectInstanceTags : bool;
  CollectInstanceTypes : bool;
  CollectLogsSize : bool;
  CollectMaintenances : bool;
  CollectQuotas : bool;
  CollectUsages : bool
}.

Record Counters : Set := {
  CloudwatchAPICalls : float64;
  EC2APIcalls : float64;
  Errors : float64;
  RDSAPIcalls : float64;
  ServiceQuotasAPICalls : float64;
  UsageAPIcalls : float64
}.

Record metrics : Set := {
  ServiceQuota : servicequotas.Metrics;
  RDS : rds.Metrics;
  EC2 : ec2.Metrics;
  CloudwatchInstances : cloudwatch.CloudWatchMetrics;
  CloudWatchUsage : cloudwatch.UsageMetrics
}.

(** *** The Prometheus client library, as far as the collector uses it

    A descriptor is what [prometheus.NewDesc] is given (there are no
    constant labels); a metric is what [prometheus.MustNewConstMetric]
    is given. *)
Record Desc : Set := NewDesc {
  fqName : string;
  help : string;
  variableLabels : list string
}.

Inductive ValueType : Set := CounterValue | GaugeValue.

Record Metric : Set := MustNewConstMetric {
  desc : Desc;
  valueType : ValueType;
  value : float64;
  labelValues : list string
}.

(** *** The descriptors built once by [NewCollector]

    They are fields of [RdsCollector] that no method assigns after
    construction, so they are constants here, under the names of the
    fields.  [instanceTags] is assigned by [Collect] and is a field of
    the collector below. *)

Definition exporterBuildInformation : Desc :=
  NewDesc "rds_exporter_build_info"
    "A metric with constant '1' value labeled by version from which exporter was built"
    ["version"; "commit_sha"; "build_date"; "aws_region"].

Definition errors : Desc :=
  NewDesc "rds_exporter_errors_total"
    "Total number of errors encountered by the exporter"
    ["aws_region"].

Definition allocatedStorage : Desc :=
  NewDesc "rds_allocated_storage_bytes"
    "Allocated storage"
    ["aws_account_id"; "aws_region"; "dbidentifier"].

Definition information : Desc :=
  NewDesc "rds_instance_info"
    "RDS instance information"
    ["aws_account_id"; "aws_region"; "dbidentifier"; "dbi_resource_id"; "instance_class"; "engine"; "engine_version"; "storage_type"; "multi_az"; "deletion_protection"; "role"; "source_dbidentifier"; "pending_modified_values"; "pending_maintenance"; "performance_insights_enabled"; "ca_certificate_identifier"; "arn"].

Definition age : Desc :=
  NewDesc "rds_instance_age_seconds"
    "Time since instance creation"
    ["aws_account_id"; "aws_region"; "dbidentifier"].

Definition maxAllocatedStorage : Desc :=
  NewDesc "rds_max_allocated_storage_bytes"
    "Upper limit in gibibytes to which Amazon RDS can automatically scale the storage of the DB instance"
    ["aws_account_id"; "aws_region"; "dbidentifier"].

Definition maxIops : Desc :=
  NewDesc "rds_max_disk_iops_average"
    "Max IOPS for the instance"
    ["aws_account_id"; "aws_region"; "dbidentifier"].

Definition storageThroughput : Desc :=
  NewDesc "rds_max_storage_throughput_bytes"
    "Max storage throughput"
    ["aws_account_id"; "aws_region"; "dbidentifier"].

Definition readThroughput : Desc :=
  NewDesc "rds_read_throughput_bytes"
    "Average number of bytes read from disk per second"
    ["aws_account_id"; "aws_region"; "dbidentifier"].

Definition writeThroughput : Desc :=
  NewDesc "rds_write_throughput_bytes"
    "Average number of bytes written to disk per second"
    ["aws_account_id"; "aws_region"; "dbidentifier"].

Definition status : Desc :=
  NewDesc "rds_instance_status"
    "Instance status (1: ok, 0: can't scrap metrics)"
    ["aws_account_id"; "aws_region"; "dbidentifier"].

Definition logFilesSize : Desc :=
  NewDesc "rds_instance_log_files_size_bytes"
    "Total of log files on the instance"
    ["aws_account_id"; "aws_region"; "dbidentifier"].

Definition instanceVCPU : Desc :=
  NewDesc "rds_instance_vcpu_average"
    "Total vCPU for this instance class"
    ["aws_account_id"; "aws_region"; "instance_class"].

Definition instanceMemory : Desc :=
  NewDesc "rds_instance_memory_bytes"
    "Instance class memory"
    ["aws_account_id"; "aws_region"; "instance_class"].

Definition cpuUtilisation : Desc :=
  NewDesc "rds_cpu_usage_percent_average"
    "Instance CPU used"
    ["aws_account_id"; "aws_region"; "dbidentifier"].

Definition instanceMaximumThroughput : Desc :=
  NewDesc "rds_instance_max_throughput_bytes"
    "Maximum throughput of underlying EC2 instance class"
    ["aws_account_id"; "aws_region"; "instance_class"].

Definition instanceMaximumIops : Desc :=
  NewDesc "rds_instance_max_iops_average"
    "Maximum IOPS of underlying EC2 instance class"
    ["aws_account_id"; "aws_region"; "instance_class"].

Definition freeStorageSpace : Desc :=
  NewDesc "rds_free_storage_bytes"
    "Free storage on the instance"
    ["aws_account_id"; "aws_region"; "dbidentifier"].

Definition databaseConnections : Desc :=
  NewDesc "rds_database_connections_average"
    "The number of client network connections to the database instance"
    ["aws_account_id"; "aws_region"; "dbidentifier"].

Definition up : Desc :=
  NewDesc "up"
    "Was the last scrape of RDS successful"
    ["aws_region"].

Definition swapUsage : Desc :=
  NewDesc "rds_swap_usage_bytes"
    "Amount of swap space used on the DB instance. This metric is not available for SQL Server"
    ["aws_account_id"; "aws_region"; "dbidentifier"].

Definition writeIOPS : Desc :=
  NewDesc "rds_write_iops_average"
    "Average number of disk write I/O operations per second"
    ["aws_account_id"; "aws_region"; "dbidentifier"].

Definition readIOPS : Desc :=
  NewDesc "rds_read_iops_average"
    "Average number of disk read I/O operations per second"
    ["aws_account_id"; "aws_region"; "dbidentifier"].

Definition replicaLag : Desc :=
  NewDesc "rds_replica_lag_seconds"
    "For read replica configurations, the amount of time a read replica DB instance lags behind the source DB instance. Applies to MariaDB, Microsoft SQL Server, MySQL, Oracle, and PostgreSQL read replicas"
    ["aws_account_id"; "aws_region"; "dbidentifier"].

Definition replicationSlotDiskUsage : Desc :=
  NewDesc "rds_replication_slot_disk_usage_bytes"
    "Disk space used by replication slot files. Applies to PostgreSQL"
    ["aws_account_id"; "aws_region"; "dbidentifier"].

Definition maximumUsedTransactionIDs : Desc :=
  NewDesc "rds_maximum_used_transaction_ids_average"
    "Maximum transaction IDs that have been used. Applies to only PostgreSQL"
    ["aws_account_id"; "aws_region"; "dbidentifier"].

Definition freeableMemory : Desc :=
  NewDesc "rds_freeable_memory_bytes"
    "Amount of available random access memory. For MariaDB, MySQL, Oracle, and PostgreSQL DB instances, this metric reports the value of the MemAvailable field of /proc/meminfo"
    ["aws_account_id"; "aws_region"; "dbidentifier"].

Definition apiCall : Desc :=
  NewDesc "rds_api_call_total"
    "Number of call to AWS API"
    ["aws_account_id"; "aws_region"; "api"].

Definition backupRetentionPeriod : Desc :=
  NewDesc "rds_backup_retention_period_seconds"
    "Automatic DB snapshots retention period"
    ["aws_account_id"; "aws_region"; "dbidentifier"].

Definition DBLoad : Desc :=
  NewDesc "rds_dbload_average"
    "Number of active sessions for the DB engine"
    ["aws_account_id"; "aws_region"; "dbidentifier"].

Definition dBLoadCPU : Desc :=
  NewDesc "rds_dbload_cpu_average"
    "Number of active sessions where the wait event type is CPU"
    ["aws_account_id"; "aws_region"; "dbidentifier"].

Definition dBLoadNonCPU : Desc :=
  NewDesc "rds_dbload_noncpu_average"
    "Number of active sessions where the wait event type is not CPU"
    ["aws_account_id"; "aws_region"; "dbidentifier"].

Definition transactionLogsDiskUsage : Desc :=
  NewDesc "rds_transaction_logs_disk_usage_bytes"
    "Disk space used by transaction logs (only on PostgreSQL)"
    ["aws_account_id"; "aws_region"; "dbidentifier"].

Definition certificateValidTill : Desc :=
  NewDesc "rds_certificate_expiry_timestamp_seconds"
    "Timestamp of the expiration of the Instance certificate"
    ["aws_account_id"; "aws_region"; "dbidentifier"].

Definition quotaDBInstances : Desc :=
  NewDesc "rds_quota_max_dbinstances_average"
    "Maximum number of RDS instances allowed in the AWS account"
    ["aws_account_id"; "aws_region"].

Definition quotaTotalStorage : Desc :=
  NewDesc "rds_quota_total_storage_bytes"
    "Maximum total storage for all DB instances"
    ["aws_account_id"; "aws_region"].

Definition quotaMaxDBInstanceSnapshots : Desc :=
  NewDesc "rds_quota_maximum_db_instance_snapshots_average"
    "Maximum number of manual DB instance snapshots"
    ["aws_account_id"; "aws_region"].

Definition usageAllocatedStorage : Desc :=
  NewDesc "rds_usage_allocated_storage_bytes"
    "Total storage used by AWS RDS instances"
    ["aws_account_id"; "aws_region"].

Definition usageDBInstances : Desc :=
  NewDesc "rds_usage_db_instances_average"
    "AWS RDS instance count"
    ["aws_account_id"; "aws_region"].

Definition usageManualSnapshots : Desc :=
  NewDesc "rds_usage_manual_snapshots_average"
    "Manual snapshots count"
    ["aws_account_id"; "aws_region"].

Definition BufferCacheHitRatio : Desc :=
  NewDesc "rds_buffer_cache_hit_ratio"
    "The percentage of requests that are served by the buffer cache"
    ["aws_account_id"; "aws_region"; "dbidentifier"].

Definition Deadlocks : Desc :=
  NewDesc "rds_deadlocks"
    "The number of deadlocks in the database"
    ["aws_account_id"; "aws_region"; "dbidentifier"].

Definition Queries : Desc :=
  NewDesc "rds_queries"
    "The average number of queries executed per second"
    ["aws_account_id"; "aws_region"; "dbidentifier"].

Definition EngineUptime : Desc :=
  NewDesc "rds_engine_uptime_seconds"
    "The amount of time that the RDS instance has been running"
    ["aws_account_id"; "aws_region"; "dbidentifier"].

Definition SumBinaryLogSize : Desc :=
  NewDesc "rds_sum_binary_log_size_bytes"
    "The total size of all binary logs on the master"
    ["aws_account_id"; "aws_region"; "dbidentifier"].

Definition NumBinaryLogFiles : Desc :=
  NewDesc "rds_num_binary_log_files"
    "The number of binary log files on the master"
    ["aws_account_id"; "aws_region"; "dbidentifier"].

Definition AuroraBinlogReplicaLag : Desc :=
  NewDesc "rds_aurora_binlog_replica_lag_seconds"
    "The amount of time a replica Aurora DB cluster lags behind the source DB cluster"
    ["aws_account_id"; "aws_region"; "dbidentifier"].

Definition BinLogDiskUsage : Desc :=
  NewDesc "rds_binlog_disk_usage_bytes"
    "binary log disk usage"
    ["aws_account_id"; "aws_region"; "dbidentifier"].

(** [RdsCollector]: the fields that change, and the identity and
    configuration given to [NewCollector]. *)
Record RdsCollector : Set := {
  counters : Counters;
  metrics_ : metrics;
  awsAccountID : string;
  awsRegion : string;
  configuration : Configuration;
  instanceTags : Desc
}.

Definition NewCollector (collectorConfiguration : Configuration)
  (awsAccountID awsRegion : string) : RdsCollector :=
  {| counters :=
       {| CloudwatchAPICalls := 0%float; EC2APIcalls := 0%float; Errors := 0%float;
          RDSAPIcalls := 0%float; ServiceQuotasAPICalls := 0%float;
          UsageAPIcalls := 0%float |};
     metrics_ :=
       {| ServiceQuota := servicequotas.zeroMetrics;
          RDS := rds.zeroMetrics;
          EC2 := ec2.zeroMetrics;
          CloudwatchInstances := cloudwatch.emptyCloudWatchMetrics;
          CloudWatchUsage :=
            {| cloudwatch.AllocatedStorage := 0%float;
               cloudwatch.DBInstances := 0%float;
               cloudwatch.ManualSnapshots := 0%float |} |};
     awsAccountID := awsAccountID;
     awsRegion := awsRegion;
     configuration := collectorConfiguration;
     instanceTags :=
       NewDesc "rds_instance_tags"
         "AWS tags attached to the instance"
         ["aws_account_id"; "aws_region"; "dbidentifier"] |}.

(** [Describe]: the descriptors sent on the channel, in order. *)
Definition Describe (c : RdsCollector) : list Desc :=
  [ DBLoad; age; allocatedStorage; apiCall; apiCall; backupRetentionPeriod;
    certificateValidTill; cpuUtilisation; dBLoadCPU; dBLoadNonCPU;
    databaseConnections; errors; exporterBuildInformation; freeStorageSpace;
    freeableMemory; information; instanceMaximumIops; instanceMaximumThroughput;
    instanceMemory; instanceVCPU; logFilesSize; maxAllocatedStorage; maxIops;
    maximumUsedTransactionIDs; quotaDBInstances; quotaMaxDBInstanceSnapshots;
    quotaTotalStorage; readIOPS; readThroughput; replicaLag;
    replicationSlotDiskUsage; status; storageThroughput; swapUsage;
    transactionLogsDiskUsage; up; usageAllocatedStorage; usageDBInstances;
    usageManualSnapshots; writeIOPS; writeThroughput; BufferCacheHitRatio;
    Deadlocks; Queries; EngineUptime; SumBinaryLogSize; NumBinaryLogFiles;
    AuroraBinlogReplicaLag; BinLogDiskUsage ].


(** *** The collaborators of a collector

    What a scrape obtains from outside the two packages: the build
    information, the fetchers of the packages whose files are not part
    of the sources (each with the API calls its [GetStatistics]
    reports), the Cloudwatch client, the helper
    [getUniqTypeAndIdentifiers], and the orders in which this scrape
    iterates over the maps whose order matters to a result. *)
Record Fetched (A : Set) : Set := {
  result : A;
  err : option error;
  apiCalls : float64
}.
Arguments result {A} _.
Arguments err {A} _.
Arguments apiCalls {A} _.

Record World : Type := {
  Version : string;
  CommitSHA : string;
  Date : string;
  (* rds.NewFetcher(client, rds.Configuration{CollectLogsSize, CollectMaintenances}).GetInstancesMetrics() *)
  GetInstancesMetrics : bool -> bool -> Fetched rds.Metrics;
  (* ec2.NewFetcher(client).GetDBInstanceTypeInformation(instanceTypes) *)
  GetDBInstanceTypeInformation : list string -> Fetched ec2.Metrics;
  (* cloudwatch.NewUsageFetcher(client, logger).GetUsageMetrics(), for the client it is given *)
  NewUsageFetcher : cloudwatch.CloudWatchClient -> Fetched cloudwatch.UsageMetrics;
  (* servicequotas.NewFetcher(client).GetRDSQuotas() *)
  GetRDSQuotas : Fetched servicequotas.Metrics;
  cloudWatchClient : cloudwatch.CloudWatchClient;
  getUniqTypeAndIdentifiers :
    gmap string rds.RdsInstanceMetrics -> list string * list string;
  rangeQueries : gmap string cloudwatch.CloudWatchMetricRequest -> list string;
  rangeTags : gmap string string -> list (string * string);
  rangeLabels : gmap string string -> list (string * string)
}.

(** The usage fetcher is built in [getUsagesMetrics] from the client
    that [fetchMetrics] passes, [c.cloudWatchClient]: the client of the
    time-series fetcher. *)
Definition GetUsageMetrics (w : World) : Fetched cloudwatch.UsageMetrics :=
  NewUsageFetcher w (cloudWatchClient w).

(** Modelled from the spec: the characters that a sanitised tag key
    keeps, [A-Za-z0-9_]. *)
Definition isLabelCharacter (a : ascii) : bool :=
  let n := N_of_ascii a in
  (((65 <=? n) && (n <=? 90)) || ((97 <=? n) && (n <=? 122))
   || ((48 <=? n) && (n <=? 57)) || (n =? 95))%N.

(** Modelled from the spec: [ClearPrometheusLabel], a helper of the
    package whose file is not part of the sources.  "Tag keys are
    sanitized by replacing any character outside [A-Za-z0-9_] with _". *)
Fixpoint ClearPrometheusLabel (str : string) : string :=
  match str with
  | EmptyString => EmptyString
  | String a rest =>
      String (if isLabelCharacter a then a else "_"%char) (ClearPrometheusLabel rest)
  end.

(** Assignments to the fields of the collector. *)
Definition setCounters (k : Counters) (c : RdsCollector) : RdsCollector :=
  {| counters := k; metrics_ := metrics_ c; awsAccountID := awsAccountID c;
     awsRegion := awsRegion c; configuration := configuration c;
     instanceTags := instanceTags c |}.

Definition setMetrics (m : metrics) (c : RdsCollector) : RdsCollector :=
  {| counters := counters c; metrics_ := m; awsAccountID := awsAccountID c;
     awsRegion := awsRegion c; configuration := configuration c;
     instanceTags := instanceTags c |}.

Definition setInstanceTags (d : Desc) (c : RdsCollector) : RdsCollector :=
  {| counters := counters c; metrics_ := metrics_ c; awsAccountID := awsAccountID c;
     awsRegion := awsRegion c; configuration := configuration c;
     instanceTags := d |}.

(** [c.counters.Errors++] *)
Definition incErrors (c : RdsCollector) : RdsCollector :=
  let k := counters c in
  setCounters
    {| CloudwatchAPICalls := CloudwatchAPICalls k; EC2APIcalls := EC2APIcalls k;
       Errors := (Errors k + 1)%float; RDSAPIcalls := RDSAPIcalls k;
       ServiceQuotasAPICalls := ServiceQuotasAPICalls k;
       UsageAPIcalls := UsageAPIcalls k |} c.

Definition countError (e : option error) (c : RdsCollector) : RdsCollector :=
  match e with
  | Some _ => incErrors c
  | None => c
  end.

Definition getCloudwatchMetrics (w : World) (instanceIdentifiers : list string)
  (c : RdsCollector) : RdsCollector :=
  let fetcher := cloudwatch.NewRDSFetcher (cloudWatchClient w) in
  let '(fetcher, metrics, err) :=
    cloudwatch.GetRDSInstanceMetrics (rangeQueries w) fetcher instanceIdentifiers in
  let c := countError err c in
  let k := counters c in
  let c :=
    setCounters
      {| CloudwatchAPICalls :=
           (CloudwatchAPICalls k
            + cloudwatch.CloudWatchAPICall (cloudwatch.GetStatistics fetcher))%float;
         EC2APIcalls := EC2APIcalls k; Errors := Errors k;
         RDSAPIcalls := RDSAPIcalls k;
         ServiceQuotasAPICalls := ServiceQuotasAPICalls k;
         UsageAPIcalls := UsageAPIcalls k |} c in
  let m := metrics_ c in
  setMetrics
    {| ServiceQuota := ServiceQuota m; RDS := RDS m; EC2 := EC2 m;
       CloudwatchInstances := metrics; CloudWatchUsage := CloudWatchUsage m |} c.

Definition getUsagesMetrics (w : World) (c : RdsCollector) : RdsCollector :=
  let fetched := GetUsageMetrics w in
  let c := countError (err fetched) c in
  let k := counters c in
  let c :=
    setCounters
      {| CloudwatchAPICalls := CloudwatchAPICalls k; EC2APIcalls := EC2APIcalls k;
         Errors := Errors k; RDSAPIcalls := RDSAPIcalls k;
         ServiceQuotasAPICalls := ServiceQuotasAPICalls k;
         UsageAPIcalls := (UsageAPIcalls k + apiCalls fetched)%float |} c in
  let m := metrics_ c in
  setMetrics
    {| ServiceQuota := ServiceQuota m; RDS := RDS m; EC2 := EC2 m;
       CloudwatchInstances := CloudwatchInstances m;
       CloudWatchUsage := result fetched |} c.

Definition getEC2Metrics (w : World) (instanceTypes : list string)
  (c : RdsCollector) : RdsCollector :=
  let fetched := GetDBInstanceTypeInformation w instanceTypes in
  let c := countError (err fetched) c in
  let k := counters c in
  let c :=
    setCounters
      {| CloudwatchAPICalls := CloudwatchAPICalls k;
         EC2APIcalls := (EC2APIcalls k + apiCalls fetched)%float;
         Errors := Errors k; RDSAPIcalls := RDSAPIcalls k;
         ServiceQuotasAPICalls := ServiceQuotasAPICalls k;
         UsageAPIcalls := UsageAPIcalls k |} c in
  let m := metrics_ c in
  setMetrics
    {| ServiceQuota := ServiceQuota m; RDS := RDS m; EC2 := result fetched;
       CloudwatchInstances := CloudwatchInstances m;
       CloudWatchUsage := CloudWatchUsage m |} c.

Definition getQuotasMetrics (w : World) (c : RdsCollector) : RdsCollector :=
  let fetched := GetRDSQuotas w in
  let c := countError (err fetched) c in
  let k := counters c in
  let c :=
    setCounters
      {| CloudwatchAPICalls := CloudwatchAPICalls k; EC2APIcalls := EC2APIcalls k;
         Errors := Errors k; RDSAPIcalls := RDSAPIcalls k;
         ServiceQuotasAPICalls := (ServiceQuotasAPICalls k + apiCalls fetched)%float;
         UsageAPIcalls := UsageAPIcalls k |} c in
  let m := metrics_ c in
  setMetrics
    {| ServiceQuota := result fetched; RDS := RDS m; EC2 := EC2 m;
       CloudwatchInstances := CloudwatchInstances m;
       CloudWatchUsage := CloudWatchUsage m |} c.

(** [fetchMetrics].  The subtasks started with [go] write to fields of
    their own (and all add to [Errors]); they run here in the order in
    which they are started, each to completion.  When the inventory
    fetch fails the function returns without waiting for the subtasks
    already started; the model lets them finish first. *)
Definition fetchMetrics (w : World) (c : RdsCollector)
  : RdsCollector * option error :=
  let c := if CollectQuotas (configuration c) then getQuotasMetrics w c else c in
  let c := if CollectUsages (configuration c) then getUsagesMetrics w c else c in
  let fetched :=
    GetInstancesMetrics w (CollectLogsSize (configuration c))
                        (CollectMaintenances (configuration c)) in
  match err fetched with
  | Some err => (c, Some (Errorf "can't fetch RDS metrics" err))
  | None =>
      let rdsMetrics := result fetched in
      let m := metrics_ c in
      let c :=
        setMetrics
          {| ServiceQuota := ServiceQuota m; RDS := rdsMetrics; EC2 := EC2 m;
             CloudwatchInstances := CloudwatchInstances m;
             CloudWatchUsage := CloudWatchUsage m |} c in
      let k := counters c in
      let c :=
        setCounters
          {| CloudwatchAPICalls := CloudwatchAPICalls k; EC2APIcalls := EC2APIcalls k;
             Errors := Errors k;
             RDSAPIcalls := (RDSAPIcalls k + apiCalls fetched)%float;
             ServiceQuotasAPICalls := ServiceQuotasAPICalls k;
             UsageAPIcalls := UsageAPIcalls k |} c in
      let '(instanceIdentifiers, instanceTypes) :=
        getUniqTypeAndIdentifiers w (rds.Instances rdsMetrics) in
      let c :=
        if CollectInstanceTypes (configuration c) && (0 <? length instanceTypes)
        then getEC2Metrics w instanceTypes c else c in
      let c :=
        if CollectInstanceMetrics (configuration c)
        then getCloudwatchMetrics w instanceIdentifiers c else c in
      (c, None)
  end.

(** [getInstanceTagLabels]: the two loops over maps take the orders of
    this scrape from [w]. *)
Definition getInstanceTagLabels (w : World) (c : RdsCollector)
  (dbidentifier : string) (instance : rds.RdsInstanceMetrics)
  : list string * list string :=
  let labels : gmap string string :=
    <["dbidentifier" := dbidentifier]>
      (<["aws_region" := awsRegion c]>
         (<["aws_account_id" := awsAccountID c]> ∅)) in
  let labels :=
    foldl (fun (labels : gmap string string) '(k, v) =>
             let labelName := "tag_" +:+ ClearPrometheusLabel k in
             <[labelName := v]> labels)
          labels (rangeTags w (rds.Tags instance)) in
  let pairs := rangeLabels w labels in
  (pairs.*1, pairs.*2).


(** [if v != nil { ch <- MustNewConstMetric(d, GaugeValue, *v, labels...) }] *)
Definition ifPresent (d : Desc) (v : option float64) (labels : list string)
  : list Metric :=
  match v with
  | Some x => [MustNewConstMetric d GaugeValue x labels]
  | None => []
  end.

(** The body of the loop of [Collect] over [c.metrics.RDS.Instances]:
    the collector (whose [instanceTags] it assigns) and the metrics
    sent so far. *)
Definition collectRDSInstance (w : World) (acc : RdsCollector * list Metric)
  (entry : string * rds.RdsInstanceMetrics) : RdsCollector * list Metric :=
  let '(c, ch) := acc in
  let '(dbidentifier, instance) := entry in
  let labels := [awsAccountID c; awsRegion c; dbidentifier] in
  let ch :=
    (ch ++
     [ MustNewConstMetric allocatedStorage GaugeValue
         (float64_of_int (rds.AllocatedStorage instance)) labels;
       MustNewConstMetric information GaugeValue 1%float
         [ awsAccountID c; awsRegion c; dbidentifier;
           rds.DbiResourceID instance; rds.DBInstanceClass instance;
           rds.Engine instance; rds.EngineVersion instance;
           rds.StorageType instance;
           FormatBool (rds.MultiAZ instance);
           FormatBool (rds.DeletionProtection instance);
           rds.Role instance; rds.SourceDBInstanceIdentifier instance;
           FormatBool (rds.PendingModifiedValues instance);
           rds.PendingMaintenanceAction instance;
           FormatBool (rds.PerformanceInsightsEnabled instance);
           rds.CACertificateIdentifier instance; rds.Arn instance ];
       MustNewConstMetric maxAllocatedStorage GaugeValue
         (float64_of_int (rds.MaxAllocatedStorage instance)) labels;
       MustNewConstMetric maxIops GaugeValue
         (float64_of_int (rds.MaxIops instance)) labels;
       MustNewConstMetric status GaugeValue
         (float64_of_int (rds.Status instance)) labels;
       MustNewConstMetric storageThroughput GaugeValue
         (float64_of_int (rds.StorageThroughput instance)) labels;
       MustNewConstMetric backupRetentionPeriod GaugeValue
         (float64_of_int (rds.BackupRetentionPeriod instance)) labels ])%list in
  let '(c, ch) :=
    if CollectInstanceTags (configuration c) then
      let '(names, values) := getInstanceTagLabels w c dbidentifier instance in
      let c :=
        setInstanceTags
          (NewDesc "rds_instance_tags" "AWS tags attached to the instance" names) c in
      (c, (ch ++ [MustNewConstMetric (instanceTags c) GaugeValue 0%float values])%list)
    else (c, ch) in
  let ch :=
    (ch ++ ifPresent certificateValidTill
             (float64_of_int <$> rds.CertificateValidTill instance) labels)%list in
  let ch := (ch ++ ifPresent age (rds.Age instance) labels)%list in
  let ch :=
    (ch ++ ifPresent logFilesSize
             (float64_of_int <$> rds.LogFilesSize instance) labels)%list in
  (c, ch).

(** The body of the loop over [c.metrics.CloudwatchInstances.Instances]:
    the metrics one iteration sends. *)
Definition collectCloudwatchInstance (c : RdsCollector)
  (entry : string * cloudwatch.RdsMetrics) : list Metric :=
  let '(dbidentifier, instance) := entry in
  let labels := [awsAccountID c; awsRegion c; dbidentifier] in
  (ifPresent databaseConnections (cloudwatch.DatabaseConnections instance) labels
    ++ ifPresent freeStorageSpace (cloudwatch.FreeStorageSpace instance) labels
    ++ ifPresent freeableMemory (cloudwatch.FreeableMemory instance) labels
    ++ ifPresent maximumUsedTransactionIDs (cloudwatch.MaximumUsedTransactionIDs instance) labels
    ++ ifPresent readThroughput (cloudwatch.ReadThroughput instance) labels
    ++ ifPresent replicaLag (cloudwatch.ReplicaLag instance) labels
    ++ ifPresent replicationSlotDiskUsage (cloudwatch.ReplicationSlotDiskUsage instance) labels
    ++ ifPresent swapUsage (cloudwatch.SwapUsage instance) labels
    ++ ifPresent readIOPS (cloudwatch.ReadIOPS instance) labels
    ++ ifPresent writeIOPS (cloudwatch.WriteIOPS instance) labels
    ++ ifPresent writeThroughput (cloudwatch.WriteThroughput instance) labels
    ++ ifPresent transactionLogsDiskUsage (cloudwatch.TransactionLogsDiskUsage instance) labels
    ++ ifPresent DBLoad (cloudwatch.DBLoad instance) labels
    ++ ifPresent cpuUtilisation (cloudwatch.CPUUtilization instance) labels
    ++ ifPresent dBLoadCPU (cloudwatch.DBLoadCPU instance) labels
    ++ ifPresent dBLoadNonCPU (cloudwatch.DBLoadNonCPU instance) labels
    ++ ifPresent BufferCacheHitRatio (cloudwatch.BufferCacheHitRatio instance) labels
    ++ ifPresent Deadlocks (cloudwatch.Deadlocks instance) labels
    ++ ifPresent Queries (cloudwatch.Queries instance) labels
    ++ ifPresent EngineUptime (cloudwatch.EngineUptime instance) labels
    ++ ifPresent SumBinaryLogSize (cloudwatch.SumBinaryLogSize instance) labels
    ++ ifPresent NumBinaryLogFiles (cloudwatch.NumBinaryLogFiles instance) labels
    ++ ifPresent AuroraBinlogReplicaLag (cloudwatch.AuroraBinlogReplicaLag instance) labels
    ++ ifPresent BinLogDiskUsage (cloudwatch.BinLogDiskUsage instance) labels)%list.

(** The body of the loop over [c.metrics.EC2.Instances]. *)
Definition collectEC2Instance (c : RdsCollector)
  (entry : string * ec2.EC2InstanceMetrics) : list Metric :=
  let '(instanceType, instance) := entry in
  let labels := [awsAccountID c; awsRegion c; instanceType] in
  [ MustNewConstMetric instanceMaximumIops GaugeValue
      (float64_of_int (ec2.MaximumIops instance)) labels;
    MustNewConstMetric instanceMaximumThroughput GaugeValue
      (ec2.MaximumThroughput instance) labels;
    MustNewConstMetric instanceMemory GaugeValue
      (float64_of_int (ec2.Memory instance)) labels;
    MustNewConstMetric instanceVCPU GaugeValue
      (float64_of_int (ec2.Vcpu instance)) labels ].

(** [Collect]: the collector after the scrape and the metrics sent on
    the channel, in order.  The loops over maps send the entries in
    the order of [map_to_list]; Go leaves that order open, and the
    properties below are about which samples are sent, not about the
    place of one instance among the others. *)
Definition Collect (w : World) (c : RdsCollector) : RdsCollector * list Metric :=
  let ch :=
    [ MustNewConstMetric exporterBuildInformation GaugeValue 1%float
        [Version w; CommitSHA w; Date w; awsRegion c];
      MustNewConstMetric errors CounterValue (Errors (counters c)) [awsRegion c] ] in
  match fetchMetrics w c with
  | (c, Some _) =>
      (c, (ch ++ [MustNewConstMetric up GaugeValue exporterDownStatusCode
                    [awsRegion c]])%list)
  | (c, None) =>
      let ch :=
        (ch ++ [MustNewConstMetric up GaugeValue exporterUpStatusCode
                  [awsRegion c]])%list in
      (* RDS metrics *)
      let ch :=
        (ch ++ [MustNewConstMetric apiCall CounterValue (RDSAPIcalls (counters c))
                  [awsAccountID c; awsRegion c; "rds"]])%list in
      let '(c, ch) :=
        foldl (collectRDSInstance w) (c, ch)
              (map_to_list (rds.Instances (RDS (metrics_ c)))) in
      (* Cloudwatch metrics *)
      let ch :=
        (ch ++ [MustNewConstMetric apiCall CounterValue
                  (CloudwatchAPICalls (counters c))
                  [awsAccountID c; awsRegion c; "cloudwatch"]])%list in
      let ch :=
        (ch ++ (map_to_list
                  (cloudwatch.Instances (CloudwatchInstances (metrics_ c)))
                ≫= collectCloudwatchInstance c))%list in
      (* usage metrics *)
      let ch :=
        if CollectUsages (configuration c) then
          (ch ++
           [ MustNewConstMetric apiCall CounterValue (UsageAPIcalls (counters c))
               [awsAccountID c; awsRegion c; "usage"];
             MustNewConstMetric usageAllocatedStorage GaugeValue
               (cloudwatch.AllocatedStorage (CloudWatchUsage (metrics_ c)))
               [awsAccountID c; awsRegion c];
             MustNewConstMetric usageDBInstances GaugeValue
               (cloudwatch.DBInstances (CloudWatchUsage (metrics_ c)))
               [awsAccountID c; awsRegion c];
             MustNewConstMetric usageManualSnapshots GaugeValue
               (cloudwatch.ManualSnapshots (CloudWatchUsage (metrics_ c)))
               [awsAccountID c; awsRegion c] ])%list
        else ch in
      (* EC2 metrics *)
      let ch :=
        (ch ++ [MustNewConstMetric apiCall CounterValue (EC2APIcalls (counters c))
                  [awsAccountID c; awsRegion c; "ec2"]])%list in
      let ch :=
        (ch ++ (map_to_list (ec2.Instances (EC2 (metrics_ c)))
                ≫= collectEC2Instance c))%list in
      (* serviceQuotas metrics *)
      let ch :=
        if CollectQuotas (configuration c) then
          (ch ++
           [ MustNewConstMetric apiCall CounterValue
               (ServiceQuotasAPICalls (counters c))
               [awsAccountID c; awsRegion c; "servicequotas"];
             MustNewConstMetric quotaDBInstances GaugeValue
               (servicequotas.DBinstances (ServiceQuota (metrics_ c)))
               [awsAccountID c; awsRegion c];
             MustNewConstMetric quotaTotalStorage GaugeValue
               (servicequotas.TotalStorage (ServiceQuota (metrics_ c)))
               [awsAccountID c; awsRegion c];
             MustNewConstMetric quotaMaxDBInstanceSnapshots GaugeValue
               (servicequotas.ManualDBInstanceSnapshots (ServiceQuota (metrics_ c)))
               [awsAccountID c; awsRegion c] ])%list
        else ch in
      (c, ch)
  end.

Definition GetStatistics (c : RdsCollector) : Counters := counters c.

Definition GetMetrics (c : RdsCollector) : metrics := metrics_ c.

End exporter.
(** ** Package mocks: the EC2 client of the tests *)

Module mocks.
Import golang.

Definition InstanceT3Large : ec2.EC2InstanceMetrics :=
  {| ec2.MaximumIops := 15700;
     ec2.MaximumThroughput := 347.5%float;
     ec2.Memory := 8;
     ec2.Vcpu := 2 |}.

Definition InstanceT3Small : ec2.EC2InstanceMetrics :=
  {| ec2.MaximumIops := 11800;
     ec2.MaximumThroughput := 0x1.049eb851eb852p+8%float;  (* 260.62 *)
     ec2.Memory := 2;
     ec2.Vcpu := 2 |}.

(** The SDK's [types.InstanceTypeInfo] with the fields that the mock
    fills, flattened. *)
Record InstanceTypeInfo : Set := {
  InstanceType : string;
  DefaultVCpus : Z;
  SizeInMiB : Z;
  MaximumIops : Z;
  MaximumThroughputInMBps : float64
}.

(** The body of the loop of [DescribeInstanceTypes]: the [switch] on
    the instance type, which has no [default] case. *)
Definition describe (instances : list InstanceTypeInfo) (instanceType : string)
  : list InstanceTypeInfo :=
  if String.eqb instanceType "t3.large" then
    instances ++
    [ {| InstanceType := instanceType;
         DefaultVCpus := ec2.Vcpu InstanceT3Large;
         SizeInMiB := ec2.Memory InstanceT3Large;
         MaximumIops := ec2.MaximumIops InstanceT3Large;
         MaximumThroughputInMBps := ec2.MaximumThroughput InstanceT3Large |} ]
  else if String.eqb instanceType "t3.small" then
    instances ++
    [ {| InstanceType := instanceType;
         DefaultVCpus := ec2.Vcpu InstanceT3Small;
         SizeInMiB := ec2.Memory InstanceT3Small;
         MaximumIops := ec2.MaximumIops InstanceT3Small;
         MaximumThroughputInMBps := ec2.MaximumThroughput InstanceT3Small |} ]
  else instances.

(** [func (m EC2Client) DescribeInstanceTypes]: [input.InstanceTypes]
    to [output.InstanceTypes] and the error. *)
Definition DescribeInstanceTypes (input : list string)
  : list InstanceTypeInfo * option error :=
  (foldl describe [] input, None).

End mocks.

(** ** Package cmd

    The commands of the exporter, as far as they are code of the
    repository: how the AWS configuration of a region is made, and how
    [run] turns the regions of the configuration into registered
    collectors and gathers their metrics.  The AWS SDK, the Prometheus
    registry and the HTTP server are collaborators. *)

Module aws.

(** [aws.Config.Credentials]: nil, what [config.LoadDefaultConfig]
    resolved, or the cache over the provider that assumes a role with
    a session name (through an STS client made from the configuration
    as it was loaded). *)
Inductive CredentialsProvider : Set :=
| nilCredentials
| resolvedCredentials (source : string)
| assumeRoleCache (roleArn sessionName : string).

(** [aws.Config], with the fields that the commands read or assign. *)
Record Config : Set := {
  Region : string;
  Credentials : CredentialsProvider
}.

(** [aws.Config{}] *)
Definition zeroConfig : Config :=
  {| Region := EmptyString; Credentials := nilCredentials |}.

End aws.

Module cmd.
Import golang.

Definition configErrorExitCode : Z := 1.
Definition httpErrorExitCode : Z := 2.
Definition exporterErrorExitCode : Z := 3.
Definition awsErrorExitCode : Z := 4.

Record exporterConfig : Set := {
  Debug : bool;
  LogFormat : string;
  TLSCertPath : string;
  TLSKeyPath : string;
  MetricPath : string;
  ListenAddress : string;
  AWSAssumeRoleSession : string;
  AWSAssumeRoleArn : string;
  CollectInstanceMetrics : bool;
  CollectInstanceTags : bool;
  CollectInstanceTypes : bool;
  CollectLogsSize : bool;
  CollectMaintenances : bool;
  CollectQuotas : bool;
  CollectUsages : bool;
  AWSRegions : list string
}.

(** What the commands call outside the repository. *)
Record Host : Type := {
  (* config.LoadDefaultConfig(context.TODO(), config.WithRegion(region)) *)
  LoadDefaultConfig : string -> aws.Config + error;
  (* imds.NewFromConfig(cfg).GetRegion(context.TODO(), &imds.GetRegionInput{}): response.Region *)
  GetRegion : aws.Config -> string + error;
  (* sts.NewFromConfig(cfg).GetCallerIdentity(context.TODO(), nil): *output.Account *)
  GetCallerIdentity : aws.Config -> string + error;
  (* logger.New(debug, logFormat): the error *)
  New : bool -> string -> option error;
  (* prometheus.NewRegistry().Register(collector) *)
  Register : exporter.RdsCollector -> option error;
  (* http.NewServeMux().Handle(pattern, handler): the value it
     panics with when it refuses the pattern *)
  Handle : string -> option error;
  (* server.ListenAndServe(), the server serving the registries on
     the metrics path at the listen address *)
  ListenAndServe : string -> string -> gmap string exporter.RdsCollector -> option error
}.

(** [getAWSConfiguration] *)
Definition getAWSConfiguration (host : Host) (roleArn sessionName region : string)
  : aws.Config * option error :=
  match LoadDefaultConfig host region with
  | inr err => (aws.zeroConfig, Some (Errorf "can't create AWS session" err))
  | inl cfg =>
      let cfg :=
        if negb (String.eqb roleArn EmptyString) then
          {| aws.Region := aws.Region cfg;
             aws.Credentials := aws.assumeRoleCache roleArn sessionName |}
        else cfg in
      let cfg :=
        if String.eqb (aws.Region cfg) EmptyString then
          match GetRegion host cfg with
          | inl region =>
              {| aws.Region := region; aws.Credentials := aws.Credentials cfg |}
          | inr _ => cfg
          end
        else cfg in
      (cfg, None)
  end.

(** [getAWSSessionInformation] *)
Definition getAWSSessionInformation (host : Host) (cfg : aws.Config)
  : string * string * option error :=
  match GetCallerIdentity host cfg with
  | inr err =>
      (EmptyString, EmptyString,
       Some (Errorf "can't fetch information about current session" err))
  | inl account => (account, aws.Region cfg, None)
  end.

(** How a command goes on: to its next statement, or out of the
    process through [os.Exit] or [panic]. *)
Inductive outcome (A : Type) : Type :=
| proceed (a : A)
| exit (code : Z)
| panic (err : error).
Arguments proceed {A} _.
Arguments exit {A} _.
Arguments panic {A} _.

(** The composite literal assigned to [collectorConfiguration] in [run]. *)
Definition collectorConfiguration (configuration : exporterConfig)
  : exporter.Configuration :=
  {| exporter.CollectInstanceMetrics := CollectInstanceMetrics configuration;
     exporter.CollectInstanceTypes := CollectInstanceTypes configuration;
     exporter.CollectInstanceTags := CollectInstanceTags configuration;
     exporter.CollectLogsSize := CollectLogsSize configuration;
     exporter.CollectMaintenances := CollectMaintenances configuration;
     exporter.CollectQuotas := CollectQuotas configuration;
     exporter.CollectUsages := CollectUsages configuration |}.

(** The body of the loop of [run] over the regions.  A registry is
    fresh and holds one collector, so it is given as that collector. *)
Definition registerRegion (host : Host) (configuration : exporterConfig)
  (registries : gmap string exporter.RdsCollector) (region : string)
  : outcome (gmap string exporter.RdsCollector) :=
  match getAWSConfiguration host (AWSAssumeRoleArn configuration)
          (AWSAssumeRoleSession configuration) region with
  | (_, Some _) => exit awsErrorExitCode
  | (cfg, None) =>
      match getAWSSessionInformation host cfg with
      | (_, _, Some _) => exit awsErrorExitCode
      | (awsAccountID, awsRegion, None) =>
          let collector :=
            exporter.NewCollector (collectorConfiguration configuration)
              awsAccountID awsRegion in
          match Register host collector with
          | Some _ => proceed registries
          | None => proceed (<[region := collector]> registries)
          end
      end
  end.

(** [for _, region := range configuration.AWSRegions] *)
Fixpoint rangeRegions (host : Host) (configuration : exporterConfig)
  (regions : list string) (registries : gmap string exporter.RdsCollector)
  : outcome (gmap string exporter.RdsCollector) :=
  match regions with
  | [] => proceed registries
  | region :: rest =>
      match registerRegion host configuration registries region with
      | proceed registries => rangeRegions host configuration rest registries
      | exit code => exit code
      | panic err => panic err
      end
  end.

(** The function given to [prometheus.GathererFunc] in [run]:
    [Gather] is [registry.Gather()], [order] the order in which this
    call iterates over the registries. *)
Definition gatherRegistries {MetricFamily : Type}
  (Gather : exporter.RdsCollector -> list MetricFamily + error)
  (order : list (string * exporter.RdsCollector))
  : list MetricFamily * option error :=
  (foldl (fun metrics '(region, registry) =>
            match Gather registry with
            | inr _ => metrics
            | inl mfs => metrics ++ mfs
            end)
         [] order,
   None).

(** [run].  The handler is registered on a fresh mux, under the
    metric path of the configuration; [mux.Handle] panics when it
    refuses the pattern. *)
Definition run (host : Host) (configuration : exporterConfig) : outcome unit :=
  match New host (Debug configuration) (LogFormat configuration) with
  | Some err => panic err
  | None =>
      match rangeRegions host configuration (AWSRegions configuration) ∅ with
      | exit code => exit code
      | panic err => panic err
      | proceed registries =>
          match Handle host (MetricPath configuration) with
          | Some err => panic err
          | None =>
              match ListenAndServe host (ListenAddress configuration)
                      (MetricPath configuration) registries with
              | Some _ => exit httpErrorExitCode
              | None => proceed tt
              end
          end
      end
  end.

End cmd.


(** ** The goroutines of a scrape

    [fetchMetrics] starts each subtask with [go] and then adds one to
    the wait group of the collector; a subtask ends with its deferred
    [c.wg.Done()], and [fetchMetrics] ends with [c.wg.Wait()].  The
    subtasks and [fetchMetrics] share the collector: each writes to a
    slot and a call counter of its own, and all of them add to
    [c.counters.Errors].

    Here the statements of [fetchMetrics] and of the four subtasks are
    steps on a state that holds the collector and the counter of the
    wait group; a schedule says which goroutine takes the next step.
    [exporter.fetchMetrics] is the execution in which a subtask runs
    from its start to its end as soon as [fetchMetrics] has added it to
    the wait group. *)
Module goroutines.
Import golang exporter.

(** The functions started with [go], after what they fetch. *)
Inductive subtask : Set :=
| quotasMetrics        (* getQuotasMetrics *)
| usagesMetrics        (* getUsagesMetrics *)
| ec2Metrics           (* getEC2Metrics *)
| cloudwatchMetrics.   (* getCloudwatchMetrics *)

Inductive goroutine : Set :=
| caller                       (* the goroutine that runs fetchMetrics *)
| started (k : subtask).

(** Where a subtask is: the statement that it executes next. *)
Inductive position : Set :=
| idle                            (* not started *)
| fetching                        (* metrics, err := fetcher.Get...() *)
| checking                        (* if err != nil *)
| incrementing (read : float64)   (* c.counters.Errors++, its operand read *)
| counting                        (* c.counters.<API>calls += ... *)
| assigning                       (* c.metrics.<slot> = metrics *)
| leaving                         (* the deferred c.wg.Done() *)
| finished.

(** Where [fetchMetrics] is. *)
Inductive line : Set :=
| goQuotas          (* if c.configuration.CollectQuotas { go c.getQuotasMetrics(..) *)
| addQuotas         (*   c.wg.Add(1) } *)
| goUsages
| addUsages
| inventory         (* rdsFetcher.GetInstancesMetrics() up to getUniqTypeAndIdentifiers *)
| goEC2
| addEC2
| goCloudwatch
| addCloudwatch
| wait              (* c.wg.Wait() *)
| returned (err : option error).

Record state : Set := {
  collector : RdsCollector;
  wg : Z;                                (* the counter of c.wg *)
  at_ : line;
  quotas : position;
  usages : position;
  ec2 : position;
  cloudwatch_ : position;
  instanceIdentifiers : list string;     (* the locals of fetchMetrics *)
  instanceTypes : list string
}.

(** [fetchMetrics] is called: no subtask runs, the wait group is at zero. *)
Definition start (c : RdsCollector) : state :=
  {| collector := c; wg := 0; at_ := goQuotas;
     quotas := idle; usages := idle; ec2 := idle; cloudwatch_ := idle;
     instanceIdentifiers := []; instanceTypes := [] |}.

Definition positionOf (k : subtask) (s : state) : position :=
  match k with
  | quotasMetrics => quotas s
  | usagesMetrics => usages s
  | ec2Metrics => ec2 s
  | cloudwatchMetrics => cloudwatch_ s
  end.

Definition move (k : subtask) (p : position) (s : state) : state :=
  {| collector := collector s; wg := wg s; at_ := at_ s;
     quotas := match k with quotasMetrics => p | _ => quotas s end;
     usages := match k with usagesMetrics => p | _ => usages s end;
     ec2 := match k with ec2Metrics => p | _ => ec2 s end;
     cloudwatch_ := match k with cloudwatchMetrics => p | _ => cloudwatch_ s end;
     instanceIdentifiers := instanceIdentifiers s;
     instanceTypes := instanceTypes s |}.

Definition goto (l : line) (s : state) : state :=
  {| collector := collector s; wg := wg s; at_ := l;
     quotas := quotas s; usages := usages s; ec2 := ec2 s;
     cloudwatch_ := cloudwatch_ s;
     instanceIdentifiers := instanceIdentifiers s;
     instanceTypes := instanceTypes s |}.

Definition write (c : RdsCollector) (s : state) : state :=
  {| collector := c; wg := wg s; at_ := at_ s;
     quotas := quotas s; usages := usages s; ec2 := ec2 s;
     cloudwatch_ := cloudwatch_ s;
     instanceIdentifiers := instanceIdentifiers s;
     instanceTypes := instanceTypes s |}.

Definition counter (n : Z) (s : state) : state :=
  {| collector := collector s; wg := n; at_ := at_ s;
     quotas := quotas s; usages := usages s; ec2 := ec2 s;
     cloudwatch_ := cloudwatch_ s;
     instanceIdentifiers := instanceIdentifiers s;
     instanceTypes := instanceTypes s |}.

(** [c.wg.Add(delta)]: the new counter, or the panic of a counter that
    would go below zero. *)
Definition Add (delta : Z) (s : state) : state + string :=
  let n := (wg s + delta)%Z in
  if (n <? 0)%Z then inr "sync: negative WaitGroup counter"
  else inl (counter n s).

Definition locals (instanceIdentifiers instanceTypes : list string) (s : state)
  : state :=
  {| collector := collector s; wg := wg s; at_ := at_ s;
     quotas := quotas s; usages := usages s; ec2 := ec2 s;
     cloudwatch_ := cloudwatch_ s;
     instanceIdentifiers := instanceIdentifiers;
     instanceTypes := instanceTypes |}.

(** The call of [getCloudwatchMetrics] to its fetcher. *)
Definition GetRDSInstanceMetrics (w : World) (s : state)
  : cloudwatch.RdsFetcher * cloudwatch.CloudWatchMetrics * option error :=
  cloudwatch.GetRDSInstanceMetrics (rangeQueries w)
    (cloudwatch.NewRDSFetcher (cloudWatchClient w)) (instanceIdentifiers s).

(** [err] of [metrics, err := fetcher.Get...()] in subtask [k]. *)
Definition failure (w : World) (k : subtask) (s : state) : option error :=
  match k with
  | quotasMetrics => err (GetRDSQuotas w)
  | usagesMetrics => err (GetUsageMetrics w)
  | ec2Metrics => err (GetDBInstanceTypeInformation w (instanceTypes s))
  | cloudwatchMetrics => (GetRDSInstanceMetrics w s).2
  end.

(** The write of [c.counters.Errors++]. *)
Definition setErrors (v : float64) (c : RdsCollector) : RdsCollector :=
  let n := counters c in
  setCounters
    {| CloudwatchAPICalls := CloudwatchAPICalls n; EC2APIcalls := EC2APIcalls n;
       Errors := v; RDSAPIcalls := RDSAPIcalls n;
       ServiceQuotasAPICalls := ServiceQuotasAPICalls n;
       UsageAPIcalls := UsageAPIcalls n |} c.

(** [c.counters.<API>calls += fetcher.GetStatistics().<calls>] in subtask [k]. *)
Definition count (w : World) (k : subtask) (s : state) : RdsCollector :=
  let c := collector s in
  let n := counters c in
  match k with
  | quotasMetrics =>
      setCounters
        {| CloudwatchAPICalls := CloudwatchAPICalls n; EC2APIcalls := EC2APIcalls n;
           Errors := Errors n; RDSAPIcalls := RDSAPIcalls n;
           ServiceQuotasAPICalls :=
             (ServiceQuotasAPICalls n + apiCalls (GetRDSQuotas w))%float;
           UsageAPIcalls := UsageAPIcalls n |} c
  | usagesMetrics =>
      setCounters
        {| CloudwatchAPICalls := CloudwatchAPICalls n; EC2APIcalls := EC2APIcalls n;
           Errors := Errors n; RDSAPIcalls := RDSAPIcalls n;
           ServiceQuotasAPICalls := ServiceQuotasAPICalls n;
           UsageAPIcalls := (UsageAPIcalls n + apiCalls (GetUsageMetrics w))%float |} c
  | ec2Metrics =>
      setCounters
        {| CloudwatchAPICalls := CloudwatchAPICalls n;
           EC2APIcalls :=
             (EC2APIcalls n
              + apiCalls (GetDBInstanceTypeInformation w (instanceTypes s)))%float;
           Errors := Errors n; RDSAPIcalls := RDSAPIcalls n;
           ServiceQuotasAPICalls := ServiceQuotasAPICalls n;
           UsageAPIcalls := UsageAPIcalls n |} c
  | cloudwatchMetrics =>
      setCounters
        {| CloudwatchAPICalls :=
             (CloudwatchAPICalls n
              + cloudwatch.CloudWatchAPICall
                  (cloudwatch.GetStatistics (GetRDSInstanceMetrics w s).1.1))%float;
           EC2APIcalls := EC2APIcalls n; Errors := Errors n;
           RDSAPIcalls := RDSAPIcalls n;
           ServiceQuotasAPICalls := ServiceQuotasAPICalls n;
           UsageAPIcalls := UsageAPIcalls n |} c
  end.

(** [c.metrics.<slot> = metrics] in subtask [k]. *)
Definition assign (w : World) (k : subtask) (s : state) : RdsCollector :=
  let c := collector s in
  let m := metrics_ c in
  match k with
  | quotasMetrics =>
      setMetrics
        {| ServiceQuota := result (GetRDSQuotas w); RDS := RDS m; EC2 := EC2 m;
           CloudwatchInstances := CloudwatchInstances m;
           CloudWatchUsage := CloudWatchUsage m |} c
  | usagesMetrics =>
      setMetrics
        {| ServiceQuota := ServiceQuota m; RDS := RDS m; EC2 := EC2 m;
           CloudwatchInstances := CloudwatchInstances m;
           CloudWatchUsage := result (GetUsageMetrics w) |} c
  | ec2Metrics =>
      setMetrics
        {| ServiceQuota := ServiceQuota m; RDS := RDS m;
           EC2 := result (GetDBInstanceTypeInformation w (instanceTypes s));
           CloudwatchInstances := CloudwatchInstances m;
           CloudWatchUsage := CloudWatchUsage m |} c
  | cloudwatchMetrics =>
      setMetrics
        {| ServiceQuota := ServiceQuota m; RDS := RDS m; EC2 := EC2 m;
           CloudwatchInstances := (GetRDSInstanceMetrics w s).1.2;
           CloudWatchUsage := CloudWatchUsage m |} c
  end.

(** What a step does: the next state, nothing when the goroutine
    cannot take a step (it is not started, has ended, or waits), or a
    panic, which ends the process. *)
Inductive effect : Set :=
| next (s : state)
| blocked
| panic (msg : string).

(** A step of subtask [k]. *)
Definition stepSubtask (w : World) (k : subtask) (s : state) : effect :=
  match positionOf k s with
  | idle => blocked
  | fetching => next (move k checking s)
  | checking =>
      match failure w k s with
      | Some _ => next (move k (incrementing (Errors (counters (collector s)))) s)
      | None => next (move k counting s)
      end
  | incrementing read =>
      next (move k counting (write (setErrors (read + 1)%float (collector s)) s))
  | counting => next (move k assigning (write (count w k s) s))
  | assigning => next (move k leaving (write (assign w k s) s))
  | leaving =>
      match Add (-1) s with
      | inl s => next (move k finished s)
      | inr msg => panic msg
      end
  | finished => blocked
  end.

(** [go c.get...Metrics(..)]: the subtask is at its first statement. *)
Definition go (k : subtask) (s : state) : state := move k fetching s.

(** A step of [fetchMetrics]. *)
Definition stepCaller (w : World) (s : state) : effect :=
  let c := collector s in
  match at_ s with
  | goQuotas =>
      if CollectQuotas (configuration c)
      then next (goto addQuotas (go quotasMetrics s))
      else next (goto goUsages s)
  | addQuotas =>
      match Add 1 s with
      | inl s => next (goto goUsages s)
      | inr msg => panic msg
      end
  | goUsages =>
      if CollectUsages (configuration c)
      then next (goto addUsages (go usagesMetrics s))
      else next (goto inventory s)
  | addUsages =>
      match Add 1 s with
      | inl s => next (goto inventory s)
      | inr msg => panic msg
      end
  | inventory =>
      let fetched :=
        GetInstancesMetrics w (CollectLogsSize (configuration c))
                            (CollectMaintenances (configuration c)) in
      match err fetched with
      | Some err =>
          next (goto (returned (Some (Errorf "can't fetch RDS metrics" err))) s)
      | None =>
          let rdsMetrics := result fetched in
          let m := metrics_ c in
          let c :=
            setMetrics
              {| ServiceQuota := ServiceQuota m; RDS := rdsMetrics; EC2 := EC2 m;
                 CloudwatchInstances := CloudwatchInstances m;
                 CloudWatchUsage := CloudWatchUsage m |} c in
          let n := counters c in
          let c :=
            setCounters
              {| CloudwatchAPICalls := CloudwatchAPICalls n;
                 EC2APIcalls := EC2APIcalls n; Errors := Errors n;
                 RDSAPIcalls := (RDSAPIcalls n + apiCalls fetched)%float;
                 ServiceQuotasAPICalls := ServiceQuotasAPICalls n;
                 UsageAPIcalls := UsageAPIcalls n |} c in
          let '(instanceIdentifiers, instanceTypes) :=
            getUniqTypeAndIdentifiers w (rds.Instances rdsMetrics) in
          next (goto goEC2 (locals instanceIdentifiers instanceTypes (write c s)))
      end
  | goEC2 =>
      if CollectInstanceTypes (configuration c) && (0 <? length (instanceTypes s))
      then next (goto addEC2 (go ec2Metrics s))
      else next (goto goCloudwatch s)
  | addEC2 =>
      match Add 1 s with
      | inl s => next (goto goCloudwatch s)
      | inr msg => panic msg
      end
  | goCloudwatch =>
      if CollectInstanceMetrics (configuration c)
      then next (goto addCloudwatch (go cloudwatchMetrics s))
      else next (goto wait s)
  | addCloudwatch =>
      match Add 1 s with
      | inl s => next (goto wait s)
      | inr msg => panic msg
      end
  | wait =>
      if (wg s =? 0)%Z then next (goto (returned None) s) else blocked
  | returned _ => blocked
  end.

Definition step (w : World) (g : goroutine) (s : state) : effect :=
  match g with
  | caller => stepCaller w s
  | started k => stepSubtask w k s
  end.

(** An execution: the goroutines take their steps in the order of the
    schedule.  A schedule that names a goroutine which cannot take a
    step is no execution. *)
Inductive outcome : Set :=
| reached (s : state)
| panicked (msg : string)
| noExecution.

Fixpoint exec (w : World) (schedule : list goroutine) (s : state) : outcome :=
  match schedule with
  | [] => reached s
  | g :: schedule =>
      match step w g s with
      | next s => exec w schedule s
      | blocked => noExecution
      | panic msg => panicked msg
      end
  end.

(** The subtask [k] as one function of the collector, with the
    arguments that [fetchMetrics] gives it. *)
Definition body (w : World) (k : subtask) (s : state) (c : RdsCollector)
  : RdsCollector :=
  match k with
  | quotasMetrics => getQuotasMetrics w c
  | usagesMetrics => getUsagesMetrics w c
  | ec2Metrics => getEC2Metrics w (instanceTypes s) c
  | cloudwatchMetrics => getCloudwatchMetrics w (instanceIdentifiers s) c
  end.

(** The steps that subtask [k] takes from its start to its end. *)
Definition whole (w : World) (k : subtask) (s : state) : list goroutine :=
  replicate (match failure w k s with Some _ => 6 | None => 5 end) (started k).

(** The serial schedule of a scrape: a subtask runs from its start to
    its end as soon as [fetchMetrics] has added it to the wait group. *)
Definition serial (w : World) (c : RdsCollector) : list goroutine :=
  let s := start c in
  (if CollectQuotas (configuration c)
   then [caller; caller] ++ whole w quotasMetrics s else [caller])
  ++ (if CollectUsages (configuration c)
      then [caller; caller] ++ whole w usagesMetrics s else [caller])
  ++ caller ::
     (let fetched :=
        GetInstancesMetrics w (CollectLogsSize (configuration c))
                            (CollectMaintenances (configuration c)) in
      match err fetched with
      | Some _ => []
      | None =>
          let '(instanceIdentifiers, instanceTypes) :=
            getUniqTypeAndIdentifiers w (rds.Instances (result fetched)) in
          let s := locals instanceIdentifiers instanceTypes s in
          (if CollectInstanceTypes (configuration c) && (0 <? length instanceTypes)
           then [caller; caller] ++ whole w ec2Metrics s else [caller])
          ++ (if CollectInstanceMetrics (configuration c)
              then [caller; caller] ++ whole w cloudwatchMetrics s else [caller])
          ++ [caller]
      end).

(** A schedule in which the quota and the usage subtasks both read
    [c.counters.Errors] before either writes it back. *)
Definition lostUpdate : list goroutine :=
  [ caller; caller; caller; caller;
    started quotasMetrics; started quotasMetrics;       (* fetch; read Errors *)
    started usagesMetrics; started usagesMetrics;       (* fetch; read Errors *)
    started quotasMetrics; started usagesMetrics ]      (* the two writes *)
  ++ replicate 3 (started quotasMetrics) ++ replicate 3 (started usagesMetrics).

(** The steps of [fetchMetrics] alone, up to the inventory fetch. *)
Definition earlyReturn (c : RdsCollector) : list goroutine :=
  (if CollectQuotas (configuration c) then [caller; caller] else [caller])
  ++ (if CollectUsages (configuration c) then [caller; caller] else [caller])
  ++ [caller].

End goroutines.

(** * Properties

    ** Vocabulary of the statements

    The 24 time-series fields of [cloudwatch.RdsMetrics] as an
    enumeration, in the order of the struct: the Go name of a field (the
    string [Update] switches on), its value in a sample, and the
    descriptor under which [Collect] sends it. *)

Module field.
Import golang.

Inductive t : Set :=
| CPUUtilization
| DBLoad
| DBLoadCPU
| DBLoadNonCPU
| DatabaseConnections
| FreeStorageSpace
| FreeableMemory
| MaximumUsedTransactionIDs
| ReadIOPS
| ReadThroughput
| ReplicaLag
| ReplicationSlotDiskUsage
| SwapUsage
| TransactionLogsDiskUsage
| WriteIOPS
| WriteThroughput
| BufferCacheHitRatio
| Deadlocks
| Queries
| EngineUptime
| SumBinaryLogSize
| NumBinaryLogFiles
| AuroraBinlogReplicaLag
| BinLogDiskUsage.

Definition all : list t :=
  [ CPUUtilization; DBLoad; DBLoadCPU; DBLoadNonCPU; DatabaseConnections; FreeStorageSpace; FreeableMemory; MaximumUsedTransactionIDs; ReadIOPS; ReadThroughput; ReplicaLag; ReplicationSlotDiskUsage; SwapUsage; TransactionLogsDiskUsage; WriteIOPS; WriteThroughput; BufferCacheHitRatio; Deadlocks; Queries; EngineUptime; SumBinaryLogSize; NumBinaryLogFiles; AuroraBinlogReplicaLag; BinLogDiskUsage ].

Definition name (f : t) : string :=
  match f with
  | CPUUtilization => "CPUUtilization"
  | DBLoad => "DBLoad"
  | DBLoadCPU => "DBLoadCPU"
  | DBLoadNonCPU => "DBLoadNonCPU"
  | DatabaseConnections => "DatabaseConnections"
  | FreeStorageSpace => "FreeStorageSpace"
  | FreeableMemory => "FreeableMemory"
  | MaximumUsedTransactionIDs => "MaximumUsedTransactionIDs"
  | ReadIOPS => "ReadIOPS"
  | ReadThroughput => "ReadThroughput"
  | ReplicaLag => "ReplicaLag"
  | ReplicationSlotDiskUsage => "ReplicationSlotDiskUsage"
  | SwapUsage => "SwapUsage"
  | TransactionLogsDiskUsage => "TransactionLogsDiskUsage"
  | WriteIOPS => "WriteIOPS"
  | WriteThroughput => "WriteThroughput"
  | BufferCacheHitRatio => "BufferCacheHitRatio"
  | Deadlocks => "Deadlocks"
  | Queries => "Queries"
  | EngineUptime => "EngineUptime"
  | SumBinaryLogSize => "SumBinaryLogSize"
  | NumBinaryLogFiles => "NumBinaryLogFiles"
  | AuroraBinlogReplicaLag => "AuroraBinlogReplicaLag"
  | BinLogDiskUsage => "BinLogDiskUsage"
  end.

Definition get (f : t) (m : cloudwatch.RdsMetrics) : option float64 :=
  match f with
  | CPUUtilization => cloudwatch.CPUUtilization m
  | DBLoad => cloudwatch.DBLoad m
  | DBLoadCPU => cloudwatch.DBLoadCPU m
  | DBLoadNonCPU => cloudwatch.DBLoadNonCPU m
  | DatabaseConnections => cloudwatch.DatabaseConnections m
  | FreeStorageSpace => cloudwatch.FreeStorageSpace m
  | FreeableMemory => cloudwatch.FreeableMemory m
  | MaximumUsedTransactionIDs => cloudwatch.MaximumUsedTransactionIDs m
  | ReadIOPS => cloudwatch.ReadIOPS m
  | ReadThroughput => cloudwatch.ReadThroughput m
  | ReplicaLag => cloudwatch.ReplicaLag m
  | ReplicationSlotDiskUsage => cloudwatch.ReplicationSlotDiskUsage m
  | SwapUsage => cloudwatch.SwapUsage m
  | TransactionLogsDiskUsage => cloudwatch.TransactionLogsDiskUsage m
  | WriteIOPS => cloudwatch.WriteIOPS m
  | WriteThroughput => cloudwatch.WriteThroughput m
  | BufferCacheHitRatio => cloudwatch.BufferCacheHitRatio m
  | Deadlocks => cloudwatch.Deadlocks m
  | Queries => cloudwatch.Queries m
  | EngineUptime => cloudwatch.EngineUptime m
  | SumBinaryLogSize => cloudwatch.SumBinaryLogSize m
  | NumBinaryLogFiles => cloudwatch.NumBinaryLogFiles m
  | AuroraBinlogReplicaLag => cloudwatch.AuroraBinlogReplicaLag m
  | BinLogDiskUsage => cloudwatch.BinLogDiskUsage m
  end.

Definition desc (f : t) : exporter.Desc :=
  match f with
  | CPUUtilization => exporter.cpuUtilisation
  | DBLoad => exporter.DBLoad
  | DBLoadCPU => exporter.dBLoadCPU
  | DBLoadNonCPU => exporter.dBLoadNonCPU
  | DatabaseConnections => exporter.databaseConnections
  | FreeStorageSpace => exporter.freeStorageSpace
  | FreeableMemory => exporter.freeableMemory
  | MaximumUsedTransactionIDs => exporter.maximumUsedTransactionIDs
  | ReadIOPS => exporter.readIOPS
  | ReadThroughput => exporter.readThroughput
  | ReplicaLag => exporter.replicaLag
  | ReplicationSlotDiskUsage => exporter.replicationSlotDiskUsage
  | SwapUsage => exporter.swapUsage
  | TransactionLogsDiskUsage => exporter.transactionLogsDiskUsage
  | WriteIOPS => exporter.writeIOPS
  | WriteThroughput => exporter.writeThroughput
  | BufferCacheHitRatio => exporter.BufferCacheHitRatio
  | Deadlocks => exporter.Deadlocks
  | Queries => exporter.Queries
  | EngineUptime => exporter.EngineUptime
  | SumBinaryLogSize => exporter.SumBinaryLogSize
  | NumBinaryLogFiles => exporter.NumBinaryLogFiles
  | AuroraBinlogReplicaLag => exporter.AuroraBinlogReplicaLag
  | BinLogDiskUsage => exporter.BinLogDiskUsage
  end.

End field.

(** The query id of a metric name for the identifier at index [i], and
    the ids of all the queries for a list of identifiers, in the order
    in which [generateCloudWatchQueriesForInstances] makes them. *)
Definition queryID (metricName : string) (i : nat) : string :=
  golang.Sprintf_s_d (golang.ToLower metricName) i.

Definition queryIDs (dbIdentifiers : list string) : list string :=
  seq 0 (length dbIdentifiers)
  ≫= (fun i => (fun metricName => queryID metricName i) <$> cloudwatch.getCloudWatchMetricsName).

(** A string has no underscore. *)
Fixpoint noUnderscore (s : string) : bool :=
  match s with
  | EmptyString => true
  | String a s' => negb (Ascii.eqb a "_"%char) && noUnderscore s'
  end.

(** ** The run of [GetRDSInstanceMetrics], chunk by chunk

    [chunking n acc l]: the full chunks that the first loop of
    [GetRDSInstanceMetrics] sends when it starts with [acc] in [chunk]
    and iterates over [l], and what is left in [chunk] after the loop.
    [sentChunks n l]: all the chunks of a run over [l], the last,
    "potentially incomplete batch" included. *)
Fixpoint chunking (n : nat) (acc l : list string) : list (list string) * list string :=
  match l with
  | [] => ([], acc)
  | x :: rest =>
      let acc' := acc ++ [x] in
      if length acc' =? n
      then let '(full, last) := chunking n [] rest in (acc' :: full, last)
      else chunking n acc' rest
  end.

Definition lastChunk (last : list string) : list (list string) :=
  match last with
  | [] => []
  | _ :: _ => [last]
  end.

Definition sentChunks (n : nat) (l : list string) : list (list string) :=
  (chunking n [] l).1 ++ lastChunk (chunking n [] l).2.

(** The request sent for a chunk. *)
Definition requestFor (requests : gmap string cloudwatch.CloudWatchMetricRequest)
  (chunk : list string) : cloudwatch.GetMetricDataInput :=
  {| cloudwatch.ScanBy := "TimestampDescending";
     cloudwatch.MetricDataQueries :=
       (fun key => cloudwatch.Query (cloudwatch.index requests key)) <$> chunk |}.

(** One call of [updateMetricsWithCloudWatchQueriesResult] per chunk, in
    order, until one returns an error. *)
Fixpoint runChunks (requests : gmap string cloudwatch.CloudWatchMetricRequest)
  (chunks : list (list string)) (c : cloudwatch.RdsFetcher)
  (metrics : gmap string cloudwatch.RdsMetrics)
  : cloudwatch.RdsFetcher * gmap string cloudwatch.RdsMetrics * option golang.error :=
  match chunks with
  | [] => (c, metrics, None)
  | chunk :: rest =>
      match cloudwatch.updateMetricsWithCloudWatchQueriesResult c metrics requests chunk with
      | (c, metrics, Some err) => (c, metrics, Some err)
      | (c, metrics, None) => runChunks requests rest c metrics
      end
  end.

(** [c.statistics.CloudWatchAPICall++] *)
Definition countAPICall (c : cloudwatch.RdsFetcher) : cloudwatch.RdsFetcher :=
  {| cloudwatch.client := cloudwatch.client c;
     cloudwatch.statistics :=
       {| cloudwatch.CloudWatchAPICall :=
            (cloudwatch.CloudWatchAPICall (cloudwatch.statistics c) + 1)%float |};
     cloudwatch.issued := cloudwatch.issued c |}.

(** The field [f] of the sample of [id] is unset: there is no sample
    for [id], or its field is [nil]. *)
Definition unset (metrics : gmap string cloudwatch.RdsMetrics) (id : string)
  (f : field.t) : Prop :=
  forall rm, metrics !! id = Some rm -> field.get f rm = None.

(** A result carries no value: its series is nil or empty. *)
Definition emptySeries (m : cloudwatch.MetricDataResult) : Prop :=
  cloudwatch.Values m = None \/ cloudwatch.Values m = Some [].

(** A result that reaches [Update] with a name that is not one of the
    24: it has a value, and the request found under its id (the zero
    request when there is none) has such a name. *)
Definition dispatchesUnknown (requests : gmap string cloudwatch.CloudWatchMetricRequest)
  (m : cloudwatch.MetricDataResult) : Prop :=
  (exists v vs, cloudwatch.Values m = Some (v :: vs)) /\
  cloudwatch.MetricName (cloudwatch.index requests (cloudwatch.ResultId m))
    ∉ cloudwatch.getCloudWatchMetricsName.

(** ** The parts of a scrape

    The fetcher a sample comes from, read off its descriptor (and, for
    [rds_api_call_total], off its [api] label). *)
Inductive source : Set :=
| Exporter        (* build information, error counter, up *)
| Inventory       (* rds: GetInstancesMetrics *)
| TimeSeries      (* cloudwatch: GetRDSInstanceMetrics *)
| Usage           (* cloudwatch: GetUsageMetrics *)
| InstanceType    (* ec2: GetDBInstanceTypeInformation *)
| Quota.          (* servicequotas: GetRDSQuotas *)

#[global] Instance source_eq_dec : EqDecision source.
Proof. solve_decision. Defined.

#[global] Instance Desc_eq_dec : EqDecision exporter.Desc.
Proof. solve_decision. Defined.

Definition sourceOfApi (labels : list string) : source :=
  match labels with
  | [_; _; api] =>
      if String.eqb api "cloudwatch" then TimeSeries
      else if String.eqb api "usage" then Usage
      else if String.eqb api "ec2" then InstanceType
      else if String.eqb api "servicequotas" then Quota
      else Inventory
  | _ => Inventory
  end.

Definition sourceOf (s : exporter.Metric) : source :=
  let n := exporter.fqName (exporter.desc s) in
  if bool_decide (n ∈ ["rds_exporter_build_info"; "rds_exporter_errors_total"; "up"])
  then Exporter
  else if String.eqb n "rds_api_call_total" then sourceOfApi (exporter.labelValues s)
  else if bool_decide (n ∈ (fun f => exporter.fqName (field.desc f)) <$> field.all)
  then TimeSeries
  else if bool_decide (n ∈ ["rds_usage_allocated_storage_bytes";
                            "rds_usage_db_instances_average";
                            "rds_usage_manual_snapshots_average"])
  then Usage
  else if bool_decide (n ∈ ["rds_instance_max_iops_average";
                            "rds_instance_max_throughput_bytes";
                            "rds_instance_memory_bytes";
                            "rds_instance_vcpu_average"])
  then InstanceType
  else if bool_decide (n ∈ ["rds_quota_max_dbinstances_average";
                            "rds_quota_total_storage_bytes";
                            "rds_quota_maximum_db_instance_snapshots_average"])
  then Quota
  else Inventory.

(** The samples of a scrape that do not come from the fetcher [k]. *)
Definition notFrom (k : source) (ch : list exporter.Metric) : list exporter.Metric :=
  filter (fun s => sourceOf s <> k) ch.

(** The samples [Collect] sends for each part, from the collector as
    [fetchMetrics] leaves it. *)
Module part.
Import golang exporter.

Definition header (w : World) (c : RdsCollector) : list Metric :=
  [ MustNewConstMetric exporterBuildInformation GaugeValue 1%float
      [Version w; CommitSHA w; Date w; awsRegion c];
    MustNewConstMetric errors CounterValue (Errors (counters c)) [awsRegion c] ].

Definition instance (w : World) (c : RdsCollector)
  (entry : string * rds.RdsInstanceMetrics) : list Metric :=
  (collectRDSInstance w (c, []) entry).2.

Definition inventory (w : World) (c : RdsCollector) : list Metric :=
  MustNewConstMetric apiCall CounterValue (RDSAPIcalls (counters c))
    [awsAccountID c; awsRegion c; "rds"]
  :: (map_to_list (rds.Instances (RDS (metrics_ c))) ≫= instance w c).

Definition timeSeries (c : RdsCollector) : list Metric :=
  MustNewConstMetric apiCall CounterValue (CloudwatchAPICalls (counters c))
    [awsAccountID c; awsRegion c; "cloudwatch"]
  :: (map_to_list (cloudwatch.Instances (CloudwatchInstances (metrics_ c)))
      ≫= collectCloudwatchInstance c).

Definition usage (c : RdsCollector) : list Metric :=
  if CollectUsages (configuration c) then
    [ MustNewConstMetric apiCall CounterValue (UsageAPIcalls (counters c))
        [awsAccountID c; awsRegion c; "usage"];
      MustNewConstMetric usageAllocatedStorage GaugeValue
        (cloudwatch.AllocatedStorage (CloudWatchUsage (metrics_ c)))
        [awsAccountID c; awsRegion c];
      MustNewConstMetric usageDBInstances GaugeValue
        (cloudwatch.DBInstances (CloudWatchUsage (metrics_ c)))
        [awsAccountID c; awsRegion c];
      MustNewConstMetric usageManualSnapshots GaugeValue
        (cloudwatch.ManualSnapshots (CloudWatchUsage (metrics_ c)))
        [awsAccountID c; awsRegion c] ]
  else [].

Definition instanceTypes (c : RdsCollector) : list Metric :=
  MustNewConstMetric apiCall CounterValue (EC2APIcalls (counters c))
    [awsAccountID c; awsRegion c; "ec2"]
  :: (map_to_list (ec2.Instances (EC2 (metrics_ c))) ≫= collectEC2Instance c).

Definition quotas (c : RdsCollector) : list Metric :=
  if CollectQuotas (configuration c) then
    [ MustNewConstMetric apiCall CounterValue (ServiceQuotasAPICalls (counters c))
        [awsAccountID c; awsRegion c; "servicequotas"];
      MustNewConstMetric quotaDBInstances GaugeValue
        (servicequotas.DBinstances (ServiceQuota (metrics_ c)))
        [awsAccountID c; awsRegion c];
      MustNewConstMetric quotaTotalStorage GaugeValue
        (servicequotas.TotalStorage (ServiceQuota (metrics_ c)))
        [awsAccountID c; awsRegion c];
      MustNewConstMetric quotaMaxDBInstanceSnapshots GaugeValue
        (servicequotas.ManualDBInstanceSnapshots (ServiceQuota (metrics_ c)))
        [awsAccountID c; awsRegion c] ]
  else [].

End part.

(** Two collectors that differ at most in [instanceTags], the one field
    that the loop of [Collect] over the instances assigns. *)
Definition sameButTags (c c' : exporter.RdsCollector) : Prop :=
  exporter.counters c' = exporter.counters c /\
  exporter.metrics_ c' = exporter.metrics_ c /\
  exporter.awsAccountID c' = exporter.awsAccountID c /\
  exporter.awsRegion c' = exporter.awsRegion c /\
  exporter.configuration c' = exporter.configuration c.

(** ** The subtasks of a scrape

    What the inventory fetch of a scrape returns, the identifiers and
    instance classes derived from it, the fetch of the time series over
    those identifiers, and, for each fetcher other than the inventory,
    whether the scrape starts it and the error it returns. *)
Module subtask.
Import golang exporter.

Definition inventory (w : World) (c : RdsCollector) : Fetched rds.Metrics :=
  GetInstancesMetrics w (CollectLogsSize (configuration c))
                      (CollectMaintenances (configuration c)).

Definition identifiers (w : World) (c : RdsCollector) : list string :=
  (getUniqTypeAndIdentifiers w (rds.Instances (result (inventory w c)))).1.

Definition types (w : World) (c : RdsCollector) : list string :=
  (getUniqTypeAndIdentifiers w (rds.Instances (result (inventory w c)))).2.

Definition timeSeries (w : World) (c : RdsCollector)
  : cloudwatch.RdsFetcher * cloudwatch.CloudWatchMetrics * option error :=
  cloudwatch.GetRDSInstanceMetrics (rangeQueries w)
    (cloudwatch.NewRDSFetcher (cloudWatchClient w)) (identifiers w c).

Definition started (w : World) (c : RdsCollector) (k : source) : bool :=
  match k with
  | Quota => CollectQuotas (configuration c)
  | Usage => CollectUsages (configuration c)
  | InstanceType =>
      CollectInstanceTypes (configuration c) && (0 <? length (types w c))
  | TimeSeries => CollectInstanceMetrics (configuration c)
  | Exporter | Inventory => false
  end.

Definition error (w : World) (c : RdsCollector) (k : source) : option error :=
  match k with
  | Quota => err (GetRDSQuotas w)
  | Usage => err (GetUsageMetrics w)
  | InstanceType => err (GetDBInstanceTypeInformation w (types w c))
  | TimeSeries => (timeSeries w c).2
  | Exporter | Inventory => None
  end.

Definition failed (w : World) (c : RdsCollector) (k : source) : bool :=
  started w c k && match error w c k with Some _ => true | None => false end.

(** The error counter after the subtasks that failed have each added
    one to it, in the order of [fetchMetrics]. *)
Definition countFailure (w : World) (c : RdsCollector) (k : source)
  (errors : float64) : float64 :=
  if failed w c k then (errors + 1)%float else errors.

(** Two worlds that give the same to a scrape, except for what the
    fetcher [k] returns. *)
Definition agreeExcept (k : source) (w w' : World) : Prop :=
  Version w = Version w' /\ CommitSHA w = CommitSHA w' /\ Date w = Date w' /\
  GetInstancesMetrics w = GetInstancesMetrics w' /\
  getUniqTypeAndIdentifiers w = getUniqTypeAndIdentifiers w' /\
  rangeTags w = rangeTags w' /\ rangeLabels w = rangeLabels w' /\
  (k <> Quota -> GetRDSQuotas w = GetRDSQuotas w') /\
  (k <> Usage -> GetUsageMetrics w = GetUsageMetrics w') /\
  (k <> InstanceType ->
   GetDBInstanceTypeInformation w = GetDBInstanceTypeInformation w') /\
  (k <> TimeSeries ->
   cloudWatchClient w = cloudWatchClient w' /\ rangeQueries w = rangeQueries w').

End subtask.

(** ** The steps of [fetchMetrics]

    [fetchMetrics] is a sequence of assignments to the collector; each
    of its steps, as a function of the collector it starts from. *)
Module step.
Import golang exporter.

Definition quotas (w : World) (c : RdsCollector) : RdsCollector :=
  if CollectQuotas (configuration c) then getQuotasMetrics w c else c.

Definition usages (w : World) (c : RdsCollector) : RdsCollector :=
  if CollectUsages (configuration c) then getUsagesMetrics w c else c.

Definition inventory (fetched : Fetched rds.Metrics) (c : RdsCollector)
  : RdsCollector :=
  let m := metrics_ c in
  let c :=
    setMetrics
      {| ServiceQuota := ServiceQuota m; RDS := result fetched; EC2 := EC2 m;
         CloudwatchInstances := CloudwatchInstances m;
         CloudWatchUsage := CloudWatchUsage m |} c in
  let k := counters c in
  setCounters
    {| CloudwatchAPICalls := CloudwatchAPICalls k; EC2APIcalls := EC2APIcalls k;
       Errors := Errors k;
       RDSAPIcalls := (RDSAPIcalls k + apiCalls fetched)%float;
       ServiceQuotasAPICalls := ServiceQuotasAPICalls k;
       UsageAPIcalls := UsageAPIcalls k |} c.

Definition types (w : World) (instanceTypes : list string) (c : RdsCollector)
  : RdsCollector :=
  if CollectInstanceTypes (configuration c) && (0 <? length instanceTypes)
  then getEC2Metrics w instanceTypes c else c.

Definition timeSeries (w : World) (instanceIdentifiers : list string)
  (c : RdsCollector) : RdsCollector :=
  if CollectInstanceMetrics (configuration c)
  then getCloudwatchMetrics w instanceIdentifiers c else c.

End step.

(** The optional fields of an instance of the inventory: the value of
    the sample and the descriptor under which [Collect] sends it. *)
Module inventoryField.
Import golang.

Inductive t : Set := Age | LogFilesSize | CertificateValidTill.

Definition get (o : t) (instance : rds.RdsInstanceMetrics) : option float64 :=
  match o with
  | Age => rds.Age instance
  | LogFilesSize => float64_of_int <$> rds.LogFilesSize instance
  | CertificateValidTill => float64_of_int <$> rds.CertificateValidTill instance
  end.

Definition desc (o : t) : exporter.Desc :=
  match o with
  | Age => exporter.age
  | LogFilesSize => exporter.logFilesSize
  | CertificateValidTill => exporter.certificateValidTill
  end.

End inventoryField.

(** The samples of the API-call counter of one API. *)
Definition apiCallSamples (api : string) (ch : list exporter.Metric)
  : list exporter.Metric :=
  filter (fun s => exporter.desc s = exporter.apiCall /\
                   exporter.labelValues s !! 2 = Some api) ch.

(** ** Tag labels

    The three labels every per-instance sample has, the label made from
    a tag key, the test that a label name matches
    [^tag_[A-Za-z0-9_]+$], and the sample of [rds_instance_tags] that
    [Collect] sends for an instance. *)
Definition fixedLabels : list string := ["aws_account_id"; "aws_region"; "dbidentifier"].

Definition tagLabel (k : string) : string := "tag_" +:+ exporter.ClearPrometheusLabel k.

Fixpoint allLabelCharacters (s : string) : bool :=
  match s with
  | EmptyString => true
  | String a rest => exporter.isLabelCharacter a && allLabelCharacters rest
  end.

Definition matchesTagLabel (s : string) : bool :=
  match s with
  | String "t" (String "a" (String "g" (String "_" (String a rest)))) =>
      allLabelCharacters (String a rest)
  | _ => false
  end.

Definition tagSample (w : exporter.World) (c : exporter.RdsCollector)
  (entry : string * rds.RdsInstanceMetrics) : exporter.Metric :=
  exporter.MustNewConstMetric
    (exporter.NewDesc "rds_instance_tags" "AWS tags attached to the instance"
       (exporter.getInstanceTagLabels w c entry.1 entry.2).1)
    exporter.GaugeValue 0%float
    (exporter.getInstanceTagLabels w c entry.1 entry.2).2.

Definition isTagSample (s : exporter.Metric) : Prop :=
  exporter.fqName (exporter.desc s) = "rds_instance_tags".

#[global] Instance isTagSample_dec s : Decision (isTagSample s).
Proof. unfold isTagSample. apply _. Defined.

(** ** A small fleet

    One instance, [db-a], of class [db.t3.small], and upstreams that
    answer or fail; used to run the definitions above on concrete
    inputs. *)
Module example.
Import golang exporter.

Definition everything : Configuration :=
  {| CollectInstanceMetrics := true; CollectInstanceTags := true;
     CollectInstanceTypes := true; CollectLogsSize := true;
     CollectMaintenances := true; CollectQuotas := true; CollectUsages := true |}.

Definition withoutTags : Configuration :=
  {| CollectInstanceMetrics := true; CollectInstanceTags := false;
     CollectInstanceTypes := true; CollectLogsSize := true;
     CollectMaintenances := true; CollectQuotas := true; CollectUsages := true |}.

Definition dbA : rds.RdsInstanceMetrics :=
  {| rds.AllocatedStorage := 21474836480;
     rds.DbiResourceID := "db-ABCDEFGH";
     rds.DBInstanceClass := "db.t3.small";
     rds.Engine := "mysql";
     rds.EngineVersion := "8.0.35";
     rds.StorageType := "gp3";
     rds.MultiAZ := false;
     rds.DeletionProtection := true;
     rds.Role := "primary";
     rds.SourceDBInstanceIdentifier := EmptyString;
     rds.PendingModifiedValues := false;
     rds.PendingMaintenanceAction := EmptyString;
     rds.PerformanceInsightsEnabled := false;
     rds.CACertificateIdentifier := "rds-ca-rsa2048-g1";
     rds.Arn := "arn:aws:rds:eu-west-3:123456789012:db:db-a";
     rds.MaxAllocatedStorage := 107374182400;
     rds.MaxIops := 3000;
     rds.Status := 1;
     rds.StorageThroughput := 125000000;
     rds.BackupRetentionPeriod := 604800;
     rds.Tags := <["Name" := "db a"]> (<["cost-center" := "42"]> ∅);
     rds.CertificateValidTill := Some 1798761600%Z;
     rds.Age := Some 86400%float;
     rds.LogFilesSize := None |}.

Definition inventoryOK : Fetched rds.Metrics :=
  {| result := {| rds.Instances := <["db-a" := dbA]> ∅ |};
     err := None; apiCalls := 1%float |}.

Definition inventoryDown : Fetched rds.Metrics :=
  {| result := rds.zeroMetrics;
     err := Some (errExternal "can't describe instances: AccessDenied");
     apiCalls := 1%float |}.

Definition typesOK : Fetched ec2.Metrics :=
  {| result :=
       {| ec2.Instances :=
            <["db.t3.small" :=
                {| ec2.MaximumIops := 11800; ec2.MaximumThroughput := 260620000%float;
                   ec2.Memory := 2147483648; ec2.Vcpu := 2 |}]> ∅ |};
     err := None; apiCalls := 1%float |}.

Definition usageOK : Fetched cloudwatch.UsageMetrics :=
  {| result :=
       {| cloudwatch.AllocatedStorage := 21474836480%float;
          cloudwatch.DBInstances := 1%float;
          cloudwatch.ManualSnapshots := 0%float |};
     err := None; apiCalls := 1%float |}.

Definition quotasOK : Fetched servicequotas.Metrics :=
  {| result :=
       {| servicequotas.DBinstances := 40%float;
          servicequotas.TotalStorage := 107374182400000%float;
          servicequotas.ManualDBInstanceSnapshots := 100%float |};
     err := None; apiCalls := 3%float |}.

Definition quotasDown : Fetched servicequotas.Metrics :=
  {| result := servicequotas.zeroMetrics;
     err := Some (errExternal "can't fetch quota: TooManyRequests");
     apiCalls := 1%float |}.

(** The answer for one query: a value for the CPU of the first
    instance, an empty series for its connections, nothing else. *)
Definition answer (q : cloudwatch.MetricDataQuery) : cloudwatch.MetricDataResult :=
  {| cloudwatch.ResultId := cloudwatch.Id q;
     cloudwatch.Label := cloudwatch.StatMetricName q;
     cloudwatch.Values :=
       if String.eqb (cloudwatch.Id q) "cpuutilization_0" then Some [12.5%float]
       else if String.eqb (cloudwatch.Id q) "databaseconnections_0" then Some []
       else None |}.

Definition cloudwatchOK : cloudwatch.CloudWatchClient :=
  {| cloudwatch.GetMetricData := fun _ params =>
       inl {| cloudwatch.MetricDataResults :=
                answer <$> cloudwatch.MetricDataQueries params |} |}.

Definition cloudwatchDown : cloudwatch.CloudWatchClient :=
  {| cloudwatch.GetMetricData := fun _ _ => inr (errExternal "Throttling") |}.

(** An upstream that answers every request with a result under an id
    that no query has. *)
Definition cloudwatchOdd : cloudwatch.CloudWatchClient :=
  {| cloudwatch.GetMetricData := fun _ _ =>
       inl {| cloudwatch.MetricDataResults :=
                [ {| cloudwatch.ResultId := "m1"; cloudwatch.Label := "m1";
                     cloudwatch.Values := Some [1%float] |} ] |} |}.

Definition keys {V : Type} (m : gmap string V) : list string := (map_to_list m).*1.

Definition world (inventory : Fetched rds.Metrics)
  (quotas : Fetched servicequotas.Metrics)
  (client : cloudwatch.CloudWatchClient) : World :=
  {| Version := "0.9.0"; CommitSHA := "0f1e2d3"; Date := "2024-01-15";
     GetInstancesMetrics := fun _ _ => inventory;
     GetDBInstanceTypeInformation := fun _ => typesOK;
     NewUsageFetcher := fun _ => usageOK;
     GetRDSQuotas := quotas;
     cloudWatchClient := client;
     getUniqTypeAndIdentifiers := fun instances =>
       (keys instances,
        remove_dups (rds.DBInstanceClass <$> (map_to_list instances).*2));
     rangeQueries := keys;
     rangeTags := map_to_list;
     rangeLabels := map_to_list |}.

Definition healthy : World := world inventoryOK quotasOK cloudwatchOK.

Definition collector : RdsCollector :=
  NewCollector everything "123456789012" "eu-west-3".

(** Thirty identifiers, [db-0] to [db-29]. *)
Definition thirty : list string := (fun i => "db-" +:+ pretty i) <$> seq 0 30.

Definition silent : cloudwatch.CloudWatchClient :=
  {| cloudwatch.GetMetricData := fun _ _ =>
       inl {| cloudwatch.MetricDataResults := [] |} |}.

(** A world whose inventory has the thirty instances. *)
Definition fleet : World :=
  {| Version := "0.9.0"; CommitSHA := "0f1e2d3"; Date := "2024-01-15";
     GetInstancesMetrics := fun _ _ =>
       {| result :=
            {| rds.Instances := list_to_map ((fun id => (id, dbA)) <$> thirty) |};
          err := None; apiCalls := 1%float |};
     GetDBInstanceTypeInformation := fun _ => typesOK;
     NewUsageFetcher := fun _ => usageOK;
     GetRDSQuotas := quotasOK;
     cloudWatchClient := silent;
     getUniqTypeAndIdentifiers := fun instances =>
       (keys instances,
        remove_dups (rds.DBInstanceClass <$> (map_to_list instances).*2));
     rangeQueries := keys;
     rangeTags := map_to_list;
     rangeLabels := map_to_list |}.

End example.
(** * Further properties of the code

    ** Vocabulary

    An upstream that keeps, of every series it returns, the first value
    only, and a fetcher that talks to it. *)
Definition latest (m : cloudwatch.MetricDataResult) : cloudwatch.MetricDataResult :=
  {| cloudwatch.ResultId := cloudwatch.ResultId m;
     cloudwatch.Label := cloudwatch.Label m;
     cloudwatch.Values := take 1 <$> cloudwatch.Values m |}.

Definition latestOnly (client : cloudwatch.CloudWatchClient) : cloudwatch.CloudWatchClient :=
  {| cloudwatch.GetMetricData := fun n params =>
       match cloudwatch.GetMetricData client n params with
       | inl resp =>
           inl {| cloudwatch.MetricDataResults :=
                    latest <$> cloudwatch.MetricDataResults resp |}
       | inr err => inr err
       end |}.

Definition withLatest (c : cloudwatch.RdsFetcher) : cloudwatch.RdsFetcher :=
  {| cloudwatch.client := latestOnly (cloudwatch.client c);
     cloudwatch.statistics := cloudwatch.statistics c;
     cloudwatch.issued := cloudwatch.issued c |}.

(** A sample has one label value for each variable label of its
    descriptor, which is what [MustNewConstMetric] checks before it
    panics. *)
Definition wellLabelled (s : exporter.Metric) : Prop :=
  length (exporter.labelValues s) = length (exporter.variableLabels (exporter.desc s)).


Definition samplesFrom (k : source) (ch : list exporter.Metric) : list exporter.Metric :=
  filter (fun s => sourceOf s = k) ch.

(** ** More of the small fleet

    A collector that does not collect the quotas, and an inventory that
    answers with no instance. *)
Module scenario.
Import golang exporter.

Definition withoutQuotas : Configuration :=
  {| CollectInstanceMetrics := true; CollectInstanceTags := true;
     CollectInstanceTypes := true; CollectLogsSize := true;
     CollectMaintenances := true; CollectQuotas := false; CollectUsages := true |}.

Definition noInstance : Fetched rds.Metrics :=
  {| result := rds.zeroMetrics; err := None; apiCalls := 1%float |}.

Definition emptied : World :=
  example.world noInstance example.quotasOK example.cloudwatchDown.

End scenario.

(** ** The identity of a sample

    The value that a sample gives to a label of its descriptor, and
    what tells the samples of one metric name apart: the instance, the
    instance class or the API they are about. *)
Fixpoint labelValue (n : string) (names values : list string) : option string :=
  match names, values with
  | n' :: names, v :: values =>
      if String.eqb n n' then Some v else labelValue n names values
  | _, _ => None
  end.

Definition label (n : string) (s : exporter.Metric) : option string :=
  labelValue n (exporter.variableLabels (exporter.desc s)) (exporter.labelValues s).

Definition identity (s : exporter.Metric)
  : string * option string * option string * option string :=
  (exporter.fqName (exporter.desc s),
   label "dbidentifier" s, label "instance_class" s, label "api" s).

(** The fetcher that a sample with a given identity comes from: that of
    a sample with this metric name and this [api] label. *)
Definition sourceOfIdentity
  (i : string * option string * option string * option string) : source :=
  sourceOf
    (exporter.MustNewConstMetric (exporter.NewDesc i.1.1.1 EmptyString [])
       exporter.GaugeValue 0%float
       [EmptyString; EmptyString; default EmptyString i.2]).

(** ** The commands

    The instance types that the mock of the EC2 client knows, and the
    account and region under which [run] registers the collector of a
    region of the configuration, when both lookups succeed. *)
Definition isMocked (instanceType : string) : Prop :=
  instanceType = "t3.large" \/ instanceType = "t3.small".

#[global] Instance isMocked_dec t : Decision (isMocked t).
Proof. unfold isMocked. apply _. Defined.

(** The entry of the mock for an instance type that it knows: the
    figures of [t3.large], and those of [t3.small]. *)
Definition mocked (instanceType : string) : mocks.InstanceTypeInfo :=
  if String.eqb instanceType "t3.large" then
    {| mocks.InstanceType := instanceType; mocks.DefaultVCpus := 2;
       mocks.SizeInMiB := 8; mocks.MaximumIops := 15700;
       mocks.MaximumThroughputInMBps := 347.5%float |}
  else
    {| mocks.InstanceType := instanceType; mocks.DefaultVCpus := 2;
       mocks.SizeInMiB := 2; mocks.MaximumIops := 11800;
       mocks.MaximumThroughputInMBps := 0x1.049eb851eb852p+8%float  (* 260.62 *) |}.

Definition identify (host : cmd.Host) (configuration : cmd.exporterConfig)
  (region : string) : option (string * string) :=
  match cmd.getAWSConfiguration host (cmd.AWSAssumeRoleArn configuration)
          (cmd.AWSAssumeRoleSession configuration) region with
  | (_, Some _) => None
  | (cfg, None) =>
      match cmd.getAWSSessionInformation host cfg with
      | (_, _, Some _) => None
      | (awsAccountID, awsRegion, None) => Some (awsAccountID, awsRegion)
      end
  end.

(** A host and a configuration to run the commands on: two regions, the
    second of which cannot be identified. *)
Module deployment.
Import golang.

Definition host : cmd.Host :=
  {| cmd.LoadDefaultConfig := fun region =>
       inl {| aws.Region := region;
              aws.Credentials := aws.resolvedCredentials "environment" |};
     cmd.GetRegion := fun _ => inr (errExternal "no metadata service");
     cmd.GetCallerIdentity := fun cfg =>
       if String.eqb (aws.Region cfg) "eu-west-3" then inl "123456789012"
       else inr (errExternal "ExpiredToken");
     cmd.New := fun _ _ => None;
     cmd.Register := fun _ => None;
     cmd.Handle := fun pattern =>
       if String.eqb pattern EmptyString
       then Some (errExternal "http: invalid pattern") else None;
     cmd.ListenAndServe := fun _ _ _ => Some (errExternal "address already in use") |}.

Definition configuration (regions : list string) : cmd.exporterConfig :=
  {| cmd.Debug := false; cmd.LogFormat := "json";
     cmd.TLSCertPath := EmptyString; cmd.TLSKeyPath := EmptyString;
     cmd.MetricPath := "/metrics"; cmd.ListenAddress := ":9043";
     cmd.AWSAssumeRoleSession := "prometheus-rds-exporter";
     cmd.AWSAssumeRoleArn := EmptyString;
     cmd.CollectInstanceMetrics := true; cmd.CollectInstanceTags := true;
     cmd.CollectInstanceTypes := true; cmd.CollectLogsSize := true;
     cmd.CollectMaintenances := true; cmd.CollectQuotas := false;
     cmd.CollectUsages := true;
     cmd.AWSRegions := regions |}.

End deployment.

(** [run] registers [collector] for [region]: the region is identified,
    the collector is the one made for its account and region, and the
    registry accepts it. *)
Definition registered (host : cmd.Host) (configuration : cmd.exporterConfig)
  (region : string) (collector : exporter.RdsCollector) : Prop :=
  exists awsAccountID awsRegion,
    identify host configuration region = Some (awsAccountID, awsRegion) /\
    collector
    = exporter.NewCollector (cmd.collectorConfiguration configuration)
        awsAccountID awsRegion /\
    cmd.Register host collector = None.

(** ** The requests of a fetch

    What a request for the identifiers [D] looks like: the most recent
    datapoints first, no query id twice, and each query for the average
    over a minute of one of the 24 metrics of one of the identifiers,
    under the id made of the metric and of the place of the identifier. *)
Definition asksFor (D : list string) (query : cloudwatch.MetricDataQuery) : Prop :=
  cloudwatch.Namespace query = "AWS/RDS" /\
  cloudwatch.DimensionName query = "DBInstanceIdentifier" /\
  cloudwatch.Stat query = "Average" /\
  cloudwatch.Period query = 60%Z /\
  cloudwatch.StatMetricName query ∈ cloudwatch.getCloudWatchMetricsName /\
  exists i,
    D !! i = Some (cloudwatch.DimensionValue query) /\
    cloudwatch.Id query = queryID (cloudwatch.StatMetricName query) i.

Definition wellFormedRequest (D : list string) (p : cloudwatch.GetMetricDataInput) : Prop :=
  cloudwatch.ScanBy p = "TimestampDescending" /\
  NoDup (cloudwatch.Id <$> cloudwatch.MetricDataQueries p) /\
  Forall (asksFor D) (cloudwatch.MetricDataQueries p).

(** ** The samples every instance has

    The gauges that [Collect] sends for every instance of the
    inventory, present or zero, with the field each reads, and the
    label values of [rds_instance_info]. *)
Module inventoryGauge.
Import golang.

Inductive t : Set :=
| AllocatedStorage
| MaxAllocatedStorage
| MaxIops
| Status
| StorageThroughput
| BackupRetentionPeriod.

Definition get (g : t) (instance : rds.RdsInstanceMetrics) : Z :=
  match g with
  | AllocatedStorage => rds.AllocatedStorage instance
  | MaxAllocatedStorage => rds.MaxAllocatedStorage instance
  | MaxIops => rds.MaxIops instance
  | Status => rds.Status instance
  | StorageThroughput => rds.StorageThroughput instance
  | BackupRetentionPeriod => rds.BackupRetentionPeriod instance
  end.

Definition desc (g : t) : exporter.Desc :=
  match g with
  | AllocatedStorage => exporter.allocatedStorage
  | MaxAllocatedStorage => exporter.maxAllocatedStorage
  | MaxIops => exporter.maxIops
  | Status => exporter.status
  | StorageThroughput => exporter.storageThroughput
  | BackupRetentionPeriod => exporter.backupRetentionPeriod
  end.

End inventoryGauge.

Definition informationLabels (c : exporter.RdsCollector) (dbidentifier : string)
  (instance : rds.RdsInstanceMetrics) : list string :=
  [ exporter.awsAccountID c; exporter.awsRegion c; dbidentifier;
    rds.DbiResourceID instance; rds.DBInstanceClass instance;
    rds.Engine instance; rds.EngineVersion instance; rds.StorageType instance;
    golang.FormatBool (rds.MultiAZ instance);
    golang.FormatBool (rds.DeletionProtection instance);
    rds.Role instance; rds.SourceDBInstanceIdentifier instance;
    golang.FormatBool (rds.PendingModifiedValues instance);
    rds.PendingMaintenanceAction instance;
    golang.FormatBool (rds.PerformanceInsightsEnabled instance);
    rds.CACertificateIdentifier instance; rds.Arn instance ].


(** ** The answers that a fetch goes through

    [answers client n sent]: the results of the answers of [client] to
    the requests [sent], the first of which is the [n]-th request of
    the fetcher, in the order in which
    [updateMetricsWithCloudWatchQueriesResult] goes through them. *)
Fixpoint answers (client : cloudwatch.CloudWatchClient) (n : nat)
  (sent : list cloudwatch.GetMetricDataInput) : list cloudwatch.MetricDataResult :=
  match sent with
  | [] => []
  | p :: sent =>
      match cloudwatch.GetMetricData client n p with
      | inl resp => cloudwatch.MetricDataResults resp
      | inr _ => []
      end ++ answers client (S n) sent
  end.

(** Modelled from the spec: "every query id appearing in an upstream
    response is looked up to exactly one (identifier, metric) pair,
    whose sample field is set to the first returned value when one
    exists".  [storing requests id f held m]: what the field [f] of the
    sample of [id] holds after the result [m], when it held [held]
    before; [stored requests results id f]: what it holds after the
    results [results], taken in order, of a fetch that starts with no
    sample. *)
Definition storing (requests : gmap string cloudwatch.CloudWatchMetricRequest)
  (id : string) (f : field.t) (held : option golang.float64)
  (m : cloudwatch.MetricDataResult) : option golang.float64 :=
  match cloudwatch.Values m with
  | Some (value :: _) =>
      let pair := cloudwatch.index requests (cloudwatch.ResultId m) in
      if bool_decide (cloudwatch.Dbidentifier pair = id
                      /\ cloudwatch.MetricName pair = field.name f)
      then Some value else held
  | _ => held
  end.

Definition stored (requests : gmap string cloudwatch.CloudWatchMetricRequest)
  (results : list cloudwatch.MetricDataResult) (id : string) (f : field.t)
  : option golang.float64 :=
  foldl (storing requests id f) None results.

(** What the field [f] of the sample of [id] holds in [metrics]:
    nothing when there is no sample for [id]. *)
Definition held (metrics : gmap string cloudwatch.RdsMetrics) (id : string)
  (f : field.t) : option golang.float64 :=
  metrics !! id ≫= field.get f.


(** An upstream that answers every request with two results under ids
    that no query has, the first with an empty series and the second
    with none. *)
Module upstream.
Import golang.

Definition valueless : cloudwatch.CloudWatchClient :=
  {| cloudwatch.GetMetricData := fun _ _ =>
       inl {| cloudwatch.MetricDataResults :=
                [ {| cloudwatch.ResultId := "m1"; cloudwatch.Label := "m1";
                     cloudwatch.Values := Some [] |};
                  {| cloudwatch.ResultId := "m2"; cloudwatch.Label := "m2";
                     cloudwatch.Values := None |} ] |} |}.

End upstream.

(** A world in which the quota fetcher and the usage fetcher both fail. *)
Module outage.
Import golang exporter.

Definition usageDown : Fetched cloudwatch.UsageMetrics :=
  {| result :=
       {| cloudwatch.AllocatedStorage := 0%float;
          cloudwatch.DBInstances := 0%float;
          cloudwatch.ManualSnapshots := 0%float |};
     err := Some (errExternal "can't fetch usage: Throttling");
     apiCalls := 1%float |}.

Definition both : World :=
  {| Version := "0.9.0"; CommitSHA := "0f1e2d3"; Date := "2024-01-15";
     GetInstancesMetrics := fun _ _ => example.inventoryOK;
     GetDBInstanceTypeInformation := fun _ => example.typesOK;
     NewUsageFetcher := fun _ => usageDown;
     GetRDSQuotas := example.quotasDown;
     cloudWatchClient := example.cloudwatchOK;
     getUniqTypeAndIdentifiers := fun instances =>
       (example.keys instances,
        remove_dups (rds.DBInstanceClass <$> (map_to_list instances).*2));
     rangeQueries := example.keys;
     rangeTags := map_to_list;
     rangeLabels := map_to_list |}.

End outage.

(** ** [RdsMetrics.Update] *)

Section update.
Import golang cloudwatch.

Lemma field_names_known : field.name <$> field.all = getCloudWatchMetricsName.
Proof. reflexivity. Qed.

Lemma field_in_all f : f ∈ field.all.
Proof. destruct f; unfold field.all; repeat constructor. Qed.

Lemma field_name_inj f g : field.name f = field.name g -> f = g.
Proof. destruct f, g; first [reflexivity | discriminate]. Qed.

(** A known name sets its field and returns no error. *)
Lemma Update_known m f v :
  (Update m (field.name f) v).2 = None /\
  field.get f (Update m (field.name f) v).1 = Some v.
Proof. destruct m, f; split; reflexivity. Qed.

(** The other fields keep their values. *)
Lemma Update_known_other m f g v :
  g <> f -> field.get g (Update m (field.name f) v).1 = field.get g m.
Proof. intros Hne. destruct m, f, g; first [reflexivity | congruence]. Qed.

(** A name outside the 24 reaches the [default] case. *)
Lemma Update_unknown m fld v :
  (forall f, fld <> field.name f) ->
  Update m fld v =
    (m, Some (Errorf ("can't process '" +:+ fld +:+ "' metrics") errUnknownMetric)).
Proof.
  intros Hne. unfold Update. destruct m.
  repeat match goal with
         | |- context [String.eqb fld ?s] =>
             destruct (String.eqb_spec fld s) as [Heq | _];
             [ exfalso; revert Heq;
               first [ apply (Hne field.CPUUtilization) | apply (Hne field.DBLoad)
                     | apply (Hne field.DBLoadCPU) | apply (Hne field.DBLoadNonCPU)
                     | apply (Hne field.DatabaseConnections) | apply (Hne field.FreeStorageSpace)
                     | apply (Hne field.FreeableMemory) | apply (Hne field.MaximumUsedTransactionIDs)
                     | apply (Hne field.ReadIOPS) | apply (Hne field.ReadThroughput)
                     | apply (Hne field.ReplicaLag) | apply (Hne field.ReplicationSlotDiskUsage)
                     | apply (Hne field.SwapUsage) | apply (Hne field.TransactionLogsDiskUsage)
                     | apply (Hne field.WriteIOPS) | apply (Hne field.WriteThroughput)
                     | apply (Hne field.BufferCacheHitRatio) | apply (Hne field.Deadlocks)
                     | apply (Hne field.Queries) | apply (Hne field.EngineUptime)
                     | apply (Hne field.SumBinaryLogSize) | apply (Hne field.NumBinaryLogFiles)
                     | apply (Hne field.AuroraBinlogReplicaLag) | apply (Hne field.BinLogDiskUsage) ]
             | ]
         end.
  reflexivity.
Qed.

Lemma field_name_dec fld : {f | fld = field.name f} + {forall f, fld <> field.name f}.
Proof.
  destruct (decide (fld ∈ field.name <$> field.all)) as [Hin | Hnin].
  - left. apply list_elem_of_fmap in Hin.
    destruct (list_find (fun f => fld = field.name f) field.all) as [[i f]|] eqn:Hfind.
    + apply list_find_Some in Hfind as (_ & Hf & _). exists f; exact Hf.
    + exfalso. apply list_find_None in Hfind. destruct Hin as (f & -> & Hf).
      rewrite Forall_forall in Hfind. exact (Hfind f Hf eq_refl).
  - right. intros f ->. apply Hnin. apply list_elem_of_fmap. exists f; split; [reflexivity|].
    apply field_in_all.
Qed.

(** Whatever the name, a field whose name it is not keeps its value. *)
Lemma Update_other m fld g v :
  fld <> field.name g -> field.get g (Update m fld v).1 = field.get g m.
Proof.
  intros Hne. destruct (field_name_dec fld) as [[f ->] | Hunk].
  - apply Update_known_other. congruence.
  - rewrite Update_unknown by assumption. reflexivity.
Qed.

(** Two records with the same 24 fields are equal. *)
Lemma RdsMetrics_ext m m' : (forall f, field.get f m = field.get f m') -> m = m'.
Proof.
  intros H. destruct m, m'.
  pose proof (H field.CPUUtilization); pose proof (H field.DBLoad);
  pose proof (H field.DBLoadCPU); pose proof (H field.DBLoadNonCPU);
  pose proof (H field.DatabaseConnections); pose proof (H field.FreeStorageSpace);
  pose proof (H field.FreeableMemory); pose proof (H field.MaximumUsedTransactionIDs);
  pose proof (H field.ReadIOPS); pose proof (H field.ReadThroughput);
  pose proof (H field.ReplicaLag); pose proof (H field.ReplicationSlotDiskUsage);
  pose proof (H field.SwapUsage); pose proof (H field.TransactionLogsDiskUsage);
  pose proof (H field.WriteIOPS); pose proof (H field.WriteThroughput);
  pose proof (H field.BufferCacheHitRatio); pose proof (H field.Deadlocks);
  pose proof (H field.Queries); pose proof (H field.EngineUptime);
  pose proof (H field.SumBinaryLogSize); pose proof (H field.NumBinaryLogFiles);
  pose proof (H field.AuroraBinlogReplicaLag); pose proof (H field.BinLogDiskUsage).
  simpl in *. f_equal; assumption.
Qed.

End update.

(** ** The generated queries *)

Section queries.
Import golang cloudwatch.

Lemma separator_inj s1 s2 t1 t2 :
  noUnderscore s1 = true -> noUnderscore s2 = true ->
  s1 +:+ "_" +:+ t1 = s2 +:+ "_" +:+ t2 -> s1 = s2 /\ t1 = t2.
Proof.
  revert s2. induction s1 as [|a s1 IH]; intros [|b s2] H1 H2 Heq; simpl in *.
  - split; [reflexivity|]. injection Heq as Heq. exact Heq.
  - injection Heq as <- _. rewrite Ascii.eqb_refl in H2. discriminate.
  - injection Heq as -> _. rewrite Ascii.eqb_refl in H1. discriminate.
  - injection Heq as -> Heq.
    apply andb_prop in H1 as [_ H1]. apply andb_prop in H2 as [_ H2].
    destruct (IH s2 H1 H2 Heq) as [-> ->]. split; reflexivity.
Qed.

Lemma lower_name_noUnderscore f : noUnderscore (ToLower (field.name f)) = true.
Proof. destruct f; reflexivity. Qed.

Lemma lower_name_inj f g :
  ToLower (field.name f) = ToLower (field.name g) -> f = g.
Proof.
  destruct f, g; intros H; first [reflexivity | vm_compute in H; discriminate H].
Qed.

Lemma known_name m :
  m ∈ getCloudWatchMetricsName <-> exists f, m = field.name f.
Proof.
  rewrite <- field_names_known, list_elem_of_fmap. split.
  - intros (f & -> & _). exists f; reflexivity.
  - intros (f & ->). exists f. split; [reflexivity | apply field_in_all].
Qed.

(** Distinct (metric name, index) pairs have distinct query ids. *)
Lemma queryID_inj m1 m2 i j :
  m1 ∈ getCloudWatchMetricsName -> m2 ∈ getCloudWatchMetricsName ->
  queryID m1 i = queryID m2 j -> m1 = m2 /\ i = j.
Proof.
  intros [f ->]%known_name [g ->]%known_name Heq. unfold queryID, Sprintf_s_d in Heq.
  apply separator_inj in Heq as [Hn Hi]; try apply lower_name_noUnderscore.
  apply lower_name_inj in Hn as ->. split; [reflexivity|].
  exact (inj pretty _ _ Hi).
Qed.

Lemma NoDup_metric_names : NoDup getCloudWatchMetricsName.
Proof. apply (bool_decide_unpack _). vm_compute. exact I. Qed.

Lemma NoDup_queryIDs D : NoDup (queryIDs D).
Proof.
  unfold queryIDs. apply NoDup_bind.
  - intros i j k _ _ (m1 & -> & H1)%list_elem_of_fmap (m2 & Heq & H2)%list_elem_of_fmap.
    apply (queryID_inj m1 m2 i j H1 H2 Heq).
  - intros i _. apply NoDup_fmap_2_strong; [|apply NoDup_metric_names].
    intros m1 m2 H1 H2 Heq. apply (queryID_inj m1 m2 i i H1 H2 Heq).
  - apply NoDup_seq.
Qed.

Lemma elem_of_queryIDs D k :
  k ∈ queryIDs D <->
  exists i m, i < length D /\ m ∈ getCloudWatchMetricsName /\ k = queryID m i.
Proof.
  unfold queryIDs. rewrite list_elem_of_bind. split.
  - intros (i & (m & -> & Hm)%list_elem_of_fmap & Hi%elem_of_seq).
    exists i, m. repeat split; [lia | assumption].
  - intros (i & m & Hi & Hm & ->). exists i. split.
    + apply list_elem_of_fmap. exists m. split; [reflexivity | assumption].
    + apply elem_of_seq. lia.
Qed.

Lemma length_queryIDs D : length (queryIDs D) = 24 * length D.
Proof.
  unfold queryIDs.
  assert (forall n s,
            length (seq s n ≫= (fun i => (fun m => queryID m i) <$> getCloudWatchMetricsName))
            = 24 * n) as H; [|apply H].
  induction n as [|n IH]; intros s; [reflexivity|].
  change (seq s (S n)) with (s :: seq (S s) n).
  rewrite bind_cons, length_app, IH, length_fmap.
  change (length getCloudWatchMetricsName) with 24. lia.
Qed.

(** Inserting under the keys of a list: keys outside the list are not
    touched, and an element of the list whose key no other element
    shares ends with its own value. *)
Lemma foldl_insert_other {A V : Type} (key : A -> string) (val : A -> V)
  (l : list A) (q : gmap string V) (k : string) :
  k ∉ key <$> l ->
  foldl (fun q a => <[key a := val a]> q) q l !! k = q !! k.
Proof.
  revert q. induction l as [|x l IH]; intros q Hk; [reflexivity|]. simpl.
  rewrite fmap_cons in Hk. apply not_elem_of_cons in Hk as [Hx Hl].
  rewrite IH by assumption. apply lookup_insert_ne. congruence.
Qed.

Lemma foldl_insert_elem {A V : Type} (key : A -> string) (val : A -> V)
  (l : list A) (q : gmap string V) (a : A) :
  (forall x y, x ∈ l -> y ∈ l -> key x = key y -> x = y) ->
  a ∈ l ->
  foldl (fun q a => <[key a := val a]> q) q l !! key a = Some (val a).
Proof.
  revert q. induction l as [|x l IH]; intros q Hinj Ha; [inversion Ha|]. simpl.
  destruct (decide (key a ∈ key <$> l)) as [Hin | Hnin].
  - apply list_elem_of_fmap in Hin as (y & Hkey & Hy).
    assert (a = y) as <- by (apply Hinj; [assumption | right; assumption | assumption]).
    apply IH; [|assumption]. intros u z Hu Hz. apply Hinj; right; assumption.
  - rewrite foldl_insert_other by assumption.
    apply elem_of_cons in Ha as [-> | Ha]; [apply lookup_insert_eq|].
    exfalso. apply Hnin. apply list_elem_of_fmap. eauto.
Qed.

Lemma queriesForInstance_elem i d q m :
  m ∈ getCloudWatchMetricsName ->
  queriesForInstance i d q !! queryID m i
  = Some (generateCloudWatchQueryForInstance (queryID m i) m d).
Proof.
  intros Hm. unfold queriesForInstance.
  apply (foldl_insert_elem (fun m => queryID m i)
           (fun m => generateCloudWatchQueryForInstance (queryID m i) m d));
    [|assumption].
  intros x y Hx Hy Heq. apply (queryID_inj x y i i Hx Hy Heq).
Qed.

Lemma queriesForInstance_other i d q k :
  (forall m, m ∈ getCloudWatchMetricsName -> k <> queryID m i) ->
  queriesForInstance i d q !! k = q !! k.
Proof.
  intros Hk. unfold queriesForInstance.
  apply (foldl_insert_other (fun m => queryID m i)
           (fun m => generateCloudWatchQueryForInstance (queryID m i) m d)).
  intros (m & -> & Hm)%list_elem_of_fmap. exact (Hk m Hm eq_refl).
Qed.

Lemma queriesFrom_other D : forall i q k,
  (forall j m, j < length D -> m ∈ getCloudWatchMetricsName -> k <> queryID m (i + j)) ->
  queriesFrom i D q !! k = q !! k.
Proof.
  induction D as [|d D IH]; intros i q k Hk; [reflexivity|]. simpl.
  rewrite IH.
  - apply queriesForInstance_other. intros m Hm.
    specialize (Hk 0 m). rewrite Nat.add_0_r in Hk. apply Hk; [simpl; lia | assumption].
  - intros j m Hj Hm. specialize (Hk (S j) m).
    replace (S i + j) with (i + S j) by lia. apply Hk; [simpl; lia | assumption].
Qed.

Lemma queriesFrom_elem D : forall i q j d m,
  D !! j = Some d -> m ∈ getCloudWatchMetricsName ->
  queriesFrom i D q !! queryID m (i + j)
  = Some (generateCloudWatchQueryForInstance (queryID m (i + j)) m d).
Proof.
  induction D as [|d0 D IH]; intros i q j d m Hj Hm; [inversion Hj|].
  destruct j as [|j]; simpl in *.
  - injection Hj as ->. rewrite Nat.add_0_r. rewrite queriesFrom_other.
    + apply queriesForInstance_elem; assumption.
    + intros j m' _ Hm' Heq. apply queryID_inj in Heq as [_ Heq]; [lia | assumption..].
  - replace (i + S j) with (S i + j) by lia. apply IH; assumption.
Qed.

(** The map of queries, entry by entry. *)
Lemma lookup_generated D i d m :
  D !! i = Some d -> m ∈ getCloudWatchMetricsName ->
  generateCloudWatchQueriesForInstances D !! queryID m i
  = Some (generateCloudWatchQueryForInstance (queryID m i) m d).
Proof. intros Hi Hm. apply (queriesFrom_elem D 0 ∅ i d m Hi Hm). Qed.

Lemma lookup_generated_None D k :
  k ∉ queryIDs D -> generateCloudWatchQueriesForInstances D !! k = None.
Proof.
  intros Hk. unfold generateCloudWatchQueriesForInstances.
  rewrite queriesFrom_other; [apply lookup_empty|].
  intros j m Hj Hm ->. apply Hk. apply elem_of_queryIDs. exists j, m. auto.
Qed.

Lemma lookup_generated_Some D k r :
  generateCloudWatchQueriesForInstances D !! k = Some r ->
  exists i d m,
    D !! i = Some d /\ m ∈ getCloudWatchMetricsName /\ k = queryID m i /\
    r = generateCloudWatchQueryForInstance k m d.
Proof.
  intros Hk. destruct (decide (k ∈ queryIDs D)) as [Hin | Hnin].
  - apply elem_of_queryIDs in Hin as (i & m & Hi & Hm & ->).
    destruct (lookup_lt_is_Some_2 D i Hi) as [d Hd].
    rewrite (lookup_generated D i d m Hd Hm) in Hk. injection Hk as <-.
    exists i, d, m. auto.
  - rewrite lookup_generated_None in Hk by assumption. discriminate.
Qed.

Lemma dom_generated D :
  dom (generateCloudWatchQueriesForInstances D) = list_to_set (queryIDs D).
Proof.
  apply set_eq. intros k. rewrite elem_of_dom, elem_of_list_to_set. split.
  - intros [r (i & d & m & Hi & Hm & -> & _)%lookup_generated_Some].
    apply elem_of_queryIDs. exists i, m. split; [|auto].
    apply lookup_lt_is_Some. eauto.
  - intros (i & m & Hi & Hm & ->)%elem_of_queryIDs.
    destruct (lookup_lt_is_Some_2 D i Hi) as [d Hd].
    rewrite (lookup_generated D i d m Hd Hm). eauto.
Qed.

Lemma keys_generated D :
  (map_to_list (generateCloudWatchQueriesForInstances D)).*1 ≡ₚ queryIDs D.
Proof.
  apply NoDup_Permutation.
  - apply NoDup_fst_map_to_list.
  - apply NoDup_queryIDs.
  - intros k. split.
    + intros ([k' r] & -> & Hr%elem_of_map_to_list)%list_elem_of_fmap. simpl.
      destruct (decide (k' ∈ queryIDs D)) as [Hin | Hnin]; [assumption|].
      rewrite lookup_generated_None in Hr by assumption. discriminate.
    + intros (i & m & Hi & Hm & ->)%elem_of_queryIDs.
      destruct (lookup_lt_is_Some_2 D i Hi) as [d Hd].
      apply list_elem_of_fmap. eexists (_, _). split; [reflexivity|].
      apply elem_of_map_to_list. apply (lookup_generated D i d m Hd Hm).
Qed.

Lemma size_generated D :
  size (generateCloudWatchQueriesForInstances D) = 24 * length D.
Proof.
  rewrite <- length_queryIDs, <- keys_generated, length_fmap.
  symmetry. apply length_map_to_list.
Qed.

End queries.

(** ** Chunks *)

Section chunks.
Import golang cloudwatch.

Lemma chunking_spec n l : forall acc,
  length acc < n ->
  concat (chunking n acc l).1 ++ (chunking n acc l).2 = acc ++ l /\
  Forall (fun c => length c = n) (chunking n acc l).1 /\
  length (chunking n acc l).2 < n.
Proof.
  induction l as [|x l IH]; intros acc Hacc; simpl.
  - rewrite app_nil_r. auto.
  - destruct (Nat.eqb_spec (length (acc ++ [x])) n) as [Heq | Hne].
    + destruct (IH [] ltac:(simpl; lia)) as (Hc & Hf & Hl).
      destruct (chunking n [] l) as [full last]; simpl in *.
      rewrite <- !app_assoc, Hc. auto.
    + rewrite length_app in Hne; simpl in Hne.
      destruct (IH (acc ++ [x])) as (Hc & Hf & Hl).
      { rewrite length_app; simpl; lia. }
      rewrite Hc, <- app_assoc. auto.
Qed.

Lemma length_concat_uniform (n : nat) (ls : list (list string)) :
  Forall (fun c => length c = n) ls -> length (concat ls) = n * length ls.
Proof.
  induction 1 as [|c ls Hc _ IH]; simpl; [lia|]. rewrite length_app, IH, Hc. lia.
Qed.

Lemma chunking_count n l :
  0 < n ->
  length (chunking n [] l).1 = length l / n /\
  length (chunking n [] l).2 = length l mod n.
Proof.
  intros Hn. destruct (chunking_spec n l [] Hn) as (Hc & Hf & Hl).
  apply (f_equal length) in Hc. rewrite length_app, (length_concat_uniform n) in Hc by assumption.
  simpl in Hc. split.
  - apply (Nat.div_unique _ _ _ (length (chunking n [] l).2)); lia.
  - apply (Nat.mod_unique _ _ (length (chunking n [] l).1)); lia.
Qed.

(** The chunks together are the list, in order. *)
Lemma concat_sentChunks n l : 0 < n -> concat (sentChunks n l) = l.
Proof.
  intros Hn. destruct (chunking_spec n l [] Hn) as (Hc & _ & _). unfold sentChunks.
  rewrite concat_app. etrans; [|exact Hc]. f_equal.
  destruct (chunking n [] l).2; simpl; [reflexivity | f_equal; apply app_nil_r].
Qed.



End chunks.

(** ** [GetRDSInstanceMetrics] as a run over its chunks *)

Section run.
Import golang cloudwatch.

Lemma rangeQueries_runChunks q n order : forall s,
  match rangeQueries q n order s with
  | inl s' =>
      runChunks q (chunking n (chunk s) order).1 (fetcher s) (metrics s)
      = (fetcher s', metrics s', None) /\
      chunk s' = (chunking n (chunk s) order).2
  | inr (c', e') =>
      exists m e,
        runChunks q (chunking n (chunk s) order).1 (fetcher s) (metrics s)
        = (c', m, Some e) /\
        e' = Errorf "can't fetch Cloudwatch metrics" e
  end.
Proof.
  induction order as [|x rest IH]; intros s; simpl; [auto|].
  destruct (length (chunk s ++ [x]) =? n).
  - destruct (chunking n [] rest) as [full last] eqn:Hch. simpl.
    destruct (updateMetricsWithCloudWatchQueriesResult _ _ _ _) as [[c m] [e|]].
    + eauto.
    + specialize (IH {| fetcher := c; metrics := m; chunk := [];
                       cloudWatchAPICalls := (cloudWatchAPICalls s + 1)%float |}).
      simpl in IH. rewrite Hch in IH. exact IH.
  - apply (IH {| fetcher := fetcher s; metrics := metrics s; chunk := chunk s ++ [x];
                cloudWatchAPICalls := cloudWatchAPICalls s |}).
Qed.

Lemma runChunks_app q l1 l2 : forall c m,
  runChunks q (l1 ++ l2) c m =
  match runChunks q l1 c m with
  | (c', m', Some e) => (c', m', Some e)
  | (c', m', None) => runChunks q l2 c' m'
  end.
Proof.
  induction l1 as [|x l1 IH]; intros c m; simpl; [reflexivity|].
  destruct (updateMetricsWithCloudWatchQueriesResult _ _ _ _) as [[c' m'] [e|]];
    [reflexivity | apply IH].
Qed.

(** The whole function: its chunks are sent in order until one fails;
    the result is empty on a failure; the statistics count one call
    when a last, incomplete chunk was sent without failure, and none
    otherwise. *)
Lemma GetRDSInstanceMetrics_run range c D :
  GetRDSInstanceMetrics range c D =
  let q := generateCloudWatchQueriesForInstances D in
  match runChunks q (sentChunks MaxQueriesPerCloudwatchRequest (range q)) c ∅ with
  | (c', _, Some e) =>
      (c', emptyCloudWatchMetrics, Some (Errorf "can't fetch Cloudwatch metrics" e))
  | (c', m, None) =>
      (match (chunking MaxQueriesPerCloudwatchRequest [] (range q)).2 with
       | [] => c'
       | _ :: _ => countAPICall c'
       end, {| Instances := m |}, None)
  end.
Proof.
  unfold GetRDSInstanceMetrics, sentChunks. cbv zeta.
  set (q := generateCloudWatchQueriesForInstances D).
  set (n := MaxQueriesPerCloudwatchRequest).
  pose proof (rangeQueries_runChunks q n (range q)
                {| fetcher := c; metrics := ∅; chunk := [];
                   cloudWatchAPICalls := 0%float |}) as H.
  simpl in H. rewrite runChunks_app.
  destruct (rangeQueries _ _ _ _) as [s' | [c' e']].
  - destruct H as [-> Hlast]. rewrite <- Hlast.
    destruct (chunk s') as [|x last]; simpl; [reflexivity|].
    destruct (updateMetricsWithCloudWatchQueriesResult _ _ _ _) as [[c' m'] [e|]];
      reflexivity.
  - destruct H as (m & e & -> & ->). reflexivity.
Qed.

(** What a run leaves in the fetcher: the same client and statistics,
    and one more request per chunk until the first failure. *)
Lemma runChunks_fetcher q chunks : forall c m,
  client (runChunks q chunks c m).1.1 = client c /\
  statistics (runChunks q chunks c m).1.1 = statistics c /\
  exists k,
    k <= length chunks /\
    issued (runChunks q chunks c m).1.1 = issued c ++ (requestFor q <$> take k chunks) /\
    ((runChunks q chunks c m).2 = None -> k = length chunks).
Proof.
  induction chunks as [|ch chunks IH]; intros c m; simpl.
  - repeat split. exists 0. rewrite app_nil_r. auto.
  - unfold updateMetricsWithCloudWatchQueriesResult at 1 2 3 4.
    fold (requestFor q ch).
    set (c1 := {| client := client c; statistics := statistics c;
                  issued := issued c ++ [requestFor q ch] |}).
    destruct (GetMetricData (client c) (length (issued c)) (requestFor q ch)) as [resp | e].
    + destruct (processResults q m (MetricDataResults resp)) as [m' [e|]]; simpl.
      * repeat split. exists 1. simpl. split; [lia|]. split; [reflexivity | discriminate].
      * destruct (IH c1 m') as (Hc & Hs & k & Hk & Hi & Hn).
        repeat split; [assumption..|]. exists (S k). split; [lia|].
        split; [|intros; f_equal; auto].
        rewrite Hi. simpl. rewrite <- app_assoc. reflexivity.
    + simpl. repeat split. exists 1. simpl. split; [lia|]. split; [reflexivity | discriminate].
Qed.

End run.

(** ** Processing the results of a response *)

Section results.
Import golang cloudwatch.

(** A result with a value for a known metric sets the field of that
    metric in the sample of the instance of its query, to the first
    value. *)
Lemma processResult_sets q metrics m f v vs :
  Values m = Some (v :: vs) ->
  MetricName (index q (ResultId m)) = field.name f ->
  (processResult q metrics m).2 = None /\
  exists rm,
    (processResult q metrics m).1 !! Dbidentifier (index q (ResultId m)) = Some rm /\
    field.get f rm = Some v.
Proof.
  intros Hv Hn. unfold processResult. rewrite Hv, Hn.
  set (metrics1 := match metrics !! _ with Some _ => metrics | None => _ end).
  destruct (Update_known (default emptyRdsMetrics (metrics1 !! Dbidentifier (index q (ResultId m)))) f v)
    as [He Hg].
  destruct (Update _ _ _) as [rm e]. simpl in *. subst e. simpl.
  split; [reflexivity|]. exists rm. rewrite lookup_insert_eq. auto.
Qed.

(** The only error of the loop over the results is that of [Update]. *)
Lemma processResult_error q metrics m e :
  (processResult q metrics m).2 = Some e -> errors_Is e errUnknownMetric.
Proof.
  unfold processResult. destruct (Values m) as [[|v vs]|]; try discriminate.
  set (rm0 := default emptyRdsMetrics _).
  destruct (field_name_dec (MetricName (index q (ResultId m)))) as [[f Hf] | Hunk].
  - rewrite Hf. destruct (Update_known rm0 f v) as [He _].
    destruct (Update _ _ _) as [rm e']. simpl in He. subst e'. discriminate.
  - rewrite Update_unknown by assumption. simpl. intros [= <-].
    simpl. right. right. left. reflexivity.
Qed.

Lemma processResult_unknown q metrics m :
  dispatchesUnknown q m -> exists e, (processResult q metrics m).2 = Some e.
Proof.
  intros [(v & vs & Hv) Hunk]. unfold processResult. rewrite Hv.
  rewrite Update_unknown.
  - simpl. eauto.
  - intros f Hf. apply Hunk. apply known_name. eauto.
Qed.

Lemma processResults_error q results : forall metrics e,
  (processResults q metrics results).2 = Some e -> errors_Is e errUnknownMetric.
Proof.
  induction results as [|m results IH]; intros metrics e; simpl; [discriminate|].
  destruct (processResult q metrics m) as [metrics' [e'|]] eqn:Hm.
  - simpl. intros [= <-]. apply (processResult_error q metrics m). rewrite Hm. reflexivity.
  - apply IH.
Qed.

Lemma processResults_unknown q results : forall metrics m,
  m ∈ results -> dispatchesUnknown q m ->
  exists e, (processResults q metrics results).2 = Some e.
Proof.
  induction results as [|m0 results IH]; intros metrics m Hin Hm; [inversion Hin|].
  simpl. destruct (processResult q metrics m0) as [metrics' [e'|]] eqn:Hm0.
  - simpl. eauto.
  - apply elem_of_cons in Hin as [-> | Hin].
    + destruct (processResult_unknown q metrics m0 Hm) as [e He].
      rewrite Hm0 in He. discriminate.
    + apply (IH metrics' m Hin Hm).
Qed.

(** A result leaves unset every field other than the one it has a
    value for. *)
Lemma processResult_unset q metrics m id f :
  unset metrics id f ->
  (Dbidentifier (index q (ResultId m)) = id ->
   MetricName (index q (ResultId m)) = field.name f -> emptySeries m) ->
  unset (processResult q metrics m).1 id f.
Proof.
  intros Hun Hm. unfold processResult.
  destruct (Values m) as [values|] eqn:Hv; [|exact Hun].
  set (val := index q (ResultId m)) in *.
  set (metrics1 := match metrics !! Dbidentifier val with
                   | Some _ => metrics
                   | None => <[Dbidentifier val := emptyRdsMetrics]> metrics
                   end).
  assert (unset metrics1 id f) as Hun1.
  { subst metrics1. destruct (metrics !! Dbidentifier val) eqn:Hl; [exact Hun|].
    intros rm. destruct (decide (Dbidentifier val = id)) as [<- | Hne].
    - rewrite lookup_insert_eq. intros [= <-]. destruct f; reflexivity.
    - rewrite lookup_insert_ne by assumption. apply Hun. }
  destruct values as [|v vs]; [exact Hun1|].
  assert (unset (<[Dbidentifier val :=
                     (Update (default emptyRdsMetrics (metrics1 !! Dbidentifier val))
                             (MetricName val) v).1]> metrics1) id f) as Hun2.
  { intros rm. destruct (decide (Dbidentifier val = id)) as [Hid | Hne].
    - rewrite Hid, lookup_insert_eq. intros [= <-]. rewrite Update_other.
      + destruct (metrics1 !! id) as [rm1|] eqn:Hl; simpl;
          [apply (Hun1 rm1 Hl) | destruct f; reflexivity].
      + intros Hname. destruct (Hm Hid Hname) as [He | He]; congruence.
    - rewrite lookup_insert_ne by assumption. apply Hun1. }
  destruct (Update _ _ _) as [rm [e|]]; exact Hun2.
Qed.

Lemma processResults_unset q results id f : forall metrics,
  unset metrics id f ->
  (forall m, m ∈ results ->
     Dbidentifier (index q (ResultId m)) = id ->
     MetricName (index q (ResultId m)) = field.name f -> emptySeries m) ->
  unset (processResults q metrics results).1 id f.
Proof.
  induction results as [|m results IH]; intros metrics Hun Hm; [exact Hun|].
  simpl. pose proof (processResult_unset q metrics m id f Hun (Hm m ltac:(left))) as H1.
  destruct (processResult q metrics m) as [metrics' [e|]]; [exact H1|].
  apply IH; [exact H1|]. intros m' Hin. apply Hm. right; assumption.
Qed.

End results.

(** ** Results and failures of a whole run *)

Section fetch.
Import golang cloudwatch.

Lemma update_client c metrics q ch :
  client (updateMetricsWithCloudWatchQueriesResult c metrics q ch).1.1 = client c /\
  issued (updateMetricsWithCloudWatchQueriesResult c metrics q ch).1.1
  = issued c ++ [requestFor q ch].
Proof.
  unfold updateMetricsWithCloudWatchQueriesResult.
  destruct (GetMetricData _ _ _) as [resp | e]; [|auto].
  destruct (processResults _ _ _) as [m' e]. auto.
Qed.

Lemma update_unset c metrics q ch id f :
  unset metrics id f ->
  (forall n p resp m,
     GetMetricData (client c) n p = inl resp -> m ∈ MetricDataResults resp ->
     Dbidentifier (index q (ResultId m)) = id ->
     MetricName (index q (ResultId m)) = field.name f -> emptySeries m) ->
  unset (updateMetricsWithCloudWatchQueriesResult c metrics q ch).1.2 id f.
Proof.
  intros Hun Hcl. unfold updateMetricsWithCloudWatchQueriesResult.
  destruct (GetMetricData _ _ _) as [resp | e] eqn:Hresp; [|exact Hun].
  pose proof (processResults_unset q (MetricDataResults resp) id f metrics Hun) as H.
  destruct (processResults _ _ _) as [m' e]. apply H.
  intros m Hm. apply (Hcl _ _ _ m Hresp Hm).
Qed.

Lemma runChunks_unset q chunks id f : forall c metrics,
  unset metrics id f ->
  (forall n p resp m,
     GetMetricData (client c) n p = inl resp -> m ∈ MetricDataResults resp ->
     Dbidentifier (index q (ResultId m)) = id ->
     MetricName (index q (ResultId m)) = field.name f -> emptySeries m) ->
  unset (runChunks q chunks c metrics).1.2 id f.
Proof.
  induction chunks as [|ch chunks IH]; intros c metrics Hun Hcl; [exact Hun|]. simpl.
  pose proof (update_unset c metrics q ch id f Hun Hcl) as H1.
  destruct (update_client c metrics q ch) as [Hc _].
  destruct (updateMetricsWithCloudWatchQueriesResult _ _ _ _) as [[c' m'] [e|]];
    simpl in *; [exact H1|].
  apply IH; [exact H1|]. rewrite Hc. exact Hcl.
Qed.

(** A series that the upstream always returns empty stays unset in the
    result of the fetch. *)
Lemma GetRDSInstanceMetrics_unset range c D id f :
  (forall n p resp m,
     GetMetricData (client c) n p = inl resp -> m ∈ MetricDataResults resp ->
     Dbidentifier (index (generateCloudWatchQueriesForInstances D) (ResultId m)) = id ->
     MetricName (index (generateCloudWatchQueriesForInstances D) (ResultId m))
     = field.name f ->
     emptySeries m) ->
  unset (Instances (GetRDSInstanceMetrics range c D).1.2) id f.
Proof.
  intros Hcl. rewrite GetRDSInstanceMetrics_run. cbv zeta.
  pose proof (runChunks_unset (generateCloudWatchQueriesForInstances D)
                (sentChunks MaxQueriesPerCloudwatchRequest
                   (range (generateCloudWatchQueriesForInstances D)))
                id f c ∅) as H.
  destruct (runChunks _ _ _ _) as [[c' m'] [e|]]; simpl in *.
  - intros rm. rewrite lookup_empty. discriminate.
  - apply H; [|exact Hcl]. intros rm. rewrite lookup_empty. discriminate.
Qed.

(** A response that was received and has a result that reaches
    [Update] with an unknown name ends the run with an error that
    wraps [errUnknownMetric]. *)
Lemma runChunks_unknown q chunks : forall c metrics i p resp r,
  issued (runChunks q chunks c metrics).1.1 !! i = Some p ->
  length (issued c) <= i ->
  GetMetricData (client c) i p = inl resp ->
  r ∈ MetricDataResults resp ->
  dispatchesUnknown q r ->
  exists e, (runChunks q chunks c metrics).2 = Some e /\ errors_Is e errUnknownMetric.
Proof.
  induction chunks as [|ch chunks IH]; intros c metrics i p resp r Hi Hle Hresp Hr Hbad.
  - simpl in Hi. apply lookup_lt_Some in Hi. lia.
  - simpl in *.
    destruct (update_client c metrics q ch) as [Hc1 Hi1].
    unfold updateMetricsWithCloudWatchQueriesResult in *. fold (requestFor q ch) in *.
    destruct (GetMetricData (client c) (length (issued c)) (requestFor q ch))
      as [resp0 | e0] eqn:Hresp0.
    + pose proof (processResults_error q (MetricDataResults resp0) metrics) as Herr.
      pose proof (processResults_unknown q (MetricDataResults resp0) metrics) as Hunk.
      destruct (processResults q metrics (MetricDataResults resp0)) as [m' [e|]];
        simpl in *; [eauto|].
      set (c1 := {| client := client c; statistics := statistics c;
                    issued := issued c ++ [requestFor q ch] |}) in *.
      destruct (decide (i = length (issued c))) as [-> | Hne].
      * destruct (runChunks_fetcher q chunks c1 m') as (_ & _ & k & _ & Hiss & _).
        rewrite Hiss in Hi. simpl in Hi.
        rewrite <- app_assoc, lookup_app_r, Nat.sub_diag in Hi by lia.
        simpl in Hi. injection Hi as <-. rewrite Hresp0 in Hresp. injection Hresp as <-.
        destruct (Hunk r Hr Hbad) as [e He]. discriminate.
      * apply (IH c1 m' i p resp r); try assumption.
        simpl. rewrite length_app. simpl. lia.
    + simpl in *. rewrite lookup_app_r in Hi by lia.
      destruct (i - length (issued c)) as [|j] eqn:Hj; simpl in Hi; [|discriminate].
      injection Hi as <-. assert (i = length (issued c)) as -> by lia. congruence.
Qed.

Lemma GetRDSInstanceMetrics_unknown range c D i p resp r :
  issued (GetRDSInstanceMetrics range c D).1.1 !! i = Some p ->
  length (issued c) <= i ->
  GetMetricData (client c) i p = inl resp ->
  r ∈ MetricDataResults resp ->
  dispatchesUnknown (generateCloudWatchQueriesForInstances D) r ->
  (GetRDSInstanceMetrics range c D).1.2 = emptyCloudWatchMetrics /\
  exists e, (GetRDSInstanceMetrics range c D).2 = Some e /\ errors_Is e errUnknownMetric.
Proof.
  rewrite GetRDSInstanceMetrics_run. cbv zeta.
  set (q := generateCloudWatchQueriesForInstances D).
  set (chunks := sentChunks _ _).
  intros Hi Hle Hresp Hr Hbad.
  pose proof (runChunks_unknown q chunks c ∅ i p resp r) as H.
  destruct (runChunks q chunks c ∅) as [[c' m'] [e|]]; simpl in *.
  - destruct (H Hi Hle Hresp Hr Hbad) as (e' & [= <-] & He).
    split; [reflexivity|]. eexists. split; [reflexivity|]. right. exact He.
  - destruct (H ltac:(destruct (chunking _ _ _).2; exact Hi) Hle Hresp Hr Hbad)
      as (e' & He' & _). discriminate.
Qed.

(** A failed fetch returns an empty result. *)
Lemma GetRDSInstanceMetrics_failure range c D e :
  (GetRDSInstanceMetrics range c D).2 = Some e ->
  (GetRDSInstanceMetrics range c D).1.2 = emptyCloudWatchMetrics.
Proof.
  rewrite GetRDSInstanceMetrics_run. cbv zeta.
  destruct (runChunks _ _ _ _) as [[c' m'] [e'|]]; simpl; [reflexivity | discriminate].
Qed.

End fetch.

(** ** The structure of a scrape *)

Section scrape.
Import golang exporter.

Lemma sameButTags_refl c : sameButTags c c.
Proof. repeat split. Qed.

Lemma getInstanceTagLabels_same w c c' id inst :
  sameButTags c c' ->
  getInstanceTagLabels w c' id inst = getInstanceTagLabels w c id inst.
Proof.
  intros (_ & _ & Ha & Hr & _). unfold getInstanceTagLabels. rewrite Ha, Hr. reflexivity.
Qed.

Lemma collectRDSInstance_spec w c c0 ch entry :
  sameButTags c0 c ->
  sameButTags c0 (collectRDSInstance w (c, ch) entry).1 /\
  (collectRDSInstance w (c, ch) entry).2 = ch ++ part.instance w c0 entry.
Proof.
  intros Hs. pose proof Hs as (Hk & Hm & Ha & Hr & Hc).
  unfold part.instance, collectRDSInstance. destruct entry as [id inst].
  rewrite Ha, Hr, Hc, (getInstanceTagLabels_same w c0 c id inst Hs).
  destruct (CollectInstanceTags (configuration c0)).
  - destruct (getInstanceTagLabels w c0 id inst) as [names values]. simpl.
    split; [repeat split; first [assumption | reflexivity]|].
    rewrite <- !app_assoc. reflexivity.
  - simpl. split; [assumption|]. rewrite <- !app_assoc. reflexivity.
Qed.

Lemma collectRDSInstances_spec w c0 entries : forall c ch,
  sameButTags c0 c ->
  sameButTags c0 (foldl (collectRDSInstance w) (c, ch) entries).1 /\
  (foldl (collectRDSInstance w) (c, ch) entries).2
  = ch ++ (entries ≫= part.instance w c0).
Proof.
  induction entries as [|e entries IH]; intros c ch Hs.
  - simpl. rewrite app_nil_r. auto.
  - cbn [foldl]. rewrite bind_cons.
    destruct (collectRDSInstance_spec w c c0 ch e Hs) as [Hs1 Hch1].
    destruct (collectRDSInstance w (c, ch) e) as [c1 ch1]. cbn [fst snd] in *.
    destruct (IH c1 ch1 Hs1) as [Hs2 Hch2]. split; [assumption|].
    rewrite Hch2, Hch1, <- app_assoc. reflexivity.
Qed.

(** [Collect] part by part. *)
Lemma Collect_parts w c :
  (Collect w c).2 =
  match fetchMetrics w c with
  | (c1, Some _) =>
      part.header w c
      ++ [MustNewConstMetric up GaugeValue exporterDownStatusCode [awsRegion c1]]
  | (c1, None) =>
      part.header w c
      ++ [MustNewConstMetric up GaugeValue exporterUpStatusCode [awsRegion c1]]
      ++ part.inventory w c1 ++ part.timeSeries c1 ++ part.usage c1
      ++ part.instanceTypes c1 ++ part.quotas c1
  end /\
  sameButTags (fetchMetrics w c).1 (Collect w c).1.
Proof.
  unfold Collect. destruct (fetchMetrics w c) as [c1 [e|]]; simpl.
  - split; [reflexivity | apply sameButTags_refl].
  - match goal with
    | |- context [foldl (collectRDSInstance w) (c1, ?ch) ?l] =>
        destruct (collectRDSInstances_spec w c1 l c1 ch (sameButTags_refl c1))
          as [Hs Hch];
        destruct (foldl (collectRDSInstance w) (c1, ch) l) as [c2 ch2]
    end.
    simpl in *. pose proof Hs as (Hk & Hm & Ha & Hr & Hc).
    split; [|assumption].
    unfold part.inventory, part.timeSeries, part.usage, part.instanceTypes, part.quotas.
    rewrite Hk, Hm, Ha, Hr, Hc, Hch.
    assert (forall l, l ≫= collectCloudwatchInstance c2 = l ≫= collectCloudwatchInstance c1) as ->.
    { intros l. apply list_bind_ext; [|reflexivity]. intros [id inst].
      unfold collectCloudwatchInstance. rewrite Ha, Hr. reflexivity. }
    assert (forall l, l ≫= collectEC2Instance c2 = l ≫= collectEC2Instance c1) as ->.
    { intros l. apply list_bind_ext; [|reflexivity]. intros [id inst].
      unfold collectEC2Instance. rewrite Ha, Hr. reflexivity. }
    destruct (CollectUsages (configuration c1)), (CollectQuotas (configuration c1));
      simpl; rewrite <- ?app_assoc; simpl; rewrite ?app_nil_r; reflexivity.
Qed.

End scrape.

(** ** What [fetchMetrics] leaves in the collector *)

Section fetchMetrics.
Import golang exporter.

Lemma fetchMetrics_steps w c :
  fetchMetrics w c =
  let c2 := step.usages w (step.quotas w c) in
  let fetched :=
    GetInstancesMetrics w (CollectLogsSize (configuration c2))
                        (CollectMaintenances (configuration c2)) in
  match err fetched with
  | Some e => (c2, Some (Errorf "can't fetch RDS metrics" e))
  | None =>
      (step.timeSeries w
         (getUniqTypeAndIdentifiers w (rds.Instances (result fetched))).1
         (step.types w
            (getUniqTypeAndIdentifiers w (rds.Instances (result fetched))).2
            (step.inventory fetched c2)), None)
  end.
Proof.
  unfold fetchMetrics. cbv zeta.
  fold (step.quotas w c). fold (step.usages w (step.quotas w c)).
  destruct (err _); [reflexivity|].
  fold (step.inventory
          (GetInstancesMetrics w
             (CollectLogsSize (configuration (step.usages w (step.quotas w c))))
             (CollectMaintenances (configuration (step.usages w (step.quotas w c)))))
          (step.usages w (step.quotas w c))).
  destruct (getUniqTypeAndIdentifiers w _) as [ids tys]. reflexivity.
Qed.


Lemma step_quotas w c :
  step.quotas w c =
  {| counters :=
      {| CloudwatchAPICalls := CloudwatchAPICalls (counters c);
         EC2APIcalls := EC2APIcalls (counters c);
         Errors := if CollectQuotas (configuration c) && match err (GetRDSQuotas w) with Some _ => true | None => false end
           then (Errors (counters c) + 1)%float else Errors (counters c);
         RDSAPIcalls := RDSAPIcalls (counters c);
         ServiceQuotasAPICalls := if CollectQuotas (configuration c)
           then (ServiceQuotasAPICalls (counters c) + apiCalls (GetRDSQuotas w))%float
           else ServiceQuotasAPICalls (counters c);
         UsageAPIcalls := UsageAPIcalls (counters c) |};
    metrics_ :=
      {| ServiceQuota := if CollectQuotas (configuration c) then result (GetRDSQuotas w)
           else ServiceQuota (metrics_ c);
         RDS := RDS (metrics_ c);
         EC2 := EC2 (metrics_ c);
         CloudwatchInstances := CloudwatchInstances (metrics_ c);
         CloudWatchUsage := CloudWatchUsage (metrics_ c) |};
    awsAccountID := awsAccountID c; awsRegion := awsRegion c;
    configuration := configuration c; instanceTags := instanceTags c |}.
Proof.
  unfold step.quotas, getQuotasMetrics.
  destruct c as [[] [] ? ? [? ? ? ? ? cq ?] ?]; cbn -[PrimFloat.add].
  destruct cq, (GetRDSQuotas w) as [r [e|] a]; reflexivity.
Qed.

Lemma step_usages w c :
  step.usages w c =
  {| counters :=
      {| CloudwatchAPICalls := CloudwatchAPICalls (counters c);
         EC2APIcalls := EC2APIcalls (counters c);
         Errors := if CollectUsages (configuration c) && match err (GetUsageMetrics w) with Some _ => true | None => false end
           then (Errors (counters c) + 1)%float else Errors (counters c);
         RDSAPIcalls := RDSAPIcalls (counters c);
         ServiceQuotasAPICalls := ServiceQuotasAPICalls (counters c);
         UsageAPIcalls := if CollectUsages (configuration c)
           then (UsageAPIcalls (counters c) + apiCalls (GetUsageMetrics w))%float
           else UsageAPIcalls (counters c) |};
    metrics_ :=
      {| ServiceQuota := ServiceQuota (metrics_ c);
         RDS := RDS (metrics_ c);
         EC2 := EC2 (metrics_ c);
         CloudwatchInstances := CloudwatchInstances (metrics_ c);
         CloudWatchUsage := if CollectUsages (configuration c) then result (GetUsageMetrics w)
           else CloudWatchUsage (metrics_ c) |};
    awsAccountID := awsAccountID c; awsRegion := awsRegion c;
    configuration := configuration c; instanceTags := instanceTags c |}.
Proof.
  unfold step.usages, getUsagesMetrics.
  destruct c as [[] [] ? ? [? ? ? ? ? ? cu] ?]; cbn -[PrimFloat.add].
  destruct cu, (GetUsageMetrics w) as [r [e|] a]; reflexivity.
Qed.

Lemma step_inventory fetched c :
  step.inventory fetched c =
  {| counters :=
      {| CloudwatchAPICalls := CloudwatchAPICalls (counters c);
         EC2APIcalls := EC2APIcalls (counters c);
         Errors := Errors (counters c);
         RDSAPIcalls := (RDSAPIcalls (counters c) + apiCalls fetched)%float;
         ServiceQuotasAPICalls := ServiceQuotasAPICalls (counters c);
         UsageAPIcalls := UsageAPIcalls (counters c) |};
    metrics_ :=
      {| ServiceQuota := ServiceQuota (metrics_ c);
         RDS := result fetched;
         EC2 := EC2 (metrics_ c);
         CloudwatchInstances := CloudwatchInstances (metrics_ c);
         CloudWatchUsage := CloudWatchUsage (metrics_ c) |};
    awsAccountID := awsAccountID c; awsRegion := awsRegion c;
    configuration := configuration c; instanceTags := instanceTags c |}.
Proof.
  unfold step.inventory. destruct c as [[] [] ? ? ? ?]. reflexivity.
Qed.

Lemma step_types w tys c :
  step.types w tys c =
  {| counters :=
      {| CloudwatchAPICalls := CloudwatchAPICalls (counters c);
         EC2APIcalls := if CollectInstanceTypes (configuration c) && (0 <? length tys)
           then (EC2APIcalls (counters c) + apiCalls (GetDBInstanceTypeInformation w tys))%float
           else EC2APIcalls (counters c);
         Errors := if CollectInstanceTypes (configuration c) && (0 <? length tys) && match err (GetDBInstanceTypeInformation w tys) with Some _ => true | None => false end
           then (Errors (counters c) + 1)%float else Errors (counters c);
         RDSAPIcalls := RDSAPIcalls (counters c);
         ServiceQuotasAPICalls := ServiceQuotasAPICalls (counters c);
         UsageAPIcalls := UsageAPIcalls (counters c) |};
    metrics_ :=
      {| ServiceQuota := ServiceQuota (metrics_ c);
         RDS := RDS (metrics_ c);
         EC2 := if CollectInstanceTypes (configuration c) && (0 <? length tys)
           then result (GetDBInstanceTypeInformation w tys) else EC2 (metrics_ c);
         CloudwatchInstances := CloudwatchInstances (metrics_ c);
         CloudWatchUsage := CloudWatchUsage (metrics_ c) |};
    awsAccountID := awsAccountID c; awsRegion := awsRegion c;
    configuration := configuration c; instanceTags := instanceTags c |}.
Proof.
  unfold step.types, getEC2Metrics.
  destruct c as [[] [] ? ? [? ? ct ? ? ? ?] ?]; cbn -[PrimFloat.add Nat.ltb].
  destruct ct, (0 <? length tys), (GetDBInstanceTypeInformation w tys) as [r [e|] a];
    reflexivity.
Qed.

Lemma step_timeSeries w ids c :
  step.timeSeries w ids c =
  {| counters :=
      {| CloudwatchAPICalls := if CollectInstanceMetrics (configuration c)
           then (CloudwatchAPICalls (counters c)
                 + cloudwatch.CloudWatchAPICall
                     (cloudwatch.GetStatistics
                        (cloudwatch.GetRDSInstanceMetrics (rangeQueries w)
              (cloudwatch.NewRDSFetcher (cloudWatchClient w)) ids).1.1))%float
           else CloudwatchAPICalls (counters c);
         EC2APIcalls := EC2APIcalls (counters c);
         Errors := if CollectInstanceMetrics (configuration c) && match (cloudwatch.GetRDSInstanceMetrics (rangeQueries w)
              (cloudwatch.NewRDSFetcher (cloudWatchClient w)) ids).2 with Some _ => true | None => false end
           then (Errors (counters c) + 1)%float else Errors (counters c);
         RDSAPIcalls := RDSAPIcalls (counters c);
         ServiceQuotasAPICalls := ServiceQuotasAPICalls (counters c);
         UsageAPIcalls := UsageAPIcalls (counters c) |};
    metrics_ :=
      {| ServiceQuota := ServiceQuota (metrics_ c);
         RDS := RDS (metrics_ c);
         EC2 := EC2 (metrics_ c);
         CloudwatchInstances := if CollectInstanceMetrics (configuration c)
           then (cloudwatch.GetRDSInstanceMetrics (rangeQueries w)
              (cloudwatch.NewRDSFetcher (cloudWatchClient w)) ids).1.2
           else CloudwatchInstances (metrics_ c);
         CloudWatchUsage := CloudWatchUsage (metrics_ c) |};
    awsAccountID := awsAccountID c; awsRegion := awsRegion c;
    configuration := configuration c; instanceTags := instanceTags c |}.
Proof.
  unfold step.timeSeries, getCloudwatchMetrics.
  destruct (cloudwatch.GetRDSInstanceMetrics _ _ ids) as [[f mm] [e|]];
    destruct c as [[] [] ? ? [cm ? ? ? ? ? ?] ?]; cbn -[PrimFloat.add];
    destruct cm; reflexivity.
Qed.


Lemma configuration_before_inventory w c :
  configuration (step.usages w (step.quotas w c)) = configuration c.
Proof. rewrite step_usages, step_quotas. reflexivity. Qed.

Lemma fetchMetrics_failure w c e :
  err (subtask.inventory w c) = Some e ->
  fetchMetrics w c =
  (step.usages w (step.quotas w c), Some (Errorf "can't fetch RDS metrics" e)).
Proof.
  unfold subtask.inventory. intros He. rewrite fetchMetrics_steps. cbv zeta.
  rewrite configuration_before_inventory, He. reflexivity.
Qed.

(** After a successful inventory fetch: every subtask that was started
    has written its own result and its own counter, and the error
    counter has one more per failed subtask. *)
Lemma fetchMetrics_success w c :
  err (subtask.inventory w c) = None ->
  fetchMetrics w c =
  ({| counters :=
        {| CloudwatchAPICalls :=
             if subtask.started w c TimeSeries
             then (CloudwatchAPICalls (counters c)
                   + cloudwatch.CloudWatchAPICall
                       (cloudwatch.GetStatistics (subtask.timeSeries w c).1.1))%float
             else CloudwatchAPICalls (counters c);
           EC2APIcalls :=
             if subtask.started w c InstanceType
             then (EC2APIcalls (counters c)
                   + apiCalls (GetDBInstanceTypeInformation w (subtask.types w c)))%float
             else EC2APIcalls (counters c);
           Errors :=
             subtask.countFailure w c TimeSeries
               (subtask.countFailure w c InstanceType
                  (subtask.countFailure w c Usage
                     (subtask.countFailure w c Quota (Errors (counters c)))));
           RDSAPIcalls :=
             (RDSAPIcalls (counters c) + apiCalls (subtask.inventory w c))%float;
           ServiceQuotasAPICalls :=
             if subtask.started w c Quota
             then (ServiceQuotasAPICalls (counters c) + apiCalls (GetRDSQuotas w))%float
             else ServiceQuotasAPICalls (counters c);
           UsageAPIcalls :=
             if subtask.started w c Usage
             then (UsageAPIcalls (counters c) + apiCalls (GetUsageMetrics w))%float
             else UsageAPIcalls (counters c) |};
      metrics_ :=
        {| ServiceQuota :=
             if subtask.started w c Quota then result (GetRDSQuotas w)
             else ServiceQuota (metrics_ c);
           RDS := result (subtask.inventory w c);
           EC2 :=
             if subtask.started w c InstanceType
             then result (GetDBInstanceTypeInformation w (subtask.types w c))
             else EC2 (metrics_ c);
           CloudwatchInstances :=
             if subtask.started w c TimeSeries then (subtask.timeSeries w c).1.2
             else CloudwatchInstances (metrics_ c);
           CloudWatchUsage :=
             if subtask.started w c Usage then result (GetUsageMetrics w)
             else CloudWatchUsage (metrics_ c) |};
      awsAccountID := awsAccountID c;
      awsRegion := awsRegion c;
      configuration := configuration c;
      instanceTags := instanceTags c |}, None).
Proof.
  unfold subtask.inventory. intros He. rewrite fetchMetrics_steps. cbv zeta.
  rewrite step_usages, step_quotas.
  cbn [counters metrics_ awsAccountID awsRegion configuration instanceTags
       CloudwatchAPICalls EC2APIcalls Errors RDSAPIcalls ServiceQuotasAPICalls
       UsageAPIcalls ServiceQuota RDS EC2 CloudwatchInstances CloudWatchUsage].
  rewrite He, step_inventory.
  cbn [counters metrics_ awsAccountID awsRegion configuration instanceTags
       CloudwatchAPICalls EC2APIcalls Errors RDSAPIcalls ServiceQuotasAPICalls
       UsageAPIcalls ServiceQuota RDS EC2 CloudwatchInstances CloudWatchUsage].
  rewrite step_types.
  cbn [counters metrics_ awsAccountID awsRegion configuration instanceTags
       CloudwatchAPICalls EC2APIcalls Errors RDSAPIcalls ServiceQuotasAPICalls
       UsageAPIcalls ServiceQuota RDS EC2 CloudwatchInstances CloudWatchUsage].
  rewrite step_timeSeries.
  cbn [counters metrics_ awsAccountID awsRegion configuration instanceTags
       CloudwatchAPICalls EC2APIcalls Errors RDSAPIcalls ServiceQuotasAPICalls
       UsageAPIcalls ServiceQuota RDS EC2 CloudwatchInstances CloudWatchUsage].
  reflexivity.
Qed.


(** The subtasks that [fetchMetrics] starts with [go] write to
    separate fields of the collector and add to the same error
    counter: whichever of two runs first, the collector ends the
    same. *)
Lemma subtasks_commute w ids tys c :
  getQuotasMetrics w (getUsagesMetrics w c) = getUsagesMetrics w (getQuotasMetrics w c) /\
  getQuotasMetrics w (getEC2Metrics w tys c) = getEC2Metrics w tys (getQuotasMetrics w c) /\
  getQuotasMetrics w (getCloudwatchMetrics w ids c)
  = getCloudwatchMetrics w ids (getQuotasMetrics w c) /\
  getUsagesMetrics w (getEC2Metrics w tys c) = getEC2Metrics w tys (getUsagesMetrics w c) /\
  getUsagesMetrics w (getCloudwatchMetrics w ids c)
  = getCloudwatchMetrics w ids (getUsagesMetrics w c) /\
  getEC2Metrics w tys (getCloudwatchMetrics w ids c)
  = getCloudwatchMetrics w ids (getEC2Metrics w tys c).
Proof.
  unfold getQuotasMetrics, getUsagesMetrics, getEC2Metrics, getCloudwatchMetrics.
  destruct c as [[] [] ? ? ? ?].
  destruct (cloudwatch.GetRDSInstanceMetrics _ _ ids) as [[f mm] ets].
  destruct (GetRDSQuotas w) as [rq eq aq], (GetUsageMetrics w) as [ru eu au],
    (GetDBInstanceTypeInformation w tys) as [re ee ae].
  cbn -[PrimFloat.add].
  repeat split; destruct ets, eq, eu, ee; reflexivity.
Qed.

End fetchMetrics.

(** ** Where the samples of a scrape come from *)

Section sources.
Import golang exporter.

Lemma Forall_ifPresent (P : Metric -> Prop) d v labels :
  (forall x, P (MustNewConstMetric d GaugeValue x labels)) ->
  Forall P (ifPresent d v labels).
Proof. intros H. destruct v; constructor; [apply H | constructor]. Qed.

Lemma source_header w c : Forall (fun s => sourceOf s = Exporter) (part.header w c).
Proof. repeat constructor. Qed.

Lemma source_up x labels : sourceOf (MustNewConstMetric up GaugeValue x labels) = Exporter.
Proof. reflexivity. Qed.

Lemma source_instance w c entry :
  Forall (fun s => sourceOf s = Inventory) (part.instance w c entry).
Proof.
  unfold part.instance, collectRDSInstance. destruct entry as [id inst].
  destruct (CollectInstanceTags (configuration c)).
  - destruct (getInstanceTagLabels w c id inst) as [names values]. simpl.
    repeat first [ apply Forall_nil | apply Forall_cons; split; [reflexivity|]
                 | apply Forall_app; split
                 | apply Forall_ifPresent; intros x; reflexivity ].
  - simpl.
    repeat first [ apply Forall_nil | apply Forall_cons; split; [reflexivity|]
                 | apply Forall_app; split
                 | apply Forall_ifPresent; intros x; reflexivity ].
Qed.

Lemma Forall_bind_parts {A : Type} (P : Metric -> Prop) (f : A -> list Metric) l :
  (forall x, Forall P (f x)) -> Forall P (l ≫= f).
Proof.
  intros H. induction l as [|x l IH]; [constructor|].
  rewrite bind_cons. apply Forall_app. auto.
Qed.

Lemma source_inventory w c :
  Forall (fun s => sourceOf s = Inventory) (part.inventory w c).
Proof.
  constructor; [reflexivity|]. apply Forall_bind_parts. apply source_instance.
Qed.

Lemma source_timeSeries c :
  Forall (fun s => sourceOf s = TimeSeries) (part.timeSeries c).
Proof.
  constructor; [reflexivity|]. apply Forall_bind_parts. intros [id inst].
  unfold collectCloudwatchInstance.
  repeat (apply Forall_app; split); apply Forall_ifPresent; intros x; reflexivity.
Qed.

Lemma source_usage c : Forall (fun s => sourceOf s = Usage) (part.usage c).
Proof. unfold part.usage. destruct (CollectUsages _); repeat constructor. Qed.

Lemma source_instanceTypes c :
  Forall (fun s => sourceOf s = InstanceType) (part.instanceTypes c).
Proof.
  constructor; [reflexivity|]. apply Forall_bind_parts. intros [id inst].
  repeat constructor.
Qed.

Lemma source_quotas c : Forall (fun s => sourceOf s = Quota) (part.quotas c).
Proof. unfold part.quotas. destruct (CollectQuotas _); repeat constructor. Qed.

Lemma notFrom_app k l1 l2 : notFrom k (l1 ++ l2) = notFrom k l1 ++ notFrom k l2.
Proof. apply filter_app. Qed.

Lemma notFrom_other k x l :
  Forall (fun s => sourceOf s = x) l -> x <> k -> notFrom k l = l.
Proof.
  intros Hl Hne. unfold notFrom. induction Hl as [|s l Hs _ IH]; [reflexivity|].
  rewrite filter_cons_True by congruence. f_equal. exact IH.
Qed.

Lemma notFrom_same k l : Forall (fun s => sourceOf s = k) l -> notFrom k l = [].
Proof.
  intros Hl. unfold notFrom. induction Hl as [|s l Hs _ IH]; [reflexivity|].
  rewrite filter_cons_False by (intros H; apply H; exact Hs). exact IH.
Qed.

End sources.

(** ** What each part of a scrape depends on *)

Section parts.
Import golang exporter.

Lemma part_instance_ext w w' c c' entry :
  rangeTags w = rangeTags w' -> rangeLabels w = rangeLabels w' ->
  awsAccountID c = awsAccountID c' -> awsRegion c = awsRegion c' ->
  configuration c = configuration c' ->
  part.instance w c entry = part.instance w' c' entry.
Proof.
  intros Ht Hl Ha Hr Hc. destruct entry as [id inst].
  unfold part.instance, collectRDSInstance, getInstanceTagLabels.
  rewrite Ht, Hl, Ha, Hr, Hc.
  destruct (CollectInstanceTags (configuration c')); reflexivity.
Qed.

Lemma part_inventory_ext w w' c c' :
  rangeTags w = rangeTags w' -> rangeLabels w = rangeLabels w' ->
  awsAccountID c = awsAccountID c' -> awsRegion c = awsRegion c' ->
  configuration c = configuration c' ->
  RDSAPIcalls (counters c) = RDSAPIcalls (counters c') ->
  RDS (metrics_ c) = RDS (metrics_ c') ->
  part.inventory w c = part.inventory w' c'.
Proof.
  intros Ht Hl Ha Hr Hc Hk Hm. unfold part.inventory. rewrite Ha, Hr, Hk, Hm. f_equal.
  apply list_bind_ext; [|reflexivity]. intros entry.
  apply part_instance_ext; assumption.
Qed.

Lemma part_timeSeries_ext c c' :
  awsAccountID c = awsAccountID c' -> awsRegion c = awsRegion c' ->
  CloudwatchAPICalls (counters c) = CloudwatchAPICalls (counters c') ->
  CloudwatchInstances (metrics_ c) = CloudwatchInstances (metrics_ c') ->
  part.timeSeries c = part.timeSeries c'.
Proof.
  intros Ha Hr Hk Hm. unfold part.timeSeries. rewrite Ha, Hr, Hk, Hm. f_equal.
  apply list_bind_ext; [|reflexivity]. intros [id inst].
  unfold collectCloudwatchInstance. rewrite Ha, Hr. reflexivity.
Qed.

Lemma part_usage_ext c c' :
  awsAccountID c = awsAccountID c' -> awsRegion c = awsRegion c' ->
  configuration c = configuration c' ->
  UsageAPIcalls (counters c) = UsageAPIcalls (counters c') ->
  CloudWatchUsage (metrics_ c) = CloudWatchUsage (metrics_ c') ->
  part.usage c = part.usage c'.
Proof.
  intros Ha Hr Hc Hk Hm. unfold part.usage. rewrite Ha, Hr, Hc, Hk, Hm. reflexivity.
Qed.

Lemma part_instanceTypes_ext c c' :
  awsAccountID c = awsAccountID c' -> awsRegion c = awsRegion c' ->
  EC2APIcalls (counters c) = EC2APIcalls (counters c') ->
  EC2 (metrics_ c) = EC2 (metrics_ c') ->
  part.instanceTypes c = part.instanceTypes c'.
Proof.
  intros Ha Hr Hk Hm. unfold part.instanceTypes. rewrite Ha, Hr, Hk, Hm. f_equal.
  apply list_bind_ext; [|reflexivity]. intros [id inst].
  unfold collectEC2Instance. rewrite Ha, Hr. reflexivity.
Qed.

Lemma part_quotas_ext c c' :
  awsAccountID c = awsAccountID c' -> awsRegion c = awsRegion c' ->
  configuration c = configuration c' ->
  ServiceQuotasAPICalls (counters c) = ServiceQuotasAPICalls (counters c') ->
  ServiceQuota (metrics_ c) = ServiceQuota (metrics_ c') ->
  part.quotas c = part.quotas c'.
Proof.
  intros Ha Hr Hc Hk Hm. unfold part.quotas. rewrite Ha, Hr, Hc, Hk, Hm. reflexivity.
Qed.

(** The samples of a scrape whose inventory fetch succeeded. *)
Lemma Collect_success w c :
  err (subtask.inventory w c) = None ->
  (Collect w c).2 =
    part.header w c
    ++ [MustNewConstMetric up GaugeValue exporterUpStatusCode [awsRegion c]]
    ++ part.inventory w (fetchMetrics w c).1 ++ part.timeSeries (fetchMetrics w c).1
    ++ part.usage (fetchMetrics w c).1 ++ part.instanceTypes (fetchMetrics w c).1
    ++ part.quotas (fetchMetrics w c).1.
Proof.
  intros He. destruct (Collect_parts w c) as [-> _].
  rewrite (fetchMetrics_success w c He). reflexivity.
Qed.

Lemma Collect_failure w c e :
  err (subtask.inventory w c) = Some e ->
  (Collect w c).2 =
    part.header w c
    ++ [MustNewConstMetric up GaugeValue exporterDownStatusCode [awsRegion c]].
Proof.
  intros He. destruct (Collect_parts w c) as [-> _].
  rewrite (fetchMetrics_failure w c e He), step_usages, step_quotas. reflexivity.
Qed.

(** The counters after [Collect] are those [fetchMetrics] leaves. *)
Lemma Collect_counters w c : counters (Collect w c).1 = counters (fetchMetrics w c).1.
Proof. destruct (Collect_parts w c) as [_ (H & _)]. exact H. Qed.



End parts.

(** ** The samples of the optional fields *)

Section optional.
Import golang exporter.

Lemma elem_of_ifPresent s d v labels :
  s ∈ ifPresent d v labels <->
  exists x, v = Some x /\ s = MustNewConstMetric d GaugeValue x labels.
Proof.
  destruct v as [x|]; simpl.
  - rewrite list_elem_of_singleton. split; [eauto|].
    intros (y & [= <-] & ->). reflexivity.
  - rewrite elem_of_nil. split; [tauto|]. intros (y & [=] & _).
Qed.

Lemma field_desc_inj f g : field.desc f = field.desc g -> f = g.
Proof. destruct f, g; intros H; first [reflexivity | discriminate H]. Qed.

Lemma source_of_field_desc s f : desc s = field.desc f -> sourceOf s = TimeSeries.
Proof. destruct s as [d t x l]. simpl. intros ->. destruct f; reflexivity. Qed.

(** One iteration of the loop over the time-series samples sends, for
    each field that is set, one metric with its value. *)
Lemma elem_of_collectCloudwatchInstance c id inst s :
  s ∈ collectCloudwatchInstance c (id, inst) <->
  exists f v,
    field.get f inst = Some v /\
    s = MustNewConstMetric (field.desc f) GaugeValue v
          [awsAccountID c; awsRegion c; id].
Proof.
  unfold collectCloudwatchInstance. rewrite !elem_of_app, !elem_of_ifPresent. split.
  - intros H.
    repeat match type of H with
           | _ \/ _ => destruct H as [H | H]
           end.
    all: destruct H as (v & Hv & ->).
    all: first [ exists field.CPUUtilization, v; split; [exact Hv | reflexivity]
            | exists field.DBLoad, v; split; [exact Hv | reflexivity]
            | exists field.DBLoadCPU, v; split; [exact Hv | reflexivity]
            | exists field.DBLoadNonCPU, v; split; [exact Hv | reflexivity]
            | exists field.DatabaseConnections, v; split; [exact Hv | reflexivity]
            | exists field.FreeStorageSpace, v; split; [exact Hv | reflexivity]
            | exists field.FreeableMemory, v; split; [exact Hv | reflexivity]
            | exists field.MaximumUsedTransactionIDs, v; split; [exact Hv | reflexivity]
            | exists field.ReadIOPS, v; split; [exact Hv | reflexivity]
            | exists field.ReadThroughput, v; split; [exact Hv | reflexivity]
            | exists field.ReplicaLag, v; split; [exact Hv | reflexivity]
            | exists field.ReplicationSlotDiskUsage, v; split; [exact Hv | reflexivity]
            | exists field.SwapUsage, v; split; [exact Hv | reflexivity]
            | exists field.TransactionLogsDiskUsage, v; split; [exact Hv | reflexivity]
            | exists field.WriteIOPS, v; split; [exact Hv | reflexivity]
            | exists field.WriteThroughput, v; split; [exact Hv | reflexivity]
            | exists field.BufferCacheHitRatio, v; split; [exact Hv | reflexivity]
            | exists field.Deadlocks, v; split; [exact Hv | reflexivity]
            | exists field.Queries, v; split; [exact Hv | reflexivity]
            | exists field.EngineUptime, v; split; [exact Hv | reflexivity]
            | exists field.SumBinaryLogSize, v; split; [exact Hv | reflexivity]
            | exists field.NumBinaryLogFiles, v; split; [exact Hv | reflexivity]
            | exists field.AuroraBinlogReplicaLag, v; split; [exact Hv | reflexivity]
            | exists field.BinLogDiskUsage, v; split; [exact Hv | reflexivity] ].
  - intros (f & v & Hv & ->).
    destruct f; simpl in Hv;
      repeat first [ left; exists v; split; [exact Hv | reflexivity]
                   | right ];
      exists v; split; [exact Hv | reflexivity].
Qed.

(** A sample of a successful scrape is in the part of its source. *)
Lemma sample_part w c s :
  err (subtask.inventory w c) = None ->
  s ∈ (Collect w c).2 ->
  match sourceOf s with
  | Exporter =>
      s ∈ part.header w c
          ++ [MustNewConstMetric up GaugeValue exporterUpStatusCode [awsRegion c]]
  | Inventory => s ∈ part.inventory w (fetchMetrics w c).1
  | TimeSeries => s ∈ part.timeSeries (fetchMetrics w c).1
  | Usage => s ∈ part.usage (fetchMetrics w c).1
  | InstanceType => s ∈ part.instanceTypes (fetchMetrics w c).1
  | Quota => s ∈ part.quotas (fetchMetrics w c).1
  end.
Proof.
  intros He. rewrite (Collect_success w c He).
  pose proof (source_header w c) as H0.
  pose proof (source_inventory w (fetchMetrics w c).1) as H1.
  pose proof (source_timeSeries (fetchMetrics w c).1) as H2.
  pose proof (source_usage (fetchMetrics w c).1) as H3.
  pose proof (source_instanceTypes (fetchMetrics w c).1) as H4.
  pose proof (source_quotas (fetchMetrics w c).1) as H5.
  rewrite Forall_forall in H0, H1, H2, H3, H4, H5.
  rewrite !elem_of_app.
  intros [H | [H | [H | [H | [H | [H | H]]]]]].
  - rewrite (H0 s H). apply elem_of_app. left. exact H.
  - apply list_elem_of_singleton in H as ->. rewrite source_up.
    apply elem_of_app. right. apply list_elem_of_singleton. reflexivity.
  - rewrite (H1 s H). exact H.
  - rewrite (H2 s H). exact H.
  - rewrite (H3 s H). exact H.
  - rewrite (H4 s H). exact H.
  - rewrite (H5 s H). exact H.
Qed.

Lemma part_in_Collect w c s :
  err (subtask.inventory w c) = None ->
  s ∈ part.inventory w (fetchMetrics w c).1
  \/ s ∈ part.timeSeries (fetchMetrics w c).1 ->
  s ∈ (Collect w c).2.
Proof.
  intros He H. rewrite (Collect_success w c He), !elem_of_app. tauto.
Qed.

Lemma fetchMetrics_identity w c :
  err (subtask.inventory w c) = None ->
  awsAccountID (fetchMetrics w c).1 = awsAccountID c /\
  awsRegion (fetchMetrics w c).1 = awsRegion c /\
  configuration (fetchMetrics w c).1 = configuration c.
Proof. intros He. rewrite (fetchMetrics_success w c He). auto. Qed.

(** The time-series samples of a scrape: one per field that is set. *)
Lemma timeSeries_sample w c id f s :
  err (subtask.inventory w c) = None ->
  (s ∈ (Collect w c).2 /\ desc s = field.desc f /\
   labelValues s = [awsAccountID c; awsRegion c; id]) <->
  (exists inst v,
     cloudwatch.Instances (CloudwatchInstances (metrics_ (fetchMetrics w c).1)) !! id
     = Some inst /\
     field.get f inst = Some v /\
     s = MustNewConstMetric (field.desc f) GaugeValue v
           [awsAccountID c; awsRegion c; id]).
Proof.
  intros He. destruct (fetchMetrics_identity w c He) as (Ha & Hr & _). split.
  - intros (Hin & Hd & Hl).
    pose proof (sample_part w c s He Hin) as Hp.
    rewrite (source_of_field_desc s f Hd) in Hp. unfold part.timeSeries in Hp.
    apply elem_of_cons in Hp as [-> | Hp]; [destruct f; discriminate Hd|].
    apply list_elem_of_bind in Hp as ([id' inst] & Hs & Hentry).
    apply elem_of_collectCloudwatchInstance in Hs as (g & v & Hv & ->).
    simpl in Hd, Hl. apply field_desc_inj in Hd as ->.
    rewrite Ha, Hr in Hl. injection Hl as ->.
    apply elem_of_map_to_list in Hentry. rewrite Ha, Hr. eauto.
  - intros (inst & v & Hinst & Hv & ->). split; [|auto].
    apply (part_in_Collect w c _ He). right. unfold part.timeSeries. right.
    apply list_elem_of_bind. exists (id, inst). split.
    + apply elem_of_collectCloudwatchInstance. exists f, v. rewrite Ha, Hr. auto.
    + apply elem_of_map_to_list. exact Hinst.
Qed.


Lemma source_of_inventory_desc s o : desc s = inventoryField.desc o -> sourceOf s = Inventory.
Proof. destruct s as [d t x l]. simpl. intros ->. destruct o; reflexivity. Qed.

(** One iteration of the loop over the instances sends, for each
    optional field that is set, one metric with its value. *)
Lemma elem_of_part_instance w c id inst o s :
  (s ∈ part.instance w c (id, inst) /\ desc s = inventoryField.desc o) <->
  exists v,
    inventoryField.get o inst = Some v /\
    s = MustNewConstMetric (inventoryField.desc o) GaugeValue v
          [awsAccountID c; awsRegion c; id].
Proof.
  unfold part.instance, collectRDSInstance.
  destruct (CollectInstanceTags (configuration c));
    [destruct (getInstanceTagLabels w c id inst) as [names values]|];
    simpl; rewrite !elem_of_cons, !elem_of_app, !elem_of_ifPresent.
  all: split;
    [ intros [H Hd];
      repeat match type of H with
             | _ \/ _ => destruct H as [H | H]
             end;
      try (destruct H as (v & Hv & H)); subst s; simpl in Hd;
      destruct o; try discriminate Hd; exists v; (split; [exact Hv | reflexivity])
    | intros (v & Hv & ->); (split; [|reflexivity]) ].
  - do 8 right. destruct o; simpl in Hv; eauto.
  - do 7 right. destruct o; simpl in Hv; eauto.
Qed.

(** The samples of the optional fields of the inventory: one per
    field that is set. *)
Lemma inventory_sample w c id o s :
  err (subtask.inventory w c) = None ->
  (s ∈ (Collect w c).2 /\ desc s = inventoryField.desc o /\
   labelValues s = [awsAccountID c; awsRegion c; id]) <->
  (exists inst v,
     rds.Instances (RDS (metrics_ (fetchMetrics w c).1)) !! id = Some inst /\
     inventoryField.get o inst = Some v /\
     s = MustNewConstMetric (inventoryField.desc o) GaugeValue v
           [awsAccountID c; awsRegion c; id]).
Proof.
  intros He. destruct (fetchMetrics_identity w c He) as (Ha & Hr & _). split.
  - intros (Hin & Hd & Hl).
    pose proof (sample_part w c s He Hin) as Hp.
    rewrite (source_of_inventory_desc s o Hd) in Hp. unfold part.inventory in Hp.
    apply elem_of_cons in Hp as [-> | Hp]; [destruct o; discriminate Hd|].
    apply list_elem_of_bind in Hp as ([id' inst] & Hs & Hentry).
    destruct (proj1 (elem_of_part_instance w _ id' inst o s) (conj Hs Hd))
      as (v & Hv & ->).
    simpl in Hl. rewrite Ha, Hr in Hl. injection Hl as ->.
    apply elem_of_map_to_list in Hentry. rewrite Ha, Hr. eauto.
  - intros (inst & v & Hinst & Hv & ->). split; [|auto].
    apply (part_in_Collect w c _ He). left. unfold part.inventory. right.
    apply list_elem_of_bind. exists (id, inst). split.
    + apply (elem_of_part_instance w _ id inst o). exists v. rewrite Ha, Hr. auto.
    + apply elem_of_map_to_list. exact Hinst.
Qed.

End optional.

(** ** The requests of a run *)

Section requests.
Import golang cloudwatch.

Lemma GetRDSInstanceMetrics_issued range c D :
  exists k,
    k <= length (sentChunks MaxQueriesPerCloudwatchRequest
                   (range (generateCloudWatchQueriesForInstances D))) /\
    issued (GetRDSInstanceMetrics range c D).1.1
    = issued c
      ++ (requestFor (generateCloudWatchQueriesForInstances D)
          <$> take k (sentChunks MaxQueriesPerCloudwatchRequest
                        (range (generateCloudWatchQueriesForInstances D)))) /\
    ((GetRDSInstanceMetrics range c D).2 = None ->
     k = length (sentChunks MaxQueriesPerCloudwatchRequest
                   (range (generateCloudWatchQueriesForInstances D)))).
Proof.
  rewrite GetRDSInstanceMetrics_run. cbv zeta.
  set (q := generateCloudWatchQueriesForInstances D).
  set (chunks := sentChunks _ _).
  destruct (runChunks_fetcher q chunks c ∅) as (_ & _ & k & Hk & Hi & Hn).
  destruct (runChunks q chunks c ∅) as [[c' m'] [e|]]; simpl in *.
  - exists k. split; [assumption|]. split; [assumption | discriminate].
  - exists k. split; [assumption|]. split; [|auto].
    destruct (chunking _ _ _).2; assumption.
Qed.

(** The statistics of the fetcher after a run: one call more when the
    run did not fail and the number of queries is not a multiple of
    the chunk size, no change otherwise. *)
Lemma GetRDSInstanceMetrics_statistics range c D :
  statistics (GetRDSInstanceMetrics range c D).1.1 =
  match (GetRDSInstanceMetrics range c D).2 with
  | Some _ => statistics c
  | None =>
      if length (range (generateCloudWatchQueriesForInstances D))
           mod MaxQueriesPerCloudwatchRequest =? 0
      then statistics c
      else {| CloudWatchAPICall := (CloudWatchAPICall (statistics c) + 1)%float |}
  end.
Proof.
  rewrite GetRDSInstanceMetrics_run. cbv zeta.
  set (q := generateCloudWatchQueriesForInstances D).
  destruct (chunking_count MaxQueriesPerCloudwatchRequest (range q)) as [_ Hr];
    [unfold MaxQueriesPerCloudwatchRequest; lia|].
  destruct (runChunks_fetcher q (sentChunks MaxQueriesPerCloudwatchRequest (range q)) c ∅)
    as (_ & Hs & _).
  destruct (runChunks q _ c ∅) as [[c' m'] [e|]]; simpl in *; [assumption|].
  rewrite <- Hr. destruct (chunking _ _ _).2 as [|x last]; simpl; [assumption|].
  rewrite Hs. reflexivity.
Qed.



End requests.

(** ** Tag labels *)

Section tags.
Import golang exporter.

Lemma tagLabel_not_fixed k : tagLabel k ∉ fixedLabels.
Proof.
  unfold tagLabel, fixedLabels. rewrite !elem_of_cons, elem_of_nil.
  intros [H | [H | [H | H]]]; simpl in H; first [discriminate H | exact H].
Qed.

Lemma isLabelCharacter_underscore : isLabelCharacter "_"%char = true.
Proof. reflexivity. Qed.

Lemma ClearPrometheusLabel_characters k :
  allLabelCharacters (ClearPrometheusLabel k) = true.
Proof.
  induction k as [|a k IH]; [reflexivity|]. simpl.
  destruct (isLabelCharacter a) eqn:Ha.
  - rewrite Ha, IH. reflexivity.
  - rewrite isLabelCharacter_underscore, IH. reflexivity.
Qed.

Lemma tagLabel_matches k : k <> EmptyString -> matchesTagLabel (tagLabel k) = true.
Proof.
  intros Hk. destruct k as [|a k]; [congruence|].
  pose proof (ClearPrometheusLabel_characters (String a k)) as H.
  unfold tagLabel. simpl in *. exact H.
Qed.

(** The loop over the tags of an instance. *)
Lemma tags_fold_other (kvs : list (string * string)) : forall (labels : gmap string string) n,
  (forall k v, (k, v) ∈ kvs -> n <> tagLabel k) ->
  foldl (fun (labels : gmap string string) '(k, v) =>
           let labelName := "tag_" +:+ ClearPrometheusLabel k in
           <[labelName := v]> labels) labels kvs !! n
  = labels !! n.
Proof.
  induction kvs as [|[k v] kvs IH]; intros labels n Hn; [reflexivity|]. simpl.
  rewrite IH.
  - apply lookup_insert_ne. intros Heq. apply (Hn k v); [left | symmetry; exact Heq].
  - intros k' v' Hin. apply (Hn k' v'). right. exact Hin.
Qed.

Lemma tags_fold_tag (kvs : list (string * string)) : forall (labels : gmap string string) k v,
  (k, v) ∈ kvs ->
  exists k' v',
    (k', v') ∈ kvs /\ tagLabel k' = tagLabel k /\
    foldl (fun (labels : gmap string string) '(k, v) =>
             let labelName := "tag_" +:+ ClearPrometheusLabel k in
             <[labelName := v]> labels) labels kvs !! tagLabel k
    = Some v'.
Proof.
  induction kvs as [|[k0 v0] kvs IH]; intros labels k v Hin; [inversion Hin|]. simpl.
  destruct (decide (tagLabel k ∈ (fun kv => tagLabel kv.1) <$> kvs)) as [Hlater | Hnot].
  - apply list_elem_of_fmap in Hlater as ([k1 v1] & Heq & Hin1). simpl in Heq.
    destruct (IH (<["tag_" +:+ ClearPrometheusLabel k0 := v0]> labels) k1 v1 Hin1)
      as (k' & v' & Hin' & Hk' & Hl).
    exists k', v'. split; [right; exact Hin'|]. split; [congruence|].
    rewrite Heq. exact Hl.
  - apply elem_of_cons in Hin as [[= -> ->] | Hin].
    + exists k0, v0. split; [left|]. split; [reflexivity|].
      rewrite tags_fold_other.
      * apply lookup_insert_eq.
      * intros k' v' Hin' Heq. apply Hnot. apply list_elem_of_fmap.
        exists (k', v'). split; [exact Heq | exact Hin'].
    + exfalso. apply Hnot. apply list_elem_of_fmap. exists (k, v). auto.
Qed.

Lemma tags_fold_Some (kvs : list (string * string)) : forall (labels : gmap string string) n x,
  foldl (fun (labels : gmap string string) '(k, v) =>
           let labelName := "tag_" +:+ ClearPrometheusLabel k in
           <[labelName := v]> labels) labels kvs !! n = Some x ->
  labels !! n = Some x \/ exists k, (k, x) ∈ kvs /\ n = tagLabel k.
Proof.
  induction kvs as [|[k v] kvs IH]; intros labels n x Hx; [left; exact Hx|].
  simpl in Hx. apply IH in Hx as [Hx | (k' & Hin & ->)].
  - destruct (decide (n = tagLabel k)) as [-> | Hne].
    + unfold tagLabel in Hx. rewrite lookup_insert_eq in Hx. injection Hx as ->.
      right. exists k. split; [left | reflexivity].
    + rewrite lookup_insert_ne in Hx by (unfold tagLabel in Hne; congruence).
      left. exact Hx.
  - right. exists k'. split; [right; exact Hin | reflexivity].
Qed.


Lemma base_labels_fixed (a r id n x : string) :
  (<["dbidentifier" := id]> (<["aws_region" := r]> (<["aws_account_id" := a]> ∅))
     : gmap string string) !! n = Some x ->
  n ∈ fixedLabels.
Proof.
  unfold fixedLabels. rewrite !elem_of_cons.
  destruct (decide (n = "dbidentifier")) as [-> | H1]; [auto|].
  destruct (decide (n = "aws_region")) as [-> | H2]; [auto|].
  destruct (decide (n = "aws_account_id")) as [-> | H3]; [auto|].
  rewrite !lookup_insert_ne, lookup_empty by congruence. discriminate.
Qed.

(** The names and values that [getInstanceTagLabels] returns. *)
Lemma getInstanceTagLabels_spec w c id inst :
  (forall m, rangeTags w m ≡ₚ map_to_list m) ->
  (forall m, rangeLabels w m ≡ₚ map_to_list m) ->
  NoDup (getInstanceTagLabels w c id inst).1 /\
  length (getInstanceTagLabels w c id inst).2
  = length (getInstanceTagLabels w c id inst).1 /\
  (forall n,
     n ∈ (getInstanceTagLabels w c id inst).1 <->
     n ∈ fixedLabels \/ exists k, is_Some (rds.Tags inst !! k) /\ n = tagLabel k) /\
  ("aws_account_id", awsAccountID c)
    ∈ zip (getInstanceTagLabels w c id inst).1 (getInstanceTagLabels w c id inst).2 /\
  ("aws_region", awsRegion c)
    ∈ zip (getInstanceTagLabels w c id inst).1 (getInstanceTagLabels w c id inst).2 /\
  ("dbidentifier", id)
    ∈ zip (getInstanceTagLabels w c id inst).1 (getInstanceTagLabels w c id inst).2 /\
  (forall k v,
     rds.Tags inst !! k = Some v ->
     exists k' v',
       rds.Tags inst !! k' = Some v' /\ tagLabel k' = tagLabel k /\
       (tagLabel k, v')
         ∈ zip (getInstanceTagLabels w c id inst).1 (getInstanceTagLabels w c id inst).2).
Proof.
  intros Htags Hlabels. unfold getInstanceTagLabels. cbv zeta. cbn [fst snd].
  set (base := <["dbidentifier" := id]> (<["aws_region" := awsRegion c]>
                 (<["aws_account_id" := awsAccountID c]> (∅ : gmap string string)))).
  set (labels := foldl _ base (rangeTags w (rds.Tags inst))).
  assert (forall n x, (n, x) ∈ rangeLabels w labels <-> labels !! n = Some x) as Hpair.
  { intros n x. rewrite Hlabels. apply elem_of_map_to_list. }
  assert (forall k x, (k, x) ∈ rangeTags w (rds.Tags inst) <-> rds.Tags inst !! k = Some x)
    as Htag.
  { intros k x. rewrite Htags. apply elem_of_map_to_list. }
  assert (forall n, n ∈ fixedLabels -> labels !! n = base !! n) as Hfixed.
  { intros n Hn. apply tags_fold_other. intros k v _ ->.
    exact (tagLabel_not_fixed k Hn). }
  rewrite zip_fst_snd.
  split; [|split; [|split; [|split; [|split; [|split]]]]].
  - rewrite Hlabels. apply NoDup_fst_map_to_list.
  - rewrite !length_fmap. reflexivity.
  - intros n. rewrite list_elem_of_fmap. split.
    + intros ([n' x] & -> & Hin). simpl. apply Hpair in Hin.
      apply tags_fold_Some in Hin as [Hb | (k & Hk & ->)].
      * left. exact (base_labels_fixed _ _ _ _ _ Hb).
      * right. exists k. split; [|reflexivity]. exists x. apply Htag. exact Hk.
    + intros [Hn | (k & [v Hv] & ->)].
      * assert (is_Some (base !! n)) as [x Hx].
        { unfold fixedLabels in Hn. rewrite !elem_of_cons, elem_of_nil in Hn.
          destruct Hn as [-> | [-> | [-> | []]]]; unfold base.
          - rewrite lookup_insert_ne, lookup_insert_ne, lookup_insert_eq by discriminate.
            eauto.
          - rewrite lookup_insert_ne, lookup_insert_eq by discriminate. eauto.
          - rewrite lookup_insert_eq. eauto. }
        exists (n, x). split; [reflexivity|]. apply Hpair. rewrite (Hfixed n Hn). exact Hx.
      * apply Htag in Hv.
        destruct (tags_fold_tag (rangeTags w (rds.Tags inst)) base k v Hv)
          as (k' & v' & _ & _ & Hl).
        exists (tagLabel k, v'). split; [reflexivity|]. apply Hpair. exact Hl.
  - apply Hpair. rewrite Hfixed by (unfold fixedLabels; rewrite !elem_of_cons; auto).
    unfold base.
    rewrite lookup_insert_ne, lookup_insert_ne, lookup_insert_eq by discriminate.
    reflexivity.
  - apply Hpair. rewrite Hfixed by (unfold fixedLabels; rewrite !elem_of_cons; auto).
    unfold base. rewrite lookup_insert_ne, lookup_insert_eq by discriminate. reflexivity.
  - apply Hpair. rewrite Hfixed by (unfold fixedLabels; rewrite !elem_of_cons; auto).
    unfold base. rewrite lookup_insert_eq. reflexivity.
  - intros k v Hv. apply Htag in Hv.
    destruct (tags_fold_tag (rangeTags w (rds.Tags inst)) base k v Hv)
      as (k' & v' & Hin' & Hk' & Hl).
    exists k', v'. split; [apply Htag; exact Hin'|]. split; [exact Hk'|].
    apply Hpair. exact Hl.
Qed.

(** The samples of [rds_instance_tags] among those of a scrape. *)
Lemma filter_none {A : Type} (P : A -> Prop) `{!forall x, Decision (P x)} (l : list A) :
  Forall (fun x => ~ P x) l -> filter P l = [].
Proof.
  induction 1 as [|x l Hx _ IH]; [reflexivity|].
  rewrite filter_cons_False by assumption. exact IH.
Qed.

Lemma tag_sample_source s : isTagSample s -> sourceOf s = Inventory.
Proof.
  unfold isTagSample, sourceOf. intros ->. reflexivity.
Qed.

Lemma no_tag_sample x l :
  x <> Inventory -> Forall (fun s => sourceOf s = x) l -> filter isTagSample l = [].
Proof.
  intros Hx Hl. apply filter_none. eapply Forall_impl; [exact Hl|]. simpl.
  intros s Hs Ht. apply tag_sample_source in Ht. congruence.
Qed.

Lemma filter_ifPresent d v labels :
  fqName d <> "rds_instance_tags" -> filter isTagSample (ifPresent d v labels) = [].
Proof.
  intros Hd. destruct v; [|reflexivity]. simpl.
  rewrite filter_cons_False by exact Hd. reflexivity.
Qed.

Lemma filter_part_instance w c entry :
  CollectInstanceTags (configuration c) = true ->
  filter isTagSample (part.instance w c entry) = [tagSample w c entry].
Proof.
  intros Htags. destruct entry as [id inst].
  unfold part.instance, collectRDSInstance, tagSample. rewrite Htags. cbn [fst snd].
  destruct (getInstanceTagLabels w c id inst) as [names values]. simpl.
  repeat (rewrite filter_cons_False by (unfold isTagSample; simpl; discriminate)).
  rewrite filter_cons_True by reflexivity.
  rewrite !filter_app, !filter_ifPresent by discriminate. reflexivity.
Qed.

Lemma filter_part_instance_off w c entry :
  CollectInstanceTags (configuration c) = false ->
  filter isTagSample (part.instance w c entry) = [].
Proof.
  intros Htags. destruct entry as [id inst].
  unfold part.instance, collectRDSInstance. rewrite Htags. simpl.
  repeat (rewrite filter_cons_False by (unfold isTagSample; simpl; discriminate)).
  rewrite !filter_app, !filter_ifPresent by discriminate. reflexivity.
Qed.

Lemma filter_bind_one {A : Type} (f : A -> list Metric) (g : A -> Metric) (l : list A) :
  (forall x, filter isTagSample (f x) = [g x]) ->
  filter isTagSample (l ≫= f) = g <$> l.
Proof.
  intros H. induction l as [|x l IH]; [reflexivity|].
  rewrite bind_cons, filter_app, H, IH. reflexivity.
Qed.

Lemma tagSample_same w c c' entry :
  awsAccountID c = awsAccountID c' -> awsRegion c = awsRegion c' ->
  tagSample w c entry = tagSample w c' entry.
Proof.
  intros Ha Hr. unfold tagSample, getInstanceTagLabels. rewrite Ha, Hr. reflexivity.
Qed.

Lemma tag_samples w c :
  err (subtask.inventory w c) = None ->
  CollectInstanceTags (configuration c) = true ->
  filter isTagSample (Collect w c).2
  = tagSample w c <$> map_to_list (rds.Instances (RDS (metrics_ (fetchMetrics w c).1))).
Proof.
  intros He Htags. rewrite (Collect_success w c He).
  destruct (fetchMetrics_identity w c He) as (Ha & Hr & Hc).
  rewrite !filter_app.
  rewrite (no_tag_sample Exporter (part.header w c)) by (discriminate || apply source_header).
  rewrite filter_cons_False by (unfold isTagSample; simpl; discriminate).
  rewrite (no_tag_sample TimeSeries (part.timeSeries _)) by (discriminate || apply source_timeSeries).
  rewrite (no_tag_sample Usage (part.usage _)) by (discriminate || apply source_usage).
  rewrite (no_tag_sample InstanceType (part.instanceTypes _)) by (discriminate || apply source_instanceTypes).
  rewrite (no_tag_sample Quota (part.quotas _)) by (discriminate || apply source_quotas).
  unfold part.inventory.
  rewrite filter_cons_False by (unfold isTagSample; simpl; discriminate).
  rewrite (filter_bind_one _ (tagSample w (fetchMetrics w c).1)).
  - simpl. rewrite !app_nil_r. apply list_fmap_ext. intros _ entry _.
    apply tagSample_same; assumption.
  - intros entry. apply filter_part_instance. rewrite Hc. exact Htags.
Qed.

End tags.

(** ** The descriptors of the samples *)

Section described.
Import golang exporter.

(** A sample is described when its descriptor is one of those that
    [Describe] sends; the sample of the tags of an instance is the one
    exception. *)
Lemma described_header w c :
  Forall (fun s => desc s ∈ Describe c) (part.header w c).
Proof. repeat constructor; apply (bool_decide_unpack _); vm_compute; exact I. Qed.

Lemma described_up c x labels :
  desc (MustNewConstMetric up GaugeValue x labels) ∈ Describe c.
Proof. apply (bool_decide_unpack _). vm_compute. exact I. Qed.

Lemma described_instance w c entry :
  Forall (fun s => desc s ∈ Describe c \/
                   (isTagSample s /\ CollectInstanceTags (configuration c) = true))
         (part.instance w c entry).
Proof.
  unfold part.instance, collectRDSInstance. destruct entry as [id inst].
  destruct (CollectInstanceTags (configuration c)).
  - destruct (getInstanceTagLabels w c id inst) as [names values]. simpl.
    repeat first
      [ apply Forall_nil
      | apply Forall_cons; split;
        [ first [ left; apply (bool_decide_unpack _); vm_compute; exact I
                | right; split; reflexivity ] |]
      | apply Forall_app; split
      | apply Forall_ifPresent; intros x; left;
        apply (bool_decide_unpack _); vm_compute; exact I ].
  - simpl.
    repeat first
      [ apply Forall_nil
      | apply Forall_cons; split;
        [ left; apply (bool_decide_unpack _); vm_compute; exact I |]
      | apply Forall_app; split
      | apply Forall_ifPresent; intros x; left;
        apply (bool_decide_unpack _); vm_compute; exact I ].
Qed.

Lemma described_inventory w c :
  Forall (fun s => desc s ∈ Describe c \/
                   (isTagSample s /\ CollectInstanceTags (configuration c) = true))
         (part.inventory w c).
Proof.
  constructor.
  - left. apply (bool_decide_unpack _). vm_compute. exact I.
  - apply Forall_bind_parts. apply described_instance.
Qed.

Lemma described_timeSeries c c' :
  Forall (fun s => desc s ∈ Describe c') (part.timeSeries c).
Proof.
  constructor; [apply (bool_decide_unpack _); vm_compute; exact I|].
  apply Forall_bind_parts. intros [id inst]. unfold collectCloudwatchInstance.
  repeat (apply Forall_app; split); apply Forall_ifPresent; intros x;
    apply (bool_decide_unpack _); vm_compute; exact I.
Qed.

Lemma described_usage c c' : Forall (fun s => desc s ∈ Describe c') (part.usage c).
Proof.
  unfold part.usage. destruct (CollectUsages _);
    repeat constructor; apply (bool_decide_unpack _); vm_compute; exact I.
Qed.

Lemma described_instanceTypes c c' :
  Forall (fun s => desc s ∈ Describe c') (part.instanceTypes c).
Proof.
  constructor; [apply (bool_decide_unpack _); vm_compute; exact I|].
  apply Forall_bind_parts. intros [id inst].
  repeat constructor; apply (bool_decide_unpack _); vm_compute; exact I.
Qed.

Lemma described_quotas c c' : Forall (fun s => desc s ∈ Describe c') (part.quotas c).
Proof.
  unfold part.quotas. destruct (CollectQuotas _);
    repeat constructor; apply (bool_decide_unpack _); vm_compute; exact I.
Qed.

Lemma Describe_constant c c' : Describe c = Describe c'.
Proof. reflexivity. Qed.

Lemma described_or_tags w c s :
  s ∈ (Collect w c).2 ->
  desc s ∈ Describe c \/ (isTagSample s /\ CollectInstanceTags (configuration c) = true).
Proof.
  destruct (err (subtask.inventory w c)) as [e|] eqn:He.
  - rewrite (Collect_failure w c e He). intros [H | H]%elem_of_app.
    + left. pose proof (described_header w c) as Hh. rewrite Forall_forall in Hh. auto.
    + apply list_elem_of_singleton in H as ->. left. apply described_up.
  - rewrite (Collect_success w c He).
    destruct (fetchMetrics_identity w c He) as (_ & _ & Hc).
    pose proof (described_header w c) as H0.
    pose proof (described_inventory w (fetchMetrics w c).1) as H1.
    pose proof (described_timeSeries (fetchMetrics w c).1 c) as H2.
    pose proof (described_usage (fetchMetrics w c).1 c) as H3.
    pose proof (described_instanceTypes (fetchMetrics w c).1 c) as H4.
    pose proof (described_quotas (fetchMetrics w c).1 c) as H5.
    rewrite Forall_forall in H0, H1, H2, H3, H4, H5. rewrite Hc in H1.
    rewrite !elem_of_app.
    intros [H | [H | [H | [H | [H | [H | H]]]]]]; auto.
    apply list_elem_of_singleton in H as ->. left. apply described_up.
Qed.

End described.

(** * The claims of the specification *)

Section claims.
Import golang exporter.



(** C5: in a scrape (whose inventory fetch succeeded), a sample for
    one of the 24 time-series fields of an instance, or for its age,
    the size of its log files or the expiry of its certificate, is
    sent if and only if the field is set, and it carries the value of
    the field; and a series that the upstream returns empty for an
    instance leaves the field unset, so that no sample at all is sent
    for it. *)
Theorem optional_sample_iff_present w c :
  err (subtask.inventory w c) = None ->
  (forall id f s,
     (s ∈ (Collect w c).2 /\ desc s = field.desc f /\
      labelValues s = [awsAccountID c; awsRegion c; id]) <->
     (exists inst v,
        cloudwatch.Instances (CloudwatchInstances (metrics_ (fetchMetrics w c).1)) !! id
        = Some inst /\
        field.get f inst = Some v /\
        s = MustNewConstMetric (field.desc f) GaugeValue v
              [awsAccountID c; awsRegion c; id])) /\
  (forall id o s,
     (s ∈ (Collect w c).2 /\ desc s = inventoryField.desc o /\
      labelValues s = [awsAccountID c; awsRegion c; id]) <->
     (exists inst v,
        rds.Instances (RDS (metrics_ (fetchMetrics w c).1)) !! id = Some inst /\
        inventoryField.get o inst = Some v /\
        s = MustNewConstMetric (inventoryField.desc o) GaugeValue v
              [awsAccountID c; awsRegion c; id])) /\
  (forall id f,
     subtask.started w c TimeSeries = true ->
     (forall n p resp m,
        cloudwatch.GetMetricData (cloudWatchClient w) n p = inl resp ->
        m ∈ cloudwatch.MetricDataResults resp ->
        cloudwatch.Dbidentifier
          (cloudwatch.index
             (cloudwatch.generateCloudWatchQueriesForInstances (subtask.identifiers w c))
             (cloudwatch.ResultId m)) = id ->
        cloudwatch.MetricName
          (cloudwatch.index
             (cloudwatch.generateCloudWatchQueriesForInstances (subtask.identifiers w c))
             (cloudwatch.ResultId m)) = field.name f ->
        emptySeries m) ->
     unset (cloudwatch.Instances (CloudwatchInstances (metrics_ (fetchMetrics w c).1)))
           id f /\
     forall s,
       s ∈ (Collect w c).2 -> desc s = field.desc f ->
       labelValues s <> [awsAccountID c; awsRegion c; id]).
Proof.
  intros He. split; [|split].
  - intros id f s. apply timeSeries_sample. exact He.
  - intros id o s. apply inventory_sample. exact He.
  - intros id f Hstarted Hempty.
    assert (unset (cloudwatch.Instances
                     (CloudwatchInstances (metrics_ (fetchMetrics w c).1))) id f) as Hun.
    { rewrite (fetchMetrics_success w c He). cbn [fst metrics_ CloudwatchInstances].
      rewrite Hstarted. unfold subtask.timeSeries.
      apply GetRDSInstanceMetrics_unset. exact Hempty. }
    split; [exact Hun|]. intros s Hin Hd Hl.
    destruct (proj1 (timeSeries_sample w c id f s He) (conj Hin (conj Hd Hl)))
      as (inst & v & Hinst & Hv & _).
    rewrite (Hun inst Hinst) in Hv. discriminate.
Qed.

Lemma optional_sample_iff_present_witness :
  MustNewConstMetric cpuUtilisation GaugeValue 12.5%float
    ["123456789012"; "eu-west-3"; "db-a"]
    ∈ (Collect example.healthy example.collector).2 /\
  (forall s,
     s ∈ (Collect example.healthy example.collector).2 ->
     desc s = databaseConnections ->
     labelValues s <> ["123456789012"; "eu-west-3"; "db-a"]).
Proof.
  destruct (optional_sample_iff_present example.healthy example.collector eq_refl)
    as (H1 & _ & H3).
  split.
  - apply (proj2 (H1 "db-a" field.CPUUtilization _)).
    eexists _, _. split; [vm_compute; reflexivity|]. split; reflexivity.
  - apply (H3 "db-a" field.DatabaseConnections); [reflexivity|].
    intros n p resp m Hresp Hm Hid Hname. simpl in Hresp. injection Hresp as <-.
    simpl in Hm. apply list_elem_of_fmap in Hm as (q0 & -> & _).
    unfold emptySeries. simpl in *.
    destruct (String.eqb_spec (cloudwatch.Id q0) "cpuutilization_0") as [Heq | _].
    + rewrite Heq in Hname. vm_compute in Hname. discriminate Hname.
    + destruct (String.eqb (cloudwatch.Id q0) "databaseconnections_0"); auto.
Defined.


(** C10: [Update] with the name of one of the 24 fields sets that
    field to the value, returns no error and leaves the other 23
    fields as they were; with any other name it leaves the whole
    record as it was. *)
Theorem Update_frame m fld v :
  (fld ∈ cloudwatch.getCloudWatchMetricsName ->
   exists f,
     fld = field.name f /\
     (cloudwatch.Update m fld v).2 = None /\
     field.get f (cloudwatch.Update m fld v).1 = Some v /\
     forall g, g <> f -> field.get g (cloudwatch.Update m fld v).1 = field.get g m) /\
  (fld ∉ cloudwatch.getCloudWatchMetricsName ->
   (cloudwatch.Update m fld v).1 = m /\
   forall g, field.get g (cloudwatch.Update m fld v).1 = field.get g m).
Proof.
  split.
  - intros [f ->]%known_name. exists f.
    destruct (Update_known m f v) as [He Hg].
    repeat split; try assumption. intros g Hg'. apply Update_known_other. exact Hg'.
  - intros Hunk.
    assert ((cloudwatch.Update m fld v).1 = m) as Heq.
    { rewrite Update_unknown; [reflexivity|].
      intros f Hf. apply Hunk. apply known_name. eauto. }
    split; [exact Heq|]. intros g. rewrite Heq. reflexivity.
Qed.

Lemma Update_frame_witness :
  let m := (cloudwatch.Update cloudwatch.emptyRdsMetrics "CPUUtilization" 12.5%float).1 in
  (exists f,
     "DBLoad" = field.name f /\
     (cloudwatch.Update m "DBLoad" 3%float).2 = None /\
     field.get f (cloudwatch.Update m "DBLoad" 3%float).1 = Some 3%float /\
     forall g, g <> f ->
       field.get g (cloudwatch.Update m "DBLoad" 3%float).1 = field.get g m) /\
  ((cloudwatch.Update m "CPU" 3%float).1 = m /\
   forall g, field.get g (cloudwatch.Update m "CPU" 3%float).1 = field.get g m).
Proof.
  split.
  - apply (proj1 (Update_frame
                    (cloudwatch.Update cloudwatch.emptyRdsMetrics "CPUUtilization"
                                       12.5%float).1 "DBLoad" 3%float)).
    apply (bool_decide_unpack _). vm_compute. exact I.
  - apply (proj2 (Update_frame
                    (cloudwatch.Update cloudwatch.emptyRdsMetrics "CPUUtilization"
                                       12.5%float).1 "CPU" 3%float)).
    apply (bool_decide_unpack _). vm_compute. exact I.
Defined.

(** C1, on thirty instances whose calls all succeed: the fetcher sends
    two requests (of 500 and 220 queries), its statistics count one
    call, and the counter that [Collect] sends for the [cloudwatch]
    API is 1. *)
Theorem thirty_instances_two_calls_counted_once :
  let run :=
    cloudwatch.GetRDSInstanceMetrics example.keys
      (cloudwatch.NewRDSFetcher example.silent) example.thirty in
  length example.thirty = 30 /\
  run.2 = None /\
  (fun p => length (cloudwatch.MetricDataQueries p)) <$> cloudwatch.issued run.1.1
  = [500; 220] /\
  cloudwatch.CloudWatchAPICall (cloudwatch.GetStatistics run.1.1) = 1%float /\
  length (subtask.identifiers example.fleet example.collector) = 30 /\
  apiCallSamples "cloudwatch" (Collect example.fleet example.collector).2
  = [ MustNewConstMetric apiCall CounterValue 1%float
        ["123456789012"; "eu-west-3"; "cloudwatch"] ].
Proof. vm_compute. repeat split. Qed.




(** C9: with [collect-instance-tags] enabled, the samples of
    [rds_instance_tags] of a scrape are exactly one per instance of
    the inventory, each a gauge of value 0 whose label names are,
    without repetition, the three fixed labels (with the account, the
    region and the identifier as values) and, for each tag key [k] of
    the instance, [tag_] followed by [k] with every character outside
    [A-Za-z0-9_] replaced by an underscore (with the value of a tag
    whose key gives that name); such a name matches
    [^tag_[A-Za-z0-9_]+$] (the key being non-empty, as the keys of AWS
    tags are) and is never one of the fixed labels. *)
Theorem instance_tags_labels w c :
  (forall m, rangeTags w m ≡ₚ map_to_list m) ->
  (forall m, rangeLabels w m ≡ₚ map_to_list m) ->
  err (subtask.inventory w c) = None ->
  CollectInstanceTags (configuration c) = true ->
  filter isTagSample (Collect w c).2
  = tagSample w c <$> map_to_list (rds.Instances (RDS (metrics_ (fetchMetrics w c).1))) /\
  (forall id inst,
     let s := tagSample w c (id, inst) in
     fqName (desc s) = "rds_instance_tags" /\
     valueType s = GaugeValue /\ value s = 0%float /\
     NoDup (variableLabels (desc s)) /\
     length (labelValues s) = length (variableLabels (desc s)) /\
     (forall n,
        n ∈ variableLabels (desc s) <->
        n ∈ fixedLabels \/ exists k, is_Some (rds.Tags inst !! k) /\ n = tagLabel k) /\
     ("aws_account_id", awsAccountID c) ∈ zip (variableLabels (desc s)) (labelValues s) /\
     ("aws_region", awsRegion c) ∈ zip (variableLabels (desc s)) (labelValues s) /\
     ("dbidentifier", id) ∈ zip (variableLabels (desc s)) (labelValues s) /\
     (forall k v,
        rds.Tags inst !! k = Some v ->
        exists k' v',
          rds.Tags inst !! k' = Some v' /\ tagLabel k' = tagLabel k /\
          (tagLabel k, v') ∈ zip (variableLabels (desc s)) (labelValues s))) /\
  (forall k,
     tagLabel k = "tag_" +:+ ClearPrometheusLabel k /\
     String.length (ClearPrometheusLabel k) = String.length k /\
     allLabelCharacters (ClearPrometheusLabel k) = true /\
     (tagLabel k ∉ fixedLabels) /\
     (k <> EmptyString -> matchesTagLabel (tagLabel k) = true)).
Proof.
  intros Htags Hlabels He Hon. split; [|split].
  - apply tag_samples; assumption.
  - intros id inst. cbv zeta. unfold tagSample. cbn [fst snd desc fqName valueType value
                                                      variableLabels labelValues].
    destruct (getInstanceTagLabels_spec w c id inst Htags Hlabels)
      as (H1 & H2 & H3 & H4 & H5 & H6 & H7).
    repeat split; assumption || apply H3.
  - intros k. split; [reflexivity|]. split; [|split; [|split]].
    + induction k as [|a k IH]; [reflexivity|]. simpl. rewrite IH. reflexivity.
    + apply ClearPrometheusLabel_characters.
    + apply tagLabel_not_fixed.
    + apply tagLabel_matches.
Qed.

Lemma instance_tags_labels_witness :
  length (filter isTagSample (Collect example.healthy example.collector).2) = 1 /\
  ("dbidentifier", "db-a")
    ∈ zip (variableLabels (desc (tagSample example.healthy example.collector
                                            ("db-a", example.dbA))))
          (labelValues (tagSample example.healthy example.collector
                                  ("db-a", example.dbA))) /\
  tagLabel "cost-center" = "tag_cost_center" /\
  matchesTagLabel (tagLabel "cost-center") = true.
Proof.
  destruct (instance_tags_labels example.healthy example.collector)
    as (H1 & H2 & H3); try reflexivity.
  split; [|split; [|split]].
  - rewrite H1. vm_compute. reflexivity.
  - apply (H2 "db-a" example.dbA).
  - reflexivity.
  - apply (H3 "cost-center"). discriminate.
Defined.


(** C2, as the specification states it, fails: with
    [collect-instance-tags] enabled and one instance in the
    inventory, [Collect] sends a sample of [rds_instance_tags] whose
    descriptor is not among those [Describe] sends, which do not even
    have one of that name. *)
Lemma describe_misses_instance_tags :
  exists s,
    s ∈ (Collect example.healthy example.collector).2 /\
    fqName (desc s) = "rds_instance_tags" /\
    (desc s ∉ Describe example.collector) /\
    (desc s ∉ Describe (Collect example.healthy example.collector).1) /\
    (fqName (desc s) ∉ fqName <$> Describe example.collector).
Proof.
  exists (tagSample example.healthy example.collector ("db-a", example.dbA)).
  split; [|split; [|split; [|split]]].
  - apply list_elem_of_lookup. exists 11. vm_compute. reflexivity.
  - reflexivity.
  - apply (bool_decide_unpack _). vm_compute. exact I.
  - apply (bool_decide_unpack _). vm_compute. exact I.
  - apply (bool_decide_unpack _). vm_compute. exact I.
Qed.

(** C2, amended: the descriptor of every sample of a scrape other
    than the samples of [rds_instance_tags] is among those that
    [Describe] sends; with [collect-instance-tags] disabled that is
    the descriptor of every sample. *)
Theorem described_except_instance_tags w c s :
  s ∈ (Collect w c).2 ->
  (~ isTagSample s -> desc s ∈ Describe c) /\
  (CollectInstanceTags (configuration c) = false -> desc s ∈ Describe c).
Proof.
  intros Hs. destruct (described_or_tags w c s Hs) as [H | [Ht Hon]].
  - auto.
  - split; [contradiction | congruence].
Qed.

Lemma described_except_instance_tags_witness :
  let s := MustNewConstMetric cpuUtilisation GaugeValue 12.5%float
             ["123456789012"; "eu-west-3"; "db-a"] in
  s ∈ (Collect example.healthy example.collector).2 /\
  (~ isTagSample s -> desc s ∈ Describe example.collector) /\
  (CollectInstanceTags (configuration example.collector) = false ->
   desc s ∈ Describe example.collector).
Proof.
  cbv zeta.
  assert (MustNewConstMetric cpuUtilisation GaugeValue 12.5%float
            ["123456789012"; "eu-west-3"; "db-a"]
          ∈ (Collect example.healthy example.collector).2) as Hs.
  { apply list_elem_of_lookup. exists 15. vm_compute. reflexivity. }
  split; [exact Hs|].
  apply (described_except_instance_tags example.healthy example.collector _ Hs).
Defined.

End claims.
(** ** The time-series fetcher, further *)

Section fetcher.
Import golang cloudwatch.

(** [Update] composes as assignments do: a second value for a name
    replaces the first, and values for two different names can be
    stored in either order. *)
Theorem Update_overwrites_and_commutes m fld fld' v v' :
  (Update (Update m fld v).1 fld v').1 = (Update m fld v').1 /\
  (fld <> fld' ->
   (Update (Update m fld v).1 fld' v').1 = (Update (Update m fld' v').1 fld v).1).
Proof.
  split.
  - apply RdsMetrics_ext. intros g.
    destruct (decide (fld = field.name g)) as [->|Hne].
    + rewrite !(proj2 (Update_known _ _ _)). reflexivity.
    + rewrite !Update_other by exact Hne. reflexivity.
  - intros Hne. apply RdsMetrics_ext. intros g.
    destruct (decide (fld = field.name g)) as [->|H1].
    + rewrite (Update_other _ fld') by congruence.
      rewrite !(proj2 (Update_known _ _ _)). reflexivity.
    + rewrite (Update_other (Update m fld' v').1 fld) by exact H1.
      destruct (decide (fld' = field.name g)) as [->|H2].
      * rewrite !(proj2 (Update_known _ _ _)). reflexivity.
      * rewrite !Update_other by assumption. reflexivity.
Qed.

Lemma Update_overwrites_and_commutes_witness :
  (Update (Update emptyRdsMetrics "ReadIOPS" 1%float).1 "ReadIOPS" 2%float).1
  = (Update emptyRdsMetrics "ReadIOPS" 2%float).1 /\
  (Update (Update emptyRdsMetrics "ReadIOPS" 1%float).1 "WriteIOPS" 2%float).1
  = (Update (Update emptyRdsMetrics "WriteIOPS" 2%float).1 "ReadIOPS" 1%float).1.
Proof.
  split.
  - apply (Update_overwrites_and_commutes emptyRdsMetrics "ReadIOPS" "WriteIOPS").
  - apply (Update_overwrites_and_commutes emptyRdsMetrics "ReadIOPS" "WriteIOPS").
    discriminate.
Defined.


(** *** No identifier, no request *)

(** The map of the queries for no identifier has no key to iterate over. *)
Lemma no_query_without_identifier
  (range : gmap string CloudWatchMetricRequest -> list string) :
  range (generateCloudWatchQueriesForInstances [])
  ≡ₚ (map_to_list (generateCloudWatchQueriesForInstances [])).*1 ->
  range (generateCloudWatchQueriesForInstances []) = [].
Proof.
  change (generateCloudWatchQueriesForInstances []) with
    (∅ : gmap string CloudWatchMetricRequest).
  rewrite map_to_list_empty. apply Permutation_nil_r.
Qed.

(** With no identifier there is no query, so no chunk is ever sent:
    the fetcher comes back as it was, with an empty result and no
    error, whatever the client would have answered. *)
Theorem no_identifiers_no_request range c :
  range (generateCloudWatchQueriesForInstances [])
  ≡ₚ (map_to_list (generateCloudWatchQueriesForInstances [])).*1 ->
  GetRDSInstanceMetrics range c [] = (c, {| Instances := ∅ |}, None).
Proof.
  intros Hrange. unfold GetRDSInstanceMetrics. cbv zeta.
  rewrite (no_query_without_identifier range Hrange). simpl.
  destruct c. reflexivity.
Qed.

Lemma no_identifiers_no_request_witness :
  GetRDSInstanceMetrics example.keys (NewRDSFetcher example.cloudwatchDown) []
  = (NewRDSFetcher example.cloudwatchDown, {| Instances := ∅ |}, None).
Proof.
  apply (no_identifiers_no_request example.keys (NewRDSFetcher example.cloudwatchDown)).
  reflexivity.
Defined.

(** *** Why a fetch fails *)

Lemma errors_Is_refl e : errors_Is e e.
Proof. destruct e; left; reflexivity. Qed.

Lemma processResult_failure q metrics m e :
  (processResult q metrics m).2 = Some e -> dispatchesUnknown q m.
Proof.
  unfold processResult, dispatchesUnknown.
  destruct (Values m) as [[|v vs]|]; [discriminate| |discriminate].
  intros He. split; [eauto|]. intros Hin.
  apply known_name in Hin as [f Hf]. rewrite Hf in He.
  set (rm := default emptyRdsMetrics _) in He.
  pose proof (proj1 (Update_known rm f v)) as Hok.
  destruct (Update rm (field.name f) v) as [updated [err|]]; simpl in *; discriminate.
Qed.

Lemma processResults_failure q results : forall metrics e,
  (processResults q metrics results).2 = Some e ->
  exists r, r ∈ results /\ dispatchesUnknown q r.
Proof.
  induction results as [|m rest IH]; intros metrics e He; simpl in He; [discriminate|].
  pose proof (processResult_failure q metrics m) as Hm.
  destruct (processResult q metrics m) as [metrics' [e'|]]; simpl in *.
  - exists m. split; [apply elem_of_cons; left; reflexivity | eauto].
  - destruct (IH metrics' e He) as (r & Hr & Hbad). exists r.
    split; [apply elem_of_cons; right|]; assumption.
Qed.

Lemma runChunks_failure q chunks : forall c metrics e,
  (runChunks q chunks c metrics).2 = Some e ->
  exists sent p,
    issued (runChunks q chunks c metrics).1.1 = issued c ++ sent ++ [p] /\
    ((exists ce,
        GetMetricData (client c) (length (issued c ++ sent)) p = inr ce /\
        errors_Is e ce) \/
     (exists resp r,
        GetMetricData (client c) (length (issued c ++ sent)) p = inl resp /\
        r ∈ MetricDataResults resp /\ dispatchesUnknown q r /\
        errors_Is e errUnknownMetric)).
Proof.
  induction chunks as [|ch chunks IH]; intros c metrics e He; simpl in *; [discriminate|].
  unfold updateMetricsWithCloudWatchQueriesResult in *. fold (requestFor q ch) in *.
  destruct (GetMetricData (client c) (length (issued c)) (requestFor q ch))
    as [resp | ce] eqn:Hresp.
  - pose proof (processResults_error q (MetricDataResults resp) metrics) as Herr.
    pose proof (processResults_failure q (MetricDataResults resp) metrics) as Hwhy.
    destruct (processResults q metrics (MetricDataResults resp)) as [m' [e'|]];
      simpl in *.
    + injection He as <-. exists [], (requestFor q ch). split; [reflexivity|].
      right. destruct (Hwhy e' eq_refl) as (r & Hr & Hbad).
      exists resp, r. rewrite app_nil_r. auto.
    + set (c1 := {| client := client c; statistics := statistics c;
                    issued := issued c ++ [requestFor q ch] |}) in *.
      destruct (IH c1 m' e He) as (sent & p & Hi & Hcause).
      exists (requestFor q ch :: sent), p. split.
      * rewrite Hi. simpl. rewrite <- app_assoc. reflexivity.
      * simpl in Hcause. rewrite <- app_assoc in Hcause. exact Hcause.
  - simpl in *. injection He as <-. exists [], (requestFor q ch).
    split; [reflexivity|]. left. exists ce. rewrite app_nil_r.
    split; [assumption|]. simpl. right. apply errors_Is_refl.
Qed.

(** A fetch that fails returns the empty result, whatever the chunks
    before the failing one brought, and leaves the statistics as they
    were, although it issued at least one request; and it fails only
    because its last request was refused by the client or was answered
    with a value for a metric that [Update] does not know. *)
Theorem fetch_failure_cause range c D e :
  (GetRDSInstanceMetrics range c D).2 = Some e ->
  (GetRDSInstanceMetrics range c D).1.2 = emptyCloudWatchMetrics /\
  statistics (GetRDSInstanceMetrics range c D).1.1 = statistics c /\
  exists sent p,
    issued (GetRDSInstanceMetrics range c D).1.1 = issued c ++ sent ++ [p] /\
    ((exists ce,
        GetMetricData (client c) (length (issued c ++ sent)) p = inr ce /\
        errors_Is e ce) \/
     (exists resp r,
        GetMetricData (client c) (length (issued c ++ sent)) p = inl resp /\
        r ∈ MetricDataResults resp /\
        dispatchesUnknown (generateCloudWatchQueriesForInstances D) r /\
        errors_Is e errUnknownMetric)).
Proof.
  intros He. split; [exact (GetRDSInstanceMetrics_failure range c D e He)|].
  split; [rewrite GetRDSInstanceMetrics_statistics, He; reflexivity|].
  revert He. rewrite GetRDSInstanceMetrics_run. cbv zeta.
  set (q := generateCloudWatchQueriesForInstances D).
  set (chunks := sentChunks _ _).
  pose proof (runChunks_failure q chunks c ∅) as Hwhy.
  destruct (runChunks q chunks c ∅) as [[c' m'] [e'|]]; simpl in *; [|discriminate].
  intros He. injection He as <-.
  destruct (Hwhy e' eq_refl) as (sent & p & Hi & Hcause).
  exists sent, p. split; [exact Hi|].
  destruct Hcause as [(ce & Hce & His) | (resp & r & Hresp & Hr & Hbad & His)].
  - left. exists ce. split; [assumption|]. simpl. right. exact His.
  - right. exists resp, r. split; [assumption|]. split; [assumption|].
    split; [exact Hbad|]. simpl. right. exact His.
Qed.

Lemma fetch_failure_cause_witness :
  let run :=
    GetRDSInstanceMetrics example.keys (NewRDSFetcher example.cloudwatchDown) ["db-a"] in
  run.1.2 = emptyCloudWatchMetrics /\
  statistics run.1.1 = statistics (NewRDSFetcher example.cloudwatchDown) /\
  length (issued run.1.1) = 1.
Proof.
  destruct (fetch_failure_cause example.keys (NewRDSFetcher example.cloudwatchDown)
              ["db-a"]
              (Errorf "can't fetch Cloudwatch metrics"
                 (Errorf "error calling GetMetricData" (errExternal "Throttling"))))
    as (Hempty & Hstat & _).
  - vm_compute. reflexivity.
  - split; [exact Hempty|]. split; [exact Hstat|]. vm_compute. reflexivity.
Defined.

(** *** Whose metrics a fetch returns *)

Lemma processResult_keys q metrics m k :
  is_Some ((processResult q metrics m).1 !! k) ->
  is_Some (metrics !! k) \/ k = Dbidentifier (index q (ResultId m)).
Proof.
  unfold processResult.
  destruct (Values m) as [values|]; [|auto].
  set (id := Dbidentifier (index q (ResultId m))).
  destruct (decide (k = id)) as [->|Hne]; [auto|].
  intros Hk. left. revert Hk.
  destruct (metrics !! id) eqn:Hid; destruct values as [|v vs]; simpl;
    try destruct (Update _ _ _) as [updated [err|]]; simpl;
    rewrite ?lookup_insert_ne by congruence; auto.
Qed.

Lemma processResults_keys q results : forall metrics k,
  is_Some ((processResults q metrics results).1 !! k) ->
  is_Some (metrics !! k) \/
  exists m, m ∈ results /\ k = Dbidentifier (index q (ResultId m)).
Proof.
  induction results as [|m rest IH]; intros metrics k Hk; simpl in Hk; [auto|].
  pose proof (processResult_keys q metrics m k) as Hm.
  destruct (processResult q metrics m) as [metrics' [e|]]; simpl in *.
  - destruct (Hm Hk) as [?| ->]; [auto|]. right. exists m. split; [apply elem_of_cons; left|]; reflexivity.
  - destruct (IH metrics' k Hk) as [Hk' | (r & Hr & ->)].
    + destruct (Hm Hk') as [?| ->]; [auto|]. right. exists m. split; [apply elem_of_cons; left|]; reflexivity.
    + right. exists r. split; [apply elem_of_cons; right; assumption | reflexivity].
Qed.

Lemma requested_identifier D id :
  Dbidentifier (index (generateCloudWatchQueriesForInstances D) id) ∈ D \/
  Dbidentifier (index (generateCloudWatchQueriesForInstances D) id) = EmptyString.
Proof.
  unfold index.
  destruct (generateCloudWatchQueriesForInstances D !! id) as [r|] eqn:Hr; simpl; [|auto].
  apply lookup_generated_Some in Hr as (i & d & m & Hd & _ & _ & ->).
  left. simpl. eapply list_elem_of_lookup_2. exact Hd.
Qed.

Lemma runChunks_keys D chunks : forall c metrics k,
  is_Some ((runChunks (generateCloudWatchQueriesForInstances D) chunks c metrics).1.2 !! k) ->
  is_Some (metrics !! k) \/ k ∈ D \/ k = EmptyString.
Proof.
  induction chunks as [|ch chunks IH]; intros c metrics k Hk; simpl in *; [auto|].
  unfold updateMetricsWithCloudWatchQueriesResult in *.
  destruct (GetMetricData _ _ _) as [resp | ce]; simpl in *; [|auto].
  pose proof (processResults_keys (generateCloudWatchQueriesForInstances D)
                (MetricDataResults resp) metrics k) as Hres.
  assert (is_Some ((processResults (generateCloudWatchQueriesForInstances D) metrics
                      (MetricDataResults resp)).1 !! k) ->
          is_Some (metrics !! k) \/ k ∈ D \/ k = EmptyString) as Hstep.
  { intros H. destruct (Hres H) as [?|(r & _ & ->)]; [auto|].
    right. apply requested_identifier. }
  destruct (processResults _ metrics (MetricDataResults resp)) as [m' [e|]];
    simpl in *; [auto|].
  destruct (IH _ m' k Hk) as [Hk'|?]; auto.
Qed.

(** A fetch reports metrics only for the identifiers it was given.
    The one exception is the empty identifier, under which the values
    of a result with an id that no query has would be stored. *)
Theorem metrics_only_for_requested range c D k :
  is_Some (Instances (GetRDSInstanceMetrics range c D).1.2 !! k) ->
  k ∈ D \/ k = EmptyString.
Proof.
  rewrite GetRDSInstanceMetrics_run. cbv zeta.
  pose proof (runChunks_keys D
                (sentChunks MaxQueriesPerCloudwatchRequest
                   (range (generateCloudWatchQueriesForInstances D))) c ∅ k) as H.
  destruct (runChunks _ _ c ∅) as [[c' m'] [e|]]; simpl in *.
  - rewrite lookup_empty. intros [? ?]. discriminate.
  - intros Hk. destruct (H Hk) as [Hk'|?]; [|assumption].
    rewrite lookup_empty in Hk'. destruct Hk' as [? ?]. discriminate.
Qed.

Lemma metrics_only_for_requested_witness :
  "db-a" ∈ ["db-a"] \/ "db-a" = EmptyString.
Proof.
  apply (metrics_only_for_requested example.keys
           (NewRDSFetcher example.cloudwatchOK) ["db-a"] "db-a").
  vm_compute. eexists. reflexivity.
Defined.

(** *** Which values a fetch reads *)

Lemma processResult_latest q metrics m :
  processResult q metrics (latest m) = processResult q metrics m.
Proof.
  unfold processResult, latest. simpl.
  destruct (Values m) as [[|v vs]|]; reflexivity.
Qed.

Lemma processResults_latest q results : forall metrics,
  processResults q metrics (latest <$> results) = processResults q metrics results.
Proof.
  induction results as [|m rest IH]; intros metrics; simpl; [reflexivity|].
  rewrite processResult_latest.
  destruct (processResult q metrics m) as [metrics' [e|]]; [reflexivity | apply IH].
Qed.

Lemma update_latest c metrics q ch :
  updateMetricsWithCloudWatchQueriesResult (withLatest c) metrics q ch
  = (withLatest (updateMetricsWithCloudWatchQueriesResult c metrics q ch).1.1,
     (updateMetricsWithCloudWatchQueriesResult c metrics q ch).1.2,
     (updateMetricsWithCloudWatchQueriesResult c metrics q ch).2).
Proof.
  unfold updateMetricsWithCloudWatchQueriesResult, withLatest. simpl.
  destruct (GetMetricData (client c) _ _) as [resp | ce]; simpl; [|reflexivity].
  rewrite processResults_latest.
  destruct (processResults q metrics (MetricDataResults resp)) as [m' e]. reflexivity.
Qed.

Lemma runChunks_latest q chunks : forall c metrics,
  runChunks q chunks (withLatest c) metrics
  = (withLatest (runChunks q chunks c metrics).1.1,
     (runChunks q chunks c metrics).1.2, (runChunks q chunks c metrics).2).
Proof.
  induction chunks as [|ch chunks IH]; intros c metrics; simpl; [reflexivity|].
  rewrite update_latest.
  destruct (updateMetricsWithCloudWatchQueriesResult c metrics q ch) as [[c' m'] [e|]];
    simpl; [reflexivity | apply IH].
Qed.

(** Of every series that the client returns, the fetcher reads the
    first value only: against a client that cuts each series down to
    its first value, a fetch issues the same requests and ends with
    the same metrics, the same error and the same statistics. *)
Theorem only_latest_value_read range c D :
  GetRDSInstanceMetrics range (withLatest c) D
  = (withLatest (GetRDSInstanceMetrics range c D).1.1,
     (GetRDSInstanceMetrics range c D).1.2,
     (GetRDSInstanceMetrics range c D).2).
Proof.
  rewrite !GetRDSInstanceMetrics_run. cbv zeta. rewrite runChunks_latest.
  destruct (runChunks _ _ c ∅) as [[c' m'] [e|]]; simpl; [reflexivity|].
  destruct (chunking _ _ _).2; reflexivity.
Qed.


(** *** What a fetch asks *)

Lemma NoDup_concat_elem {A : Type} (ls : list (list A)) l :
  NoDup (concat ls) -> l ∈ ls -> NoDup l /\ forall x, x ∈ l -> x ∈ concat ls.
Proof.
  induction ls as [|l0 ls IH]; intros Hnd Hl; simpl in *.
  - apply elem_of_nil in Hl. contradiction.
  - apply NoDup_app in Hnd as (H0 & _ & Hrest).
    apply elem_of_cons in Hl as [-> | Hl].
    + split; [exact H0|]. intros x Hx. apply elem_of_app. left. exact Hx.
    + destruct (IH Hrest Hl) as [Hl1 Hl2]. split; [exact Hl1|].
      intros x Hx. apply elem_of_app. right. apply Hl2. exact Hx.
Qed.

Lemma requestFor_wellFormed D chunk :
  NoDup chunk ->
  (forall k, k ∈ chunk -> is_Some (generateCloudWatchQueriesForInstances D !! k)) ->
  wellFormedRequest D (requestFor (generateCloudWatchQueriesForInstances D) chunk).
Proof.
  intros Hnd Hin. unfold wellFormedRequest, requestFor. simpl.
  split; [reflexivity|].
  assert (forall k, k ∈ chunk ->
            Id (Query (index (generateCloudWatchQueriesForInstances D) k)) = k /\
            asksFor D (Query (index (generateCloudWatchQueriesForInstances D) k)))
    as Hkey.
  { intros k Hk. destruct (Hin k Hk) as [r Hr]. unfold index. rewrite Hr. simpl.
    apply lookup_generated_Some in Hr as (i & d & m & Hd & Hm & -> & ->). simpl.
    split; [reflexivity|]. unfold asksFor. simpl.
    repeat split; try reflexivity; [exact Hm|]. exists i. split; [exact Hd | reflexivity]. }
  split.
  - rewrite <- list_fmap_compose.
    rewrite (list_fmap_ext _ id chunk).
    + rewrite list_fmap_id. exact Hnd.
    + intros i k Hk. simpl. apply Hkey. eapply list_elem_of_lookup_2. exact Hk.
  - apply Forall_fmap. apply Forall_forall. intros k Hk. apply Hkey. exact Hk.
Qed.

(** Every request that a fetch issues reads the datapoints from the
    most recent one, has no query id twice, and asks, in each query,
    for the average over one minute of one of the 24 metrics of one of
    the identifiers given. *)
Theorem requests_are_well_formed range c D :
  range (generateCloudWatchQueriesForInstances D)
  ≡ₚ (map_to_list (generateCloudWatchQueriesForInstances D)).*1 ->
  exists sent,
    issued (GetRDSInstanceMetrics range c D).1.1 = issued c ++ sent /\
    Forall (wellFormedRequest D) sent.
Proof.
  intros Hrange.
  destruct (GetRDSInstanceMetrics_issued range c D) as (k & _ & Hi & _).
  set (q := generateCloudWatchQueriesForInstances D) in *.
  eexists. split; [exact Hi|].
  apply Forall_fmap. apply Forall_forall. intros chunk Hchunk.
  assert (chunk ∈ sentChunks MaxQueriesPerCloudwatchRequest (range q)) as Hall.
  { apply elem_of_take in Hchunk as (i & Hi' & _).
    eapply list_elem_of_lookup_2. exact Hi'. }
  assert (NoDup (range q)) as Hnd.
  { rewrite Hrange. apply NoDup_fst_map_to_list. }
  rewrite <- (concat_sentChunks MaxQueriesPerCloudwatchRequest (range q)) in Hnd
    by (unfold MaxQueriesPerCloudwatchRequest; lia).
  destruct (NoDup_concat_elem _ chunk Hnd Hall) as [Hc Hsub].
  apply requestFor_wellFormed; [exact Hc|].
  intros key Hkey. apply Hsub in Hkey.
  rewrite concat_sentChunks in Hkey by (unfold MaxQueriesPerCloudwatchRequest; lia).
  rewrite Hrange in Hkey. apply list_elem_of_fmap in Hkey as ([k' r] & -> & Hkr).
  apply elem_of_map_to_list in Hkr. simpl. eexists. exact Hkr.
Qed.

Lemma requests_are_well_formed_witness :
  exists sent,
    issued (GetRDSInstanceMetrics example.keys (NewRDSFetcher example.silent)
              example.thirty).1.1 = [] ++ sent /\
    Forall (wellFormedRequest example.thirty) sent.
Proof.
  apply (requests_are_well_formed example.keys (NewRDSFetcher example.silent)
           example.thirty).
  reflexivity.
Defined.

End fetcher.
(** ** The collector, further *)

Section collector.
Import golang exporter.

(** *** Label values *)

Lemma getInstanceTagLabels_lengths w c id inst :
  length (getInstanceTagLabels w c id inst).2
  = length (getInstanceTagLabels w c id inst).1.
Proof. unfold getInstanceTagLabels. cbv zeta. simpl. rewrite !length_fmap. reflexivity. Qed.

Lemma wellLabelled_instance w c entry : Forall wellLabelled (part.instance w c entry).
Proof.
  unfold part.instance, collectRDSInstance. destruct entry as [id inst].
  pose proof (getInstanceTagLabels_lengths w c id inst) as Hlen.
  destruct (CollectInstanceTags (configuration c)).
  - destruct (getInstanceTagLabels w c id inst) as [names values]. simpl in *.
    repeat first [ apply Forall_nil
                 | apply Forall_cons; split; [first [reflexivity | exact Hlen]|]
                 | apply Forall_app; split
                 | apply Forall_ifPresent; intros x; reflexivity ].
  - simpl.
    repeat first [ apply Forall_nil | apply Forall_cons; split; [reflexivity|]
                 | apply Forall_app; split
                 | apply Forall_ifPresent; intros x; reflexivity ].
Qed.

Lemma wellLabelled_inventory w c : Forall wellLabelled (part.inventory w c).
Proof.
  constructor; [reflexivity|]. apply Forall_bind_parts. apply wellLabelled_instance.
Qed.

Lemma wellLabelled_timeSeries c : Forall wellLabelled (part.timeSeries c).
Proof.
  constructor; [reflexivity|]. apply Forall_bind_parts. intros [id inst].
  unfold collectCloudwatchInstance.
  repeat (apply Forall_app; split); apply Forall_ifPresent; intros x; reflexivity.
Qed.

Lemma wellLabelled_instanceTypes c : Forall wellLabelled (part.instanceTypes c).
Proof.
  constructor; [reflexivity|]. apply Forall_bind_parts. intros [id inst].
  repeat constructor.
Qed.

(** Every sample that [Collect] sends has as many label values as its
    descriptor has labels: in no scrape does [MustNewConstMetric]
    panic over the number of label values, the sample of
    [rds_instance_tags] with its descriptor made on the spot included. *)
Theorem samples_have_their_labels w c : Forall wellLabelled (Collect w c).2.
Proof.
  rewrite (proj1 (Collect_parts w c)).
  destruct (fetchMetrics w c) as [c1 [e|]].
  - repeat constructor.
  - repeat (apply Forall_app; split).
    + repeat constructor.
    + repeat constructor.
    + apply wellLabelled_inventory.
    + apply wellLabelled_timeSeries.
    + unfold part.usage. destruct (CollectUsages _); repeat constructor.
    + apply wellLabelled_instanceTypes.
    + unfold part.quotas. destruct (CollectQuotas _); repeat constructor.
Qed.


(** *** What a scrape leaves of the collector *)










(** *** The samples of one fetcher *)

Lemma samplesFrom_app k l1 l2 :
  samplesFrom k (l1 ++ l2) = samplesFrom k l1 ++ samplesFrom k l2.
Proof. apply filter_app. Qed.

Lemma samplesFrom_same k l : Forall (fun s => sourceOf s = k) l -> samplesFrom k l = l.
Proof.
  intros Hl. unfold samplesFrom. induction Hl as [|s l Hs _ IH]; [reflexivity|].
  rewrite filter_cons_True by exact Hs. f_equal. exact IH.
Qed.

Lemma samplesFrom_other k x l :
  Forall (fun s => sourceOf s = x) l -> x <> k -> samplesFrom k l = [].
Proof.
  intros Hl Hne. unfold samplesFrom. induction Hl as [|s l Hs _ IH]; [reflexivity|].
  rewrite filter_cons_False by congruence. exact IH.
Qed.

Lemma samplesFrom_Collect w c k :
  err (subtask.inventory w c) = None ->
  samplesFrom k (Collect w c).2 =
  match k with
  | Exporter =>
      part.header w c
      ++ [MustNewConstMetric up GaugeValue exporterUpStatusCode [awsRegion c]]
  | Inventory => part.inventory w (fetchMetrics w c).1
  | TimeSeries => part.timeSeries (fetchMetrics w c).1
  | Usage => part.usage (fetchMetrics w c).1
  | InstanceType => part.instanceTypes (fetchMetrics w c).1
  | Quota => part.quotas (fetchMetrics w c).1
  end.
Proof.
  intros He. rewrite (Collect_success w c He). rewrite !samplesFrom_app.
  pose proof (source_header w c) as H0.
  pose proof (source_inventory w (fetchMetrics w c).1) as H1.
  pose proof (source_timeSeries (fetchMetrics w c).1) as H2.
  pose proof (source_usage (fetchMetrics w c).1) as H3.
  pose proof (source_instanceTypes (fetchMetrics w c).1) as H4.
  pose proof (source_quotas (fetchMetrics w c).1) as H5.
  assert (Forall (fun s => sourceOf s = Exporter)
            [MustNewConstMetric up GaugeValue exporterUpStatusCode [awsRegion c]])
    as Hup by (repeat constructor).
  destruct k;
    repeat first
      [ rewrite (samplesFrom_same _ _ H0) | rewrite (samplesFrom_same _ _ H1)
      | rewrite (samplesFrom_same _ _ H2) | rewrite (samplesFrom_same _ _ H3)
      | rewrite (samplesFrom_same _ _ H4) | rewrite (samplesFrom_same _ _ H5)
      | rewrite (samplesFrom_same _ _ Hup)
      | rewrite (samplesFrom_other _ _ _ H0) by discriminate
      | rewrite (samplesFrom_other _ _ _ H1) by discriminate
      | rewrite (samplesFrom_other _ _ _ H2) by discriminate
      | rewrite (samplesFrom_other _ _ _ H3) by discriminate
      | rewrite (samplesFrom_other _ _ _ H4) by discriminate
      | rewrite (samplesFrom_other _ _ _ H5) by discriminate
      | rewrite (samplesFrom_other _ _ _ Hup) by discriminate ];
    rewrite ?app_nil_r; reflexivity.
Qed.

(** *** A scrape that finds no instance class *)

(** The instance-type fetcher is started only when the inventory has
    an instance class.  When it has none (an empty fleet, say), the
    metrics of the instance types are not reset: the collector keeps
    those of an earlier scrape, sends their samples again, and counts
    no call. *)
Theorem instance_types_kept_without_class w c :
  err (subtask.inventory w c) = None ->
  subtask.types w c = [] ->
  EC2 (metrics_ (Collect w c).1) = EC2 (metrics_ c) /\
  EC2APIcalls (counters (Collect w c).1) = EC2APIcalls (counters c) /\
  samplesFrom InstanceType (Collect w c).2 = part.instanceTypes c.
Proof.
  intros He Hty.
  assert (subtask.started w c InstanceType = false) as Hst.
  { simpl. rewrite Hty. apply andb_false_r. }
  pose proof (fetchMetrics_success w c He) as Hf.
  rewrite Hst in Hf.
  destruct (Collect_parts w c) as [_ (Hk & Hm & _)].
  rewrite Collect_counters, Hm, (samplesFrom_Collect w c InstanceType He).
  rewrite Hf. simpl. repeat split.
Qed.

Lemma instance_types_kept_without_class_witness :
  let c := (Collect example.healthy example.collector).1 in
  EC2 (metrics_ (Collect scenario.emptied c).1) = result example.typesOK /\
  EC2APIcalls (counters (Collect scenario.emptied c).1) = (0 + 1)%float /\
  length (samplesFrom InstanceType (Collect scenario.emptied c).2) = 5.
Proof.
  cbv zeta.
  destruct (instance_types_kept_without_class scenario.emptied
              (Collect example.healthy example.collector).1)
    as (-> & -> & ->); [reflexivity | reflexivity |].
  repeat split; vm_compute; reflexivity.
Defined.


(** *** A subtask that is not started *)

Lemma agree_subtasks k w w' c :
  subtask.agreeExcept k w w' ->
  subtask.inventory w' c = subtask.inventory w c /\
  subtask.identifiers w' c = subtask.identifiers w c /\
  subtask.types w' c = subtask.types w c /\
  (forall x, subtask.started w' c x = subtask.started w c x).
Proof.
  intros (_ & _ & _ & Hi & Hu & _).
  unfold subtask.identifiers, subtask.types, subtask.inventory.
  rewrite Hi, Hu. repeat split.
  intros x. destruct x; simpl; try reflexivity.
  unfold subtask.types, subtask.inventory. rewrite Hi, Hu. reflexivity.
Qed.

Lemma collectRDSInstance_agree w w' :
  rangeTags w = rangeTags w' -> rangeLabels w = rangeLabels w' ->
  collectRDSInstance w' = collectRDSInstance w.
Proof.
  intros Ht Hl. unfold collectRDSInstance, getInstanceTagLabels.
  rewrite Ht, Hl. reflexivity.
Qed.

Lemma fetchMetrics_unstarted k w w' c :
  subtask.agreeExcept k w w' -> subtask.started w c k = false ->
  fetchMetrics w' c = fetchMetrics w c.
Proof.
  intros Hagree Hoff.
  destruct (agree_subtasks k w w' c Hagree) as (Hinv & Hids & Htys & Hst).
  destruct Hagree as (_ & _ & _ & _ & _ & _ & _ & Hq & Hu & Ht & Hs).
  destruct (err (subtask.inventory w c)) as [e|] eqn:He.
  - rewrite (fetchMetrics_failure w c e He).
    rewrite (fetchMetrics_failure w' c e) by (rewrite Hinv; exact He).
    f_equal. rewrite !step_usages, !step_quotas. simpl.
    destruct k; simpl in Hoff;
      rewrite ?Hoff; simpl;
      rewrite <- ?(Hq ltac:(discriminate)), <- ?(Hu ltac:(discriminate));
      reflexivity.
  - rewrite (fetchMetrics_success w c He).
    rewrite (fetchMetrics_success w' c) by (rewrite Hinv; exact He).
    unfold subtask.countFailure, subtask.failed.
    rewrite !Hst, Hinv. unfold subtask.error, subtask.timeSeries.
    rewrite Hids, Htys.
    destruct k; simpl in Hoff |- *;
      rewrite ?Hoff; simpl;
      rewrite <- ?(Hq ltac:(discriminate)), <- ?(Hu ltac:(discriminate)),
              <- ?(Ht ltac:(discriminate));
      try (destruct (Hs ltac:(discriminate)) as [<- <-]);
      reflexivity.
Qed.

(** A subtask that a scrape does not start (its flag is off, or, for
    the instance types, the inventory has no instance class) is not
    consulted at all: the scrape sends the same samples and leaves
    the same collector whatever that fetcher would have returned. *)
Theorem unstarted_subtask_is_not_consulted k w w' c :
  subtask.agreeExcept k w w' -> subtask.started w c k = false ->
  Collect w' c = Collect w c.
Proof.
  intros Hagree Hoff. unfold Collect.
  rewrite (fetchMetrics_unstarted k w w' c Hagree Hoff).
  destruct Hagree as (<- & <- & <- & _ & _ & Ht & Hl & _).
  rewrite (collectRDSInstance_agree w w' Ht Hl). reflexivity.
Qed.


Lemma unstarted_subtask_is_not_consulted_witness :
  Collect (example.world example.inventoryOK example.quotasDown example.cloudwatchOK)
          (NewCollector scenario.withoutQuotas "123456789012" "eu-west-3")
  = Collect example.healthy
            (NewCollector scenario.withoutQuotas "123456789012" "eu-west-3").
Proof.
  apply (unstarted_subtask_is_not_consulted Quota).
  - unfold subtask.agreeExcept.
    repeat split;
      first [ reflexivity | contradiction
            | intros ?; first [reflexivity | contradiction] ].
  - reflexivity.
Defined.

(** *** A scrape of an empty fleet *)




(** *** The API-call counters of a scrape *)

Lemma apiCallSamples_app api l1 l2 :
  apiCallSamples api (l1 ++ l2) = apiCallSamples api l1 ++ apiCallSamples api l2.
Proof. apply filter_app. Qed.

Lemma apiCallSamples_none api l :
  Forall (fun s => fqName (desc s) <> "rds_api_call_total") l ->
  apiCallSamples api l = [].
Proof.
  intros Hl. unfold apiCallSamples. induction Hl as [|s l Hs _ IH]; [reflexivity|].
  rewrite filter_cons_False by (intros [H _]; apply Hs; rewrite H; reflexivity).
  exact IH.
Qed.

Lemma apiCallSamples_counter api api' v a r l :
  Forall (fun s => fqName (desc s) <> "rds_api_call_total") l ->
  apiCallSamples api (MustNewConstMetric apiCall CounterValue v [a; r; api'] :: l)
  = if decide (api' = api)
    then [MustNewConstMetric apiCall CounterValue v [a; r; api']] else [].
Proof.
  intros Hl. unfold apiCallSamples at 1. destruct (decide (api' = api)) as [->|Hne].
  - rewrite filter_cons_True by (split; reflexivity).
    f_equal. apply apiCallSamples_none. exact Hl.
  - rewrite filter_cons_False by (intros [_ H]; simpl in H; congruence).
    apply apiCallSamples_none. exact Hl.
Qed.

Ltac not_the_counter :=
  repeat first
    [ apply List.Forall_nil
    | apply Forall_cons; split; [intros H; cbv in H; discriminate H|]
    | apply Forall_app; split
    | apply Forall_ifPresent; intros x H; cbv in H; discriminate H ].

Lemma counter_not_in_instance w c entry :
  Forall (fun s => fqName (desc s) <> "rds_api_call_total") (part.instance w c entry).
Proof.
  unfold part.instance, collectRDSInstance. destruct entry as [id inst].
  destruct (CollectInstanceTags (configuration c)).
  - destruct (getInstanceTagLabels w c id inst) as [names values]. simpl.
    not_the_counter.
  - simpl. not_the_counter.
Qed.

Lemma counter_not_in_series c entry :
  Forall (fun s => fqName (desc s) <> "rds_api_call_total")
         (collectCloudwatchInstance c entry).
Proof.
  destruct entry as [id inst]. unfold collectCloudwatchInstance. cbv zeta.
  not_the_counter.
Qed.

Lemma counter_not_in_type c entry :
  Forall (fun s => fqName (desc s) <> "rds_api_call_total") (collectEC2Instance c entry).
Proof.
  destruct entry as [id inst]. unfold collectEC2Instance. cbv zeta. not_the_counter.
Qed.

Lemma apiCallSamples_parts w c api :
  err (subtask.inventory w c) = None ->
  apiCallSamples api (Collect w c).2
  = apiCallSamples api (part.inventory w (fetchMetrics w c).1)
    ++ apiCallSamples api (part.timeSeries (fetchMetrics w c).1)
    ++ apiCallSamples api (part.usage (fetchMetrics w c).1)
    ++ apiCallSamples api (part.instanceTypes (fetchMetrics w c).1)
    ++ apiCallSamples api (part.quotas (fetchMetrics w c).1).
Proof.
  intros He. rewrite (Collect_success w c He), !apiCallSamples_app.
  rewrite (apiCallSamples_none api (part.header w c)) by not_the_counter.
  rewrite (apiCallSamples_none api [_]) by not_the_counter.
  reflexivity.
Qed.

(** After a scrape whose inventory fetch succeeds, each API has at
    most one sample of [rds_api_call_total], and its value is the
    count before the scrape plus the calls that the fetcher reports
    for this scrape: always one for [rds], [cloudwatch] and [ec2] (the
    last two unchanged when their subtask is not started), and one for
    [usage] and [servicequotas] only when their flag is on. *)
Theorem api_call_samples w c :
  err (subtask.inventory w c) = None ->
  apiCallSamples "rds" (Collect w c).2
  = [ MustNewConstMetric apiCall CounterValue
        (RDSAPIcalls (counters c) + apiCalls (subtask.inventory w c))%float
        [awsAccountID c; awsRegion c; "rds"] ] /\
  apiCallSamples "cloudwatch" (Collect w c).2
  = [ MustNewConstMetric apiCall CounterValue
        (if subtask.started w c TimeSeries
         then (CloudwatchAPICalls (counters c)
               + cloudwatch.CloudWatchAPICall
                   (cloudwatch.GetStatistics (subtask.timeSeries w c).1.1))%float
         else CloudwatchAPICalls (counters c))
        [awsAccountID c; awsRegion c; "cloudwatch"] ] /\
  apiCallSamples "ec2" (Collect w c).2
  = [ MustNewConstMetric apiCall CounterValue
        (if subtask.started w c InstanceType
         then (EC2APIcalls (counters c)
               + apiCalls (GetDBInstanceTypeInformation w (subtask.types w c)))%float
         else EC2APIcalls (counters c))
        [awsAccountID c; awsRegion c; "ec2"] ] /\
  apiCallSamples "usage" (Collect w c).2
  = (if CollectUsages (configuration c)
     then [ MustNewConstMetric apiCall CounterValue
              (UsageAPIcalls (counters c) + apiCalls (GetUsageMetrics w))%float
              [awsAccountID c; awsRegion c; "usage"] ]
     else []) /\
  apiCallSamples "servicequotas" (Collect w c).2
  = (if CollectQuotas (configuration c)
     then [ MustNewConstMetric apiCall CounterValue
              (ServiceQuotasAPICalls (counters c) + apiCalls (GetRDSQuotas w))%float
              [awsAccountID c; awsRegion c; "servicequotas"] ]
     else []).
Proof.
  intros He. rewrite !(apiCallSamples_parts w c _ He).
  unfold part.inventory, part.timeSeries, part.instanceTypes, part.usage, part.quotas.
  rewrite !apiCallSamples_counter
    by first [ apply Forall_bind_parts; apply counter_not_in_instance
             | apply Forall_bind_parts; apply counter_not_in_series
             | apply Forall_bind_parts; apply counter_not_in_type ].
  rewrite (fetchMetrics_success w c He). simpl.
  destruct (CollectUsages (configuration c)), (CollectQuotas (configuration c));
    simpl;
    rewrite ?apiCallSamples_counter by not_the_counter;
    repeat split; reflexivity.
Qed.

Lemma api_call_samples_witness :
  value <$> apiCallSamples "rds" (Collect example.healthy example.collector).2
  = [(0 + 1)%float] /\
  value <$> apiCallSamples "servicequotas" (Collect example.healthy example.collector).2
  = [(0 + 3)%float] /\
  apiCallSamples "servicequotas"
    (Collect example.healthy
       (NewCollector scenario.withoutQuotas "123456789012" "eu-west-3")).2 = [].
Proof.
  destruct (api_call_samples example.healthy example.collector)
    as (-> & _ & _ & _ & ->); [reflexivity|].
  destruct (api_call_samples example.healthy
              (NewCollector scenario.withoutQuotas "123456789012" "eu-west-3"))
    as (_ & _ & _ & _ & ->); [reflexivity|].
  repeat split; reflexivity.
Defined.


End collector.
(** ** No sample twice *)

Section identities.
Import golang exporter.

Lemma NoDup_projection {A B C : Type} (f : A -> B) (g : B -> C) (l : list A) :
  NoDup ((fun x => g (f x)) <$> l) -> NoDup (f <$> l).
Proof.
  intros H. apply (NoDup_fmap_1 g). rewrite <- list_fmap_compose. exact H.
Qed.

Lemma NoDup_app_by_class {A : Type} (cls : A -> source) k (l1 l2 : list A) :
  NoDup l1 -> NoDup l2 ->
  Forall (fun x => cls x = k) l1 -> Forall (fun x => cls x <> k) l2 ->
  NoDup (l1 ++ l2).
Proof.
  intros H1 H2 Hk Hn. apply NoDup_app. split; [exact H1|]. split; [|exact H2].
  intros x Hx1 Hx2.
  rewrite Forall_forall in Hk. rewrite Forall_forall in Hn.
  exact (Hn x Hx2 (Hk x Hx1)).
Qed.

(** The samples of the entries of a map, each with the key of its
    entry in the label [n], and no metric name twice for one entry. *)
Lemma NoDup_per_entry {E : Type} (n : string) (f : string * E -> list Metric)
  (entries : list (string * E)) :
  NoDup entries.*1 ->
  (forall e, Forall (fun s => label n s = Some e.1) (f e)) ->
  (forall e, NoDup ((fun s => fqName (desc s)) <$> f e)) ->
  NoDup ((fun s => (fqName (desc s), label n s)) <$> (entries ≫= f)).
Proof.
  intros Hkeys Hlabel Hnames.
  induction entries as [|e entries IH]; [constructor|].
  rewrite bind_cons, fmap_app. simpl in Hkeys. apply NoDup_cons in Hkeys as [Hnew Hkeys].
  apply NoDup_app. split; [|split; [|apply IH; exact Hkeys]].
  - apply (NoDup_fmap_1 fst). rewrite <- list_fmap_compose. exact (Hnames e).
  - intros x Hx1 Hx2. apply Hnew.
    apply list_elem_of_fmap in Hx1 as (s1 & -> & Hs1).
    apply list_elem_of_fmap in Hx2 as (s2 & Heq & Hs2).
    apply list_elem_of_bind in Hs2 as (e' & Hs2 & He').
    pose proof (Hlabel e) as H1. rewrite Forall_forall in H1.
    pose proof (Hlabel e') as H2. rewrite Forall_forall in H2.
    injection Heq as _ Hl. rewrite (H1 s1 Hs1), (H2 s2 Hs2) in Hl.
    injection Hl as ->. apply list_elem_of_fmap. exists e'. split; [reflexivity | exact He'].
Qed.

(** *** The label of the instance in the sample of its tags *)

Lemma labelValue_pairs n v (pairs : list (string * string)) :
  NoDup pairs.*1 -> (n, v) ∈ pairs -> labelValue n pairs.*1 pairs.*2 = Some v.
Proof.
  induction pairs as [|[n' v'] pairs IH]; intros Hnd Hin.
  - apply elem_of_nil in Hin. contradiction.
  - simpl in *. apply NoDup_cons in Hnd as [Hnew Hnd].
    apply elem_of_cons in Hin as [Heq | Hin].
    + injection Heq as <- <-. rewrite String.eqb_refl. reflexivity.
    + destruct (String.eqb n n') eqn:E; [|apply IH; assumption].
      apply String.eqb_eq in E as <-. exfalso. apply Hnew.
      apply list_elem_of_fmap. exists (n, v). split; [reflexivity | exact Hin].
Qed.

Lemma tags_label_of_instance w c id inst :
  (forall m, rangeLabels w m ≡ₚ map_to_list m) ->
  labelValue "dbidentifier" (getInstanceTagLabels w c id inst).1
             (getInstanceTagLabels w c id inst).2 = Some id.
Proof.
  intros Hperm. unfold getInstanceTagLabels. cbv zeta. simpl.
  set (labels := foldl _ _ _).
  assert (labels !! "dbidentifier" = Some id) as Hid.
  { unfold labels. rewrite tags_fold_other.
    - apply lookup_insert_eq.
    - intros k v _ H. pose proof (tagLabel_not_fixed k) as Hk. apply Hk.
      rewrite <- H. unfold fixedLabels. do 2 (apply elem_of_cons; right).
      apply elem_of_cons. left. reflexivity. }
  apply labelValue_pairs.
  - rewrite (Hperm labels). apply NoDup_fst_map_to_list.
  - rewrite (Hperm labels). apply elem_of_map_to_list. exact Hid.
Qed.


(** *** The samples of one entry *)

Ltac about_the_entry :=
  repeat first
    [ apply List.Forall_nil
    | apply Forall_cons; split; [reflexivity|]
    | apply Forall_app; split
    | apply Forall_ifPresent; intros x; reflexivity ].

Lemma instance_samples_name_it w c entry :
  (forall m, rangeLabels w m ≡ₚ map_to_list m) ->
  Forall (fun s => label "dbidentifier" s = Some entry.1) (part.instance w c entry).
Proof.
  intros Hperm. unfold part.instance, collectRDSInstance. destruct entry as [id inst].
  pose proof (tags_label_of_instance w c id inst Hperm) as Htag.
  destruct (CollectInstanceTags (configuration c)).
  - destruct (getInstanceTagLabels w c id inst) as [names values]. simpl in *.
    repeat first
      [ apply List.Forall_nil
      | apply Forall_cons; split; [first [reflexivity | exact Htag]|]
      | apply Forall_app; split
      | apply Forall_ifPresent; intros x; reflexivity ].
  - simpl. about_the_entry.
Qed.

Lemma names_ifPresent d v labels :
  (fun s => fqName (desc s)) <$> ifPresent d v labels `sublist_of` [fqName d].
Proof. destruct v; simpl; [reflexivity | apply sublist_nil_l]. Qed.

Lemma instance_names w c entry :
  NoDup ((fun s => fqName (desc s)) <$> part.instance w c entry).
Proof.
  unfold part.instance, collectRDSInstance. destruct entry as [id inst].
  apply (sublist_NoDup _
           ((fqName <$> [ allocatedStorage; information; maxAllocatedStorage; maxIops;
                          status; storageThroughput; backupRetentionPeriod ])
            ++ ["rds_instance_tags"]
            ++ [fqName certificateValidTill] ++ [fqName age] ++ [fqName logFilesSize])).
  - apply (bool_decide_unpack _). vm_compute. exact I.
  - destruct (CollectInstanceTags (configuration c)).
    + destruct (getInstanceTagLabels w c id inst) as [names values]. simpl.
      do 8 apply sublist_skip.
      change (list_fmap Metric string ?f ?l) with (f <$> l). rewrite !fmap_app.
      apply (sublist_app _ [_; _] _ [_]); [apply (sublist_app _ [_] _ [_])|];
        apply names_ifPresent.
    + simpl. do 7 apply sublist_skip. apply sublist_cons.
      change (list_fmap Metric string ?f ?l) with (f <$> l). rewrite !fmap_app.
      apply (sublist_app _ [_; _] _ [_]); [apply (sublist_app _ [_] _ [_])|];
        apply names_ifPresent.
Qed.


Lemma series_samples_name_it c entry :
  Forall (fun s => label "dbidentifier" s = Some entry.1)
         (collectCloudwatchInstance c entry).
Proof.
  destruct entry as [id inst]. unfold collectCloudwatchInstance. cbv zeta.
  about_the_entry.
Qed.

Lemma series_names c entry :
  NoDup ((fun s => fqName (desc s)) <$> collectCloudwatchInstance c entry).
Proof.
  destruct entry as [id inst]. unfold collectCloudwatchInstance. cbv zeta.
  apply (sublist_NoDup _
           (fqName <$> [ databaseConnections; freeStorageSpace; freeableMemory;
                         maximumUsedTransactionIDs; readThroughput; replicaLag;
                         replicationSlotDiskUsage; swapUsage; readIOPS; writeIOPS;
                         writeThroughput; transactionLogsDiskUsage; DBLoad;
                         cpuUtilisation; dBLoadCPU; dBLoadNonCPU; BufferCacheHitRatio;
                         Deadlocks; Queries; EngineUptime; SumBinaryLogSize;
                         NumBinaryLogFiles; AuroraBinlogReplicaLag; BinLogDiskUsage ])).
  - apply (bool_decide_unpack _). vm_compute. exact I.
  - rewrite !fmap_app.
    repeat (apply (sublist_app _ [_]); [apply names_ifPresent|]).
    apply names_ifPresent.
Qed.

Lemma type_samples_name_it c entry :
  Forall (fun s => label "instance_class" s = Some entry.1) (collectEC2Instance c entry).
Proof. destruct entry as [ty inst]. unfold collectEC2Instance. cbv zeta. about_the_entry. Qed.

Lemma type_names c entry :
  NoDup ((fun s => fqName (desc s)) <$> collectEC2Instance c entry).
Proof.
  destruct entry as [ty inst]. unfold collectEC2Instance. cbv zeta.
  apply (bool_decide_unpack _). vm_compute. exact I.
Qed.


(** *** The samples of one part *)

Ltac of_the_part :=
  repeat first
    [ apply List.Forall_nil
    | apply Forall_cons; split; [reflexivity|]
    | apply Forall_app; split
    | apply Forall_ifPresent; intros x; reflexivity ].

Lemma class_instance w c entry :
  Forall (fun s => sourceOfIdentity (identity s) = Inventory) (part.instance w c entry).
Proof.
  unfold part.instance, collectRDSInstance. destruct entry as [id inst].
  destruct (CollectInstanceTags (configuration c)).
  - destruct (getInstanceTagLabels w c id inst) as [names values]. simpl. of_the_part.
  - simpl. of_the_part.
Qed.

Lemma class_inventory w c :
  Forall (fun s => sourceOfIdentity (identity s) = Inventory) (part.inventory w c).
Proof.
  constructor; [reflexivity|]. apply Forall_bind_parts. apply class_instance.
Qed.

Lemma class_timeSeries c :
  Forall (fun s => sourceOfIdentity (identity s) = TimeSeries) (part.timeSeries c).
Proof.
  constructor; [reflexivity|]. apply Forall_bind_parts. intros [id inst].
  unfold collectCloudwatchInstance. cbv zeta. of_the_part.
Qed.

Lemma class_usage c :
  Forall (fun s => sourceOfIdentity (identity s) = Usage) (part.usage c).
Proof. unfold part.usage. destruct (CollectUsages _); of_the_part. Qed.

Lemma class_instanceTypes c :
  Forall (fun s => sourceOfIdentity (identity s) = InstanceType) (part.instanceTypes c).
Proof.
  constructor; [reflexivity|]. apply Forall_bind_parts. intros [id inst].
  unfold collectEC2Instance. cbv zeta. of_the_part.
Qed.

Lemma class_quotas c :
  Forall (fun s => sourceOfIdentity (identity s) = Quota) (part.quotas c).
Proof. unfold part.quotas. destruct (CollectQuotas _); of_the_part. Qed.

(** The counter of API calls that opens a part, before the samples of
    the entries of a map. *)
Lemma NoDup_counter_and_entries {E : Type} (n : string) (pick : _ -> string * option string)
  (f : string * E -> list Metric) (entries : list (string * E)) (counter : Metric) :
  fqName (desc counter) = "rds_api_call_total" ->
  (forall s, pick (identity s) = (fqName (desc s), label n s)) ->
  NoDup entries.*1 ->
  (forall e, Forall (fun s => fqName (desc s) <> "rds_api_call_total") (f e)) ->
  (forall e, Forall (fun s => label n s = Some e.1) (f e)) ->
  (forall e, NoDup ((fun s => fqName (desc s)) <$> f e)) ->
  NoDup (identity <$> counter :: (entries ≫= f)).
Proof.
  intros Hc Hpick Hkeys Hnot Hlabel Hnames. rewrite fmap_cons. apply NoDup_cons. split.
  - intros Hin. apply list_elem_of_fmap in Hin as (s & Heq & Hs).
    apply list_elem_of_bind in Hs as (e & Hs & _).
    pose proof (Hnot e) as H. rewrite Forall_forall in H. apply (H s Hs).
    injection Heq as <- _. exact Hc.
  - apply (NoDup_projection identity pick).
    rewrite (list_fmap_ext (fun s => pick (identity s))
               (fun s => (fqName (desc s), label n s)) _ (fun _ s _ => Hpick s)).
    apply NoDup_per_entry; assumption.
Qed.

(** No scrape sends a sample twice: two samples of one scrape differ
    in their metric name or in the value of one of the labels
    [dbidentifier], [instance_class] and [api].  The order in which
    the labels of [rds_instance_tags] are read is that of a Go map:
    each label once. *)
Theorem no_sample_twice w c :
  (forall m, rangeLabels w m ≡ₚ map_to_list m) ->
  NoDup (identity <$> (Collect w c).2).
Proof.
  intros Hperm. rewrite (proj1 (Collect_parts w c)).
  destruct (fetchMetrics w c) as [c1 [e|]].
  - apply (bool_decide_unpack _). vm_compute. exact I.
  - rewrite (app_assoc (part.header w c)), !fmap_app.
    apply (NoDup_app_by_class sourceOfIdentity Exporter).
    { apply (bool_decide_unpack _). vm_compute. exact I. }
    2: { change (?f <$> ?l1 ++ ?f <$> ?l2) with (f <$> l1 ++ f <$> l2).
         rewrite <- fmap_app. apply Forall_fmap. repeat constructor. }
    2: { rewrite !Forall_app, !Forall_fmap. repeat split.
         - eapply Forall_impl; [apply class_inventory|]. simpl. congruence.
         - eapply Forall_impl; [apply class_timeSeries|]. simpl. congruence.
         - eapply Forall_impl; [apply class_usage|]. simpl. congruence.
         - eapply Forall_impl; [apply class_instanceTypes|]. simpl. congruence.
         - eapply Forall_impl; [apply class_quotas|]. simpl. congruence. }
    apply (NoDup_app_by_class sourceOfIdentity Inventory).
    { apply (NoDup_counter_and_entries "dbidentifier" (fun i => (i.1.1.1, i.1.1.2)));
        [ reflexivity | reflexivity | apply NoDup_fst_map_to_list
        | apply counter_not_in_instance
        | intros entry; apply instance_samples_name_it; exact Hperm
        | apply instance_names ]. }
    2: { apply Forall_fmap. apply class_inventory. }
    2: { rewrite !Forall_app, !Forall_fmap. repeat split.
         - eapply Forall_impl; [apply class_timeSeries|]. simpl. congruence.
         - eapply Forall_impl; [apply class_usage|]. simpl. congruence.
         - eapply Forall_impl; [apply class_instanceTypes|]. simpl. congruence.
         - eapply Forall_impl; [apply class_quotas|]. simpl. congruence. }
    apply (NoDup_app_by_class sourceOfIdentity TimeSeries).
    { apply (NoDup_counter_and_entries "dbidentifier" (fun i => (i.1.1.1, i.1.1.2)));
        [ reflexivity | reflexivity | apply NoDup_fst_map_to_list
        | apply counter_not_in_series | apply series_samples_name_it
        | apply series_names ]. }
    2: { apply Forall_fmap. apply class_timeSeries. }
    2: { rewrite !Forall_app, !Forall_fmap. repeat split.
         - eapply Forall_impl; [apply class_usage|]. simpl. congruence.
         - eapply Forall_impl; [apply class_instanceTypes|]. simpl. congruence.
         - eapply Forall_impl; [apply class_quotas|]. simpl. congruence. }
    apply (NoDup_app_by_class sourceOfIdentity Usage).
    { unfold part.usage. destruct (CollectUsages _);
        apply (bool_decide_unpack _); vm_compute; exact I. }
    2: { apply Forall_fmap. apply class_usage. }
    2: { rewrite !Forall_app, !Forall_fmap. repeat split.
         - eapply Forall_impl; [apply class_instanceTypes|]. simpl. congruence.
         - eapply Forall_impl; [apply class_quotas|]. simpl. congruence. }
    apply (NoDup_app_by_class sourceOfIdentity InstanceType).
    { apply (NoDup_counter_and_entries "instance_class" (fun i => (i.1.1.1, i.1.2)));
        [ reflexivity | reflexivity | apply NoDup_fst_map_to_list
        | apply counter_not_in_type | apply type_samples_name_it
        | apply type_names ]. }
    2: { apply Forall_fmap. apply class_instanceTypes. }
    2: { rewrite Forall_fmap.
         eapply Forall_impl; [apply class_quotas|]. simpl. congruence. }
    unfold part.quotas. destruct (CollectQuotas _);
      apply (bool_decide_unpack _); vm_compute; exact I.
Qed.


Lemma no_sample_twice_witness :
  NoDup (identity <$> (Collect example.healthy example.collector).2).
Proof.
  apply (no_sample_twice example.healthy example.collector).
  intros m. reflexivity.
Defined.

End identities.
(** ** The mock of the EC2 client *)

Section mock.
Import golang mocks.

Lemma describe_entries acc input :
  foldl describe acc input = acc ++ (mocked <$> filter isMocked input).
Proof.
  revert acc. induction input as [|t input IH]; intros acc; simpl.
  - rewrite app_nil_r. reflexivity.
  - rewrite IH. unfold describe.
    destruct (String.eqb t "t3.large") eqn:E1; [|destruct (String.eqb t "t3.small") eqn:E2].
    + pose proof E1 as H1. apply String.eqb_eq in H1.
      rewrite filter_cons_True by (left; exact H1).
      rewrite fmap_cons, <- app_assoc. unfold mocked at 2. rewrite E1. reflexivity.
    + pose proof E2 as H2. apply String.eqb_eq in H2.
      rewrite filter_cons_True by (right; exact H2).
      rewrite fmap_cons, <- app_assoc. unfold mocked at 2. rewrite E1. reflexivity.
    + apply String.eqb_neq in E1, E2.
      rewrite filter_cons_False by (intros [?|?]; contradiction). reflexivity.
Qed.

(** The mock never fails; it answers with one entry for each
    occurrence of [t3.large] or [t3.small] in the request, in the
    order of the request, and leaves the other instance types out.
    An entry for [t3.large] has 2 vCPUs, a memory of 8, 15700 IOPS
    and a throughput of 347.5; one for [t3.small] has 2 vCPUs, a
    memory of 2, 11800 IOPS and a throughput of 260.62. *)
Theorem mock_describes_known_types input :
  (DescribeInstanceTypes input).2 = None /\
  (DescribeInstanceTypes input).1 = mocked <$> filter isMocked input.
Proof.
  split; [reflexivity|]. apply (describe_entries [] input).
Qed.

End mock.

(** ** The commands *)

Section commands.
Import golang cmd.

(** [getAWSConfiguration] fails only when the default configuration
    cannot be loaded, with an error that wraps the cause and the zero
    configuration.  Otherwise the credentials are replaced exactly
    when a role is given, a region that the loaded configuration has
    is kept, and the metadata service is a fallback whose failure is
    not an error: the region then stays empty. *)
Theorem getAWSConfiguration_outcome host roleArn sessionName region :
  match LoadDefaultConfig host region with
  | inr err =>
      exists e,
        getAWSConfiguration host roleArn sessionName region = (aws.zeroConfig, Some e) /\
        errors_Is e err
  | inl loaded =>
      exists cfg,
        getAWSConfiguration host roleArn sessionName region = (cfg, None) /\
        aws.Credentials cfg
        = (if decide (roleArn = EmptyString) then aws.Credentials loaded
           else aws.assumeRoleCache roleArn sessionName) /\
        (aws.Region loaded <> EmptyString -> aws.Region cfg = aws.Region loaded) /\
        (aws.Region loaded = EmptyString ->
         aws.Region cfg
         = match GetRegion host {| aws.Region := EmptyString;
                                   aws.Credentials := aws.Credentials cfg |} with
           | inl found => found
           | inr _ => EmptyString
           end)
  end.
Proof.
  unfold getAWSConfiguration.
  destruct (LoadDefaultConfig host region) as [loaded | err].
  - destruct loaded as [reg creds]. simpl.
    destruct (decide (roleArn = EmptyString)) as [->|Hrole]; simpl.
    + destruct (String.eqb reg EmptyString) eqn:E.
      * apply String.eqb_eq in E as ->.
        destruct (GetRegion host _) as [found|e] eqn:Hg; eexists; (split; [reflexivity|]);
          simpl; (split; [reflexivity|]); (split; [congruence|]); intros _;
          rewrite Hg; reflexivity.
      * apply String.eqb_neq in E. eexists. split; [reflexivity|]. simpl.
        split; [reflexivity|]. split; [reflexivity | contradiction].
    + apply String.eqb_neq in Hrole. rewrite Hrole. simpl.
      destruct (String.eqb reg EmptyString) eqn:E.
      * apply String.eqb_eq in E as ->.
        destruct (GetRegion host _) as [found|e] eqn:Hg; eexists; (split; [reflexivity|]);
          simpl; (split; [reflexivity|]); (split; [congruence|]); intros _;
          rewrite Hg; reflexivity.
      * apply String.eqb_neq in E. eexists. split; [reflexivity|]. simpl.
        split; [reflexivity|]. split; [reflexivity | contradiction].
  - eexists. split; [reflexivity|]. simpl. right. apply errors_Is_refl.
Qed.


(** *** The regions of [run] *)

Lemma registerRegion_unidentified host configuration registries region :
  identify host configuration region = None ->
  registerRegion host configuration registries region = exit awsErrorExitCode.
Proof.
  unfold identify, registerRegion.
  destruct (getAWSConfiguration _ _ _ _) as [cfg [e|]]; [reflexivity|].
  destruct (getAWSSessionInformation host cfg) as [[a r] [e|]];
    [reflexivity | discriminate].
Qed.

Lemma registerRegion_identified host configuration registries region a r :
  identify host configuration region = Some (a, r) ->
  registerRegion host configuration registries region
  = proceed
      (match Register host
               (exporter.NewCollector (collectorConfiguration configuration) a r) with
       | Some _ => registries
       | None =>
           <[region := exporter.NewCollector (collectorConfiguration configuration) a r]>
             registries
       end).
Proof.
  unfold identify, registerRegion.
  destruct (getAWSConfiguration _ _ _ _) as [cfg [e|]]; [discriminate|].
  destruct (getAWSSessionInformation host cfg) as [[a' r'] [e|]]; [discriminate|].
  intros H. injection H as -> ->. cbv zeta.
  destruct (Register host _); reflexivity.
Qed.

Lemma registered_once host configuration region c1 c2 :
  registered host configuration region c1 ->
  registered host configuration region c2 -> c1 = c2.
Proof.
  intros (a1 & r1 & H1 & -> & _) (a2 & r2 & H2 & -> & _).
  rewrite H1 in H2. injection H2 as -> ->. reflexivity.
Qed.

Lemma rangeRegions_identified host configuration regions : forall registries,
  Forall (fun r => is_Some (identify host configuration r)) regions ->
  exists registries',
    rangeRegions host configuration regions registries = proceed registries' /\
    forall region collector,
      registries' !! region = Some collector <->
      (region ∈ regions /\ registered host configuration region collector) \/
      ((forall c, ~ (region ∈ regions /\ registered host configuration region c)) /\
       registries !! region = Some collector).
Proof.
  induction regions as [|x rest IH]; intros registries Hall.
  - exists registries. split; [reflexivity|]. intros region collector. split.
    + intros H. right. split; [|exact H]. intros c [Hin _].
      apply elem_of_nil in Hin. exact Hin.
    + intros [[Hin _] | [_ H]]; [apply elem_of_nil in Hin; contradiction | exact H].
  - apply Forall_cons in Hall as [[[a r] Hx] Hall]. simpl.
    rewrite (registerRegion_identified _ _ _ _ a r Hx).
    set (cx := exporter.NewCollector (collectorConfiguration configuration) a r).
    destruct (Register host cx) as [e|] eqn:Hreg.
    + destruct (IH registries Hall) as (regs & Hrun & Hspec).
      exists regs. split; [exact Hrun|]. intros region collector.
      rewrite Hspec. split.
      * intros [[Hin Hr] | [Hno H]].
        -- left. split; [apply elem_of_cons; right; exact Hin | exact Hr].
        -- right. split; [|exact H]. intros c [Hin Hr].
           apply elem_of_cons in Hin as [-> | Hin].
           ++ destruct Hr as (a' & r' & Hid & -> & Hok).
              rewrite Hx in Hid. injection Hid as <- <-.
              fold cx in Hok. congruence.
           ++ exact (Hno c (conj Hin Hr)).
      * intros [[Hin Hr] | [Hno H]].
        -- apply elem_of_cons in Hin as [-> | Hin].
           ++ destruct Hr as (a' & r' & Hid & -> & Hok).
              rewrite Hx in Hid. injection Hid as <- <-.
              fold cx in Hok. congruence.
           ++ left. split; assumption.
        -- right. split; [|exact H]. intros c [Hin Hr].
           apply (Hno c). split; [apply elem_of_cons; right; exact Hin | exact Hr].
    + assert (registered host configuration x cx) as Hcx.
      { exists a, r. repeat split; [exact Hx | exact Hreg]. }
      destruct (IH (<[x := cx]> registries) Hall) as (regs & Hrun & Hspec).
      exists regs. split; [exact Hrun|]. intros region collector.
      rewrite Hspec. split.
      * intros [[Hin Hr] | [Hno H]].
        -- left. split; [apply elem_of_cons; right; exact Hin | exact Hr].
        -- destruct (decide (region = x)) as [-> | Hne].
           ++ rewrite lookup_insert_eq in H. injection H as <-.
              left. split; [apply elem_of_cons; left; reflexivity | exact Hcx].
           ++ rewrite lookup_insert_ne in H by congruence.
              right. split; [|exact H]. intros c [Hin Hr].
              apply elem_of_cons in Hin as [-> | Hin]; [contradiction|].
              exact (Hno c (conj Hin Hr)).
      * intros [[Hin Hr] | [Hno H]].
        -- destruct (decide (region ∈ rest)) as [Hrest | Hrest].
           ++ left. split; assumption.
           ++ apply elem_of_cons in Hin as [-> | Hin]; [|contradiction].
              right. split; [intros c [Hc _]; contradiction|].
              rewrite lookup_insert_eq. f_equal.
              exact (registered_once _ _ _ _ _ Hcx Hr).
        -- right. split.
           ++ intros c [Hin Hr]. apply (Hno c).
              split; [apply elem_of_cons; right; exact Hin | exact Hr].
           ++ rewrite lookup_insert_ne; [exact H|].
              intros <-. apply (Hno cx).
              split; [apply elem_of_cons; left; reflexivity | exact Hcx].
Qed.

(** [run] leaves through [os.Exit] with the code of an AWS error at
    the first region for which the configuration cannot be loaded or
    the caller cannot be identified: the regions after it are not
    looked at, and no server is started. *)
Theorem run_exits_at_first_unidentified_region host configuration before region after :
  AWSRegions configuration = before ++ region :: after ->
  New host (Debug configuration) (LogFormat configuration) = None ->
  Forall (fun r => is_Some (identify host configuration r)) before ->
  identify host configuration region = None ->
  run host configuration = exit awsErrorExitCode.
Proof.
  intros Hregions Hlog Hbefore Hregion. unfold run. rewrite Hlog, Hregions.
  assert (forall registries,
            rangeRegions host configuration (before ++ region :: after) registries
            = exit awsErrorExitCode) as ->; [|reflexivity].
  clear Hregions. induction before as [|x before IH]; intros registries; simpl.
  - rewrite (registerRegion_unidentified _ _ _ _ Hregion). reflexivity.
  - apply Forall_cons in Hbefore as [[[a r] Hx] Hbefore].
    rewrite (registerRegion_identified _ _ _ _ a r Hx). apply IH. exact Hbefore.
Qed.

Lemma run_exits_at_first_unidentified_region_witness :
  run deployment.host (deployment.configuration ["eu-west-3"; "us-east-1"; "eu-west-1"])
  = exit awsErrorExitCode.
Proof.
  apply (run_exits_at_first_unidentified_region deployment.host
           (deployment.configuration ["eu-west-3"; "us-east-1"; "eu-west-1"])
           ["eu-west-3"] "us-east-1" ["eu-west-1"]).
  - reflexivity.
  - reflexivity.
  - constructor; [|constructor]. eexists. reflexivity.
  - reflexivity.
Defined.

(** When every region of the configuration is identified, [run]
    serves one registry for each region whose collector the registry
    accepted, under the name of the region as configured; its
    collector is made from the flags of the configuration, the account
    of the caller and the region of the AWS configuration, and has
    counted nothing yet.  [run] then registers the handler under the
    metric path, and panics when the mux refuses that pattern;
    otherwise it ends when the server does, with the code of an HTTP
    error when the server returns an error. *)
Theorem run_serves_identified_regions host configuration :
  New host (Debug configuration) (LogFormat configuration) = None ->
  Forall (fun r => is_Some (identify host configuration r)) (AWSRegions configuration) ->
  exists registries,
    rangeRegions host configuration (AWSRegions configuration) ∅ = proceed registries /\
    (forall region collector,
       registries !! region = Some collector <->
       region ∈ AWSRegions configuration /\
       registered host configuration region collector) /\
    run host configuration
    = match Handle host (MetricPath configuration) with
      | Some err => panic err
      | None =>
          match ListenAndServe host (ListenAddress configuration)
                  (MetricPath configuration) registries with
          | Some _ => exit httpErrorExitCode
          | None => proceed tt
          end
      end.
Proof.
  intros Hlog Hall.
  destruct (rangeRegions_identified host configuration (AWSRegions configuration) ∅ Hall)
    as (regs & Hrun & Hspec).
  exists regs. split; [exact Hrun|]. split.
  - intros region collector. rewrite Hspec. split.
    + intros [H | [_ H]]; [exact H|]. rewrite lookup_empty in H. discriminate.
    + intros H. left. exact H.
  - unfold run. rewrite Hlog, Hrun. reflexivity.
Qed.

Lemma run_serves_identified_regions_witness :
  exists registries : gmap string exporter.RdsCollector,
    registries !! "eu-west-3"
    = Some (exporter.NewCollector scenario.withoutQuotas "123456789012" "eu-west-3") /\
    run deployment.host (deployment.configuration ["eu-west-3"; "eu-west-3"])
    = exit httpErrorExitCode.
Proof.
  destruct (run_serves_identified_regions deployment.host
              (deployment.configuration ["eu-west-3"; "eu-west-3"]))
    as (registries & _ & Hspec & Hend).
  - reflexivity.
  - repeat constructor; eexists; reflexivity.
  - exists registries. split.
    + apply Hspec. split; [apply elem_of_cons; left; reflexivity|].
      exists "123456789012", "eu-west-3". repeat split.
    + rewrite Hend. reflexivity.
Defined.

(** *** The gatherer of [run] *)

Lemma gather_from {F : Type} (Gather : exporter.RdsCollector -> list F + error)
  (order : list (string * exporter.RdsCollector)) : forall acc,
  foldl (fun metrics '(region, registry) =>
           match Gather registry with
           | inr _ => metrics
           | inl mfs => metrics ++ mfs
           end) acc order
  = acc ++ (order ≫= (fun '(region, registry) =>
                         match Gather registry with
                         | inr _ => []
                         | inl mfs => mfs
                         end)).
Proof.
  induction order as [|[region registry] order IH]; intros acc; simpl.
  - rewrite app_nil_r. reflexivity.
  - rewrite IH. destruct (Gather registry) as [mfs | e].
    + rewrite <- app_assoc. reflexivity.
    + reflexivity.
Qed.

(** The gatherer over the registries of the regions never returns an
    error: a registry whose gathering fails is left out, and the
    metric families of all the others are returned, each registry's in
    the order they came. *)
Theorem gatherer_leaves_failed_regions_out {F : Type}
  (Gather : exporter.RdsCollector -> list F + error)
  (order : list (string * exporter.RdsCollector)) :
  gatherRegistries Gather order
  = (order ≫= (fun '(region, registry) =>
                 match Gather registry with
                 | inr _ => []
                 | inl mfs => mfs
                 end),
     None).
Proof. unfold gatherRegistries. rewrite gather_from. reflexivity. Qed.

End commands.
(** ** What the samples of a scrape say *)

Section samples.
Import golang exporter.

(** *** The samples of every instance *)

Lemma elem_of_instance_gauge w c id inst g s :
  (s ∈ part.instance w c (id, inst) /\ desc s = inventoryGauge.desc g) <->
  s = MustNewConstMetric (inventoryGauge.desc g) GaugeValue
        (float64_of_int (inventoryGauge.get g inst))
        [awsAccountID c; awsRegion c; id].
Proof.
  unfold part.instance, collectRDSInstance.
  destruct (CollectInstanceTags (configuration c));
    [destruct (getInstanceTagLabels w c id inst) as [names values]|];
    simpl; rewrite !elem_of_cons, !elem_of_app, !elem_of_ifPresent.
  all: split;
    [ intros [H Hd];
      repeat match type of H with
             | _ \/ _ => destruct H as [H | H]
             end;
      try (destruct H as (v & Hv & H)); subst s; simpl in Hd;
      destruct g; try discriminate Hd; reflexivity
    | intros ->; (split; [|reflexivity]); destruct g; simpl; tauto ].
Qed.

Lemma elem_of_instance_information w c id inst s :
  (s ∈ part.instance w c (id, inst) /\ desc s = information) <->
  s = MustNewConstMetric information GaugeValue 1%float (informationLabels c id inst).
Proof.
  unfold part.instance, collectRDSInstance.
  destruct (CollectInstanceTags (configuration c));
    [destruct (getInstanceTagLabels w c id inst) as [names values]|];
    simpl; rewrite !elem_of_cons, !elem_of_app, !elem_of_ifPresent.
  all: split;
    [ intros [H Hd];
      repeat match type of H with
             | _ \/ _ => destruct H as [H | H]
             end;
      try (destruct H as (v & Hv & H)); subst s; simpl in Hd;
      try discriminate Hd; reflexivity
    | intros ->; (split; [|reflexivity]); tauto ].
Qed.

Lemma sample_of_instance w c s :
  err (subtask.inventory w c) = None ->
  sourceOf s = Inventory -> desc s <> apiCall ->
  s ∈ (Collect w c).2 <->
  exists id inst,
    rds.Instances (result (subtask.inventory w c)) !! id = Some inst /\
    s ∈ part.instance w c (id, inst).
Proof.
  intros He Hsrc Hd.
  destruct (fetchMetrics_identity w c He) as (Ha & Hr & Hc).
  assert (forall entry,
            part.instance w (fetchMetrics w c).1 entry = part.instance w c entry) as Hpart.
  { intros entry. apply part_instance_ext; auto. }
  assert (RDS (metrics_ (fetchMetrics w c).1) = result (subtask.inventory w c)) as Hrds.
  { rewrite (fetchMetrics_success w c He). reflexivity. }
  split.
  - intros Hin. pose proof (sample_part w c s He Hin) as Hp. rewrite Hsrc in Hp.
    unfold part.inventory in Hp.
    apply elem_of_cons in Hp as [-> | Hp]; [contradiction Hd; reflexivity|].
    apply list_elem_of_bind in Hp as ([id inst] & Hs & Hentry).
    apply elem_of_map_to_list in Hentry. rewrite Hrds in Hentry. rewrite Hpart in Hs.
    eauto.
  - intros (id & inst & Hinst & Hs).
    apply (part_in_Collect w c _ He). left. unfold part.inventory.
    apply elem_of_cons. right.
    apply list_elem_of_bind. exists (id, inst). split; [rewrite Hpart; exact Hs|].
    apply elem_of_map_to_list. rewrite Hrds. exact Hinst.
Qed.

(** For every instance of the inventory, and for nothing else, a
    scrape sends the six gauges that are not optional (allocated and
    maximum storage, maximum IOPS, status, storage throughput, backup
    retention), each with the value of its field converted to a
    float, zero included, and one sample of [rds_instance_info] of
    value 1 whose labels describe the instance, the booleans as
    [true] and [false]. *)
Theorem instance_gauges_and_information w c :
  err (subtask.inventory w c) = None ->
  (forall g s,
     (s ∈ (Collect w c).2 /\ desc s = inventoryGauge.desc g) <->
     exists id inst,
       rds.Instances (result (subtask.inventory w c)) !! id = Some inst /\
       s = MustNewConstMetric (inventoryGauge.desc g) GaugeValue
             (float64_of_int (inventoryGauge.get g inst))
             [awsAccountID c; awsRegion c; id]) /\
  (forall s,
     (s ∈ (Collect w c).2 /\ desc s = information) <->
     exists id inst,
       rds.Instances (result (subtask.inventory w c)) !! id = Some inst /\
       s = MustNewConstMetric information GaugeValue 1%float
             (informationLabels c id inst)).
Proof.
  intros He. split.
  - intros g s.
    assert (desc s = inventoryGauge.desc g ->
            sourceOf s = Inventory /\ desc s <> apiCall) as Hg.
    { destruct s as [d t x l]. simpl. intros ->. destruct g; split; try reflexivity;
        discriminate. }
    split.
    + intros [Hin Hd]. destruct (Hg Hd) as [Hsrc Hne].
      apply (sample_of_instance w c s He Hsrc Hne) in Hin as (id & inst & Hinst & Hs).
      exists id, inst. split; [exact Hinst|].
      apply (elem_of_instance_gauge w c id inst g s). auto.
    + intros (id & inst & Hinst & Hs).
      pose proof (proj2 (elem_of_instance_gauge w c id inst g s) Hs) as [Hin Hd].
      split; [|exact Hd]. destruct (Hg Hd) as [Hsrc Hne].
      apply (sample_of_instance w c s He Hsrc Hne). eauto.
  - intros s.
    assert (desc s = information -> sourceOf s = Inventory /\ desc s <> apiCall) as Hi.
    { destruct s as [d t x l]. simpl. intros ->. split; [reflexivity | discriminate]. }
    split.
    + intros [Hin Hd]. destruct (Hi Hd) as [Hsrc Hne].
      apply (sample_of_instance w c s He Hsrc Hne) in Hin as (id & inst & Hinst & Hs).
      exists id, inst. split; [exact Hinst|].
      apply (elem_of_instance_information w c id inst s). auto.
    + intros (id & inst & Hinst & Hs).
      pose proof (proj2 (elem_of_instance_information w c id inst s) Hs) as [Hin Hd].
      split; [|exact Hd]. destruct (Hi Hd) as [Hsrc Hne].
      apply (sample_of_instance w c s He Hsrc Hne). eauto.
Qed.

Lemma instance_gauges_and_information_witness :
  MustNewConstMetric allocatedStorage GaugeValue 21474836480%float
    ["123456789012"; "eu-west-3"; "db-a"]
    ∈ (Collect example.healthy example.collector).2 /\
  MustNewConstMetric information GaugeValue 1%float
    [ "123456789012"; "eu-west-3"; "db-a"; "db-ABCDEFGH"; "db.t3.small"; "mysql";
      "8.0.35"; "gp3"; "false"; "true"; "primary"; ""; "false"; ""; "false";
      "rds-ca-rsa2048-g1"; "arn:aws:rds:eu-west-3:123456789012:db:db-a" ]
    ∈ (Collect example.healthy example.collector).2.
Proof.
  destruct (instance_gauges_and_information example.healthy example.collector eq_refl)
    as [Hg Hi].
  split.
  - apply (Hg inventoryGauge.AllocatedStorage). exists "db-a", example.dbA.
    split; reflexivity.
  - apply Hi. exists "db-a", example.dbA. split; reflexivity.
Defined.

(** *** The samples of the account *)

(** The samples of the quotas and of the usage are sent whenever
    their flag is on, with the values that the fetcher returned in
    this scrape, also when it returned them with an error: a failed
    fetch is counted as an error and does not withhold the samples. *)
Theorem account_samples_follow_the_fetch w c :
  err (subtask.inventory w c) = None ->
  samplesFrom Quota (Collect w c).2
  = (if CollectQuotas (configuration c) then
       [ MustNewConstMetric apiCall CounterValue
           (ServiceQuotasAPICalls (counters c) + apiCalls (GetRDSQuotas w))%float
           [awsAccountID c; awsRegion c; "servicequotas"];
         MustNewConstMetric quotaDBInstances GaugeValue
           (servicequotas.DBinstances (result (GetRDSQuotas w)))
           [awsAccountID c; awsRegion c];
         MustNewConstMetric quotaTotalStorage GaugeValue
           (servicequotas.TotalStorage (result (GetRDSQuotas w)))
           [awsAccountID c; awsRegion c];
         MustNewConstMetric quotaMaxDBInstanceSnapshots GaugeValue
           (servicequotas.ManualDBInstanceSnapshots (result (GetRDSQuotas w)))
           [awsAccountID c; awsRegion c] ]
     else []) /\
  samplesFrom Usage (Collect w c).2
  = (if CollectUsages (configuration c) then
       [ MustNewConstMetric apiCall CounterValue
           (UsageAPIcalls (counters c) + apiCalls (GetUsageMetrics w))%float
           [awsAccountID c; awsRegion c; "usage"];
         MustNewConstMetric usageAllocatedStorage GaugeValue
           (cloudwatch.AllocatedStorage (result (GetUsageMetrics w)))
           [awsAccountID c; awsRegion c];
         MustNewConstMetric usageDBInstances GaugeValue
           (cloudwatch.DBInstances (result (GetUsageMetrics w)))
           [awsAccountID c; awsRegion c];
         MustNewConstMetric usageManualSnapshots GaugeValue
           (cloudwatch.ManualSnapshots (result (GetUsageMetrics w)))
           [awsAccountID c; awsRegion c] ]
     else []).
Proof.
  intros He. rewrite !(samplesFrom_Collect w c _ He).
  unfold part.quotas, part.usage. rewrite (fetchMetrics_success w c He). simpl.
  destruct (CollectQuotas (configuration c)), (CollectUsages (configuration c));
    split; reflexivity.
Qed.

Lemma account_samples_follow_the_fetch_witness :
  let down := example.world example.inventoryOK example.quotasDown example.cloudwatchOK in
  value <$> samplesFrom Quota (Collect down example.collector).2
  = [(0 + 1)%float; 0%float; 0%float; 0%float].
Proof.
  cbv zeta.
  destruct (account_samples_follow_the_fetch
              (example.world example.inventoryOK example.quotasDown example.cloudwatchOK)
              example.collector eq_refl) as [-> _].
  reflexivity.
Defined.

(** *** The samples of the instance classes *)

(** When the instance-type subtask is started, a scrape sends, for
    every instance class that the fetcher returned and for nothing
    else, the maximum IOPS, the maximum throughput, the memory and the
    number of vCPUs under the label [instance_class]; the values are
    sent as the fetcher gave them, the integers converted to floats. *)
Theorem instance_type_samples w c s :
  err (subtask.inventory w c) = None ->
  subtask.started w c InstanceType = true ->
  (s ∈ (Collect w c).2 /\ sourceOf s = InstanceType /\ desc s <> apiCall) <->
  exists class inst,
    ec2.Instances (result (GetDBInstanceTypeInformation w (subtask.types w c))) !! class
    = Some inst /\
    s ∈ [ MustNewConstMetric instanceMaximumIops GaugeValue
            (float64_of_int (ec2.MaximumIops inst))
            [awsAccountID c; awsRegion c; class];
          MustNewConstMetric instanceMaximumThroughput GaugeValue
            (ec2.MaximumThroughput inst) [awsAccountID c; awsRegion c; class];
          MustNewConstMetric instanceMemory GaugeValue
            (float64_of_int (ec2.Memory inst)) [awsAccountID c; awsRegion c; class];
          MustNewConstMetric instanceVCPU GaugeValue
            (float64_of_int (ec2.Vcpu inst)) [awsAccountID c; awsRegion c; class] ].
Proof.
  intros He Hst.
  pose proof (samplesFrom_Collect w c InstanceType He) as Hfrom.
  unfold part.instanceTypes in Hfrom.
  rewrite (fetchMetrics_success w c He), Hst in Hfrom. simpl in Hfrom.
  set (fetched := GetDBInstanceTypeInformation w (subtask.types w c)) in *.
  assert (s ∈ (Collect w c).2 /\ sourceOf s = InstanceType
          <-> s ∈ samplesFrom InstanceType (Collect w c).2) as Hmem.
  { unfold samplesFrom. rewrite list_elem_of_filter. tauto. }
  split.
  - intros (Hin & Hsrc & Hd).
    pose proof (proj1 Hmem (conj Hin Hsrc)) as Hs. rewrite Hfrom in Hs.
    apply elem_of_cons in Hs as [-> | Hs]; [contradiction Hd; reflexivity|].
    apply list_elem_of_bind in Hs as ([class inst] & Hs & Hentry).
    apply elem_of_map_to_list in Hentry. exists class, inst. split; [exact Hentry|].
    exact Hs.
  - intros (class & inst & Hentry & Hs).
    assert (s ∈ samplesFrom InstanceType (Collect w c).2) as Hin.
    { rewrite Hfrom. apply elem_of_cons. right. apply list_elem_of_bind.
      exists (class, inst). split; [exact Hs|]. apply elem_of_map_to_list. exact Hentry. }
    apply Hmem in Hin as [Hin Hsrc]. split; [exact Hin|]. split; [exact Hsrc|].
    intros Hd. apply (f_equal fqName) in Hd.
    rewrite !elem_of_cons in Hs.
    destruct Hs as [-> | [-> | [-> | [-> | Hs]]]]; try discriminate Hd.
    apply elem_of_nil in Hs. exact Hs.
Qed.

Lemma instance_type_samples_witness :
  MustNewConstMetric instanceMemory GaugeValue 2147483648%float
    ["123456789012"; "eu-west-3"; "db.t3.small"]
    ∈ (Collect example.healthy example.collector).2.
Proof.
  apply (instance_type_samples example.healthy example.collector _ eq_refl eq_refl).
  eexists "db.t3.small", _. split; [reflexivity|].
  do 2 (apply elem_of_cons; right). apply elem_of_cons. left. reflexivity.
Defined.

End samples.
Section storing.
Import golang cloudwatch.

Lemma get_empty f : field.get f emptyRdsMetrics = None.
Proof. destruct f; reflexivity. Qed.

(** A result that is processed without error changes what is held as
    [storing] says. *)
Lemma processResult_storing q metrics m id f :
  (processResult q metrics m).2 = None ->
  held (processResult q metrics m).1 id f = storing q id f (held metrics id f) m.
Proof.
  unfold processResult, storing, held.
  destruct (Values m) as [[|v vs]|]; [| |reflexivity]; cbv zeta.
  - intros _. cbn [fst].
    destruct (metrics !! Dbidentifier (index q (ResultId m))) as [rm|] eqn:Hrm;
      [reflexivity|].
    destruct (decide (Dbidentifier (index q (ResultId m)) = id)) as [<- | Hne].
    + rewrite lookup_insert_eq, Hrm. cbn. apply get_empty.
    + rewrite lookup_insert_ne by exact Hne. reflexivity.
  - set (key := Dbidentifier (index q (ResultId m))).
    set (metrics1 := match metrics !! key with Some _ => metrics | None => _ end).
    assert (Hdef : forall g, field.get g (default emptyRdsMetrics (metrics1 !! key))
                             = metrics !! key ≫= field.get g).
    { intros g. unfold metrics1. destruct (metrics !! key) as [rm|] eqn:Hrm.
      - rewrite Hrm. reflexivity.
      - rewrite lookup_insert_eq. cbn. apply get_empty. }
    destruct (field_name_dec (MetricName (index q (ResultId m)))) as [[g Hg] | Hunk].
    + rewrite Hg.
      pose proof (Update_known (default emptyRdsMetrics (metrics1 !! key)) g v) as [He Hv].
      pose proof (fun f' => Update_known_other
                              (default emptyRdsMetrics (metrics1 !! key)) g f' v) as Ho.
      destruct (Update _ (field.name g) v) as [updated e]. cbn [fst snd] in *.
      subst e. intros _. cbn [fst].
      destruct (decide (key = id)) as [<- | Hne].
      * rewrite lookup_insert_eq. cbn [mbind option_bind].
        destruct (decide (field.name g = field.name f)) as [Hfg | Hfg].
        -- apply field_name_inj in Hfg as <-.
           rewrite bool_decide_true by auto. exact Hv.
        -- rewrite bool_decide_false by (intros [_ Hn]; contradiction).
           rewrite Ho by (intros ->; contradiction). apply Hdef.
      * rewrite lookup_insert_ne by exact Hne.
        rewrite bool_decide_false by (intros [? _]; contradiction).
        unfold metrics1. destruct (metrics !! key) eqn:Hk; [reflexivity|].
        rewrite lookup_insert_ne by exact Hne. reflexivity.
    + rewrite Update_unknown by exact Hunk. cbn [snd]. discriminate.
Qed.

Lemma processResults_storing q results id f : forall metrics,
  (processResults q metrics results).2 = None ->
  held (processResults q metrics results).1 id f
  = foldl (storing q id f) (held metrics id f) results.
Proof.
  induction results as [|m rest IH]; intros metrics He; [reflexivity|].
  cbn [processResults foldl] in *.
  pose proof (processResult_storing q metrics m id f) as Hm.
  destruct (processResult q metrics m) as [metrics' [e|]]; cbn [fst snd] in *;
    [discriminate|].
  rewrite <- Hm by reflexivity. apply IH. exact He.
Qed.

Lemma runChunks_storing q chunks id f : forall c metrics,
  (runChunks q chunks c metrics).2 = None ->
  issued (runChunks q chunks c metrics).1.1 = issued c ++ (requestFor q <$> chunks) /\
  held (runChunks q chunks c metrics).1.2 id f
  = foldl (storing q id f) (held metrics id f)
      (answers (client c) (length (issued c)) (requestFor q <$> chunks)).
Proof.
  induction chunks as [|ch chunks IH]; intros c metrics He.
  - cbn. rewrite app_nil_r. auto.
  - cbn [runChunks fmap list_fmap answers] in *.
    unfold updateMetricsWithCloudWatchQueriesResult in *. fold (requestFor q ch) in *.
    destruct (GetMetricData (client c) (length (issued c)) (requestFor q ch))
      as [resp | ce]; [|discriminate].
    pose proof (processResults_storing q (MetricDataResults resp) id f metrics) as Hst.
    destruct (processResults q metrics (MetricDataResults resp)) as [m' [e|]];
      cbn [fst snd] in *; [discriminate|].
    set (c1 := {| client := client c; statistics := statistics c;
                  issued := issued c ++ [requestFor q ch] |}) in *.
    destruct (IH c1 m' He) as [Hi Hh]. split.
    + rewrite Hi. cbn [issued c1]. rewrite <- app_assoc. reflexivity.
    + rewrite Hh, foldl_app, <- (Hst eq_refl).
      cbn [issued client c1]. rewrite length_app. cbn [length].
      replace (length (issued c) + 1) with (S (length (issued c))) by lia.
      reflexivity.
Qed.

Lemma GetRDSInstanceMetrics_storing range c D id f :
  (GetRDSInstanceMetrics range c D).2 = None ->
  exists sent,
    issued (GetRDSInstanceMetrics range c D).1.1 = issued c ++ sent /\
    held (Instances (GetRDSInstanceMetrics range c D).1.2) id f
    = stored (generateCloudWatchQueriesForInstances D)
        (answers (client c) (length (issued c)) sent) id f.
Proof.
  rewrite GetRDSInstanceMetrics_run. cbv zeta.
  set (q := generateCloudWatchQueriesForInstances D).
  set (chunks := sentChunks _ _).
  pose proof (runChunks_storing q chunks id f c ∅) as H.
  destruct (runChunks q chunks c ∅) as [[c' m'] [e|]]; cbn [fst snd] in *;
    [discriminate|].
  intros _. destruct (H eq_refl) as [Hi Hh].
  exists (requestFor q <$> chunks). split.
  - destruct (chunking _ _ _).2; exact Hi.
  - cbn [fst snd Instances]. rewrite Hh. reflexivity.
Qed.
End storing.
Section refusals.
Import golang cloudwatch.




End refusals.
(** ** The claims on the time-series fetcher *)

Section fetcherClaims.
Import golang.

(** C6: the generated queries are exactly one per pair of an
    identifier of the list (by its index) and a metric name, under
    the id made of the lowercased metric name, an underscore and the
    index in decimal; distinct pairs have distinct ids, so a query id
    leads back to one pair; a result with a value for the id of a
    pair sets the field of that metric, in the sample of that
    identifier, to the first value; and the result of a fetch that
    does not fail holds, in every field of every sample, what the
    results of the answers to its requests store there: the first
    value of the last result that has one for that pair, and nothing
    when there is none. *)
Theorem queries_one_per_pair D :
  let q := cloudwatch.generateCloudWatchQueriesForInstances D in
  (forall i d m,
     D !! i = Some d -> m ∈ cloudwatch.getCloudWatchMetricsName ->
     q !! queryID m i
     = Some (cloudwatch.generateCloudWatchQueryForInstance (queryID m i) m d)) /\
  (forall k r,
     q !! k = Some r ->
     exists i d m,
       D !! i = Some d /\ m ∈ cloudwatch.getCloudWatchMetricsName /\
       k = queryID m i /\
       r = cloudwatch.generateCloudWatchQueryForInstance k m d) /\
  (forall m1 m2 i j,
     m1 ∈ cloudwatch.getCloudWatchMetricsName ->
     m2 ∈ cloudwatch.getCloudWatchMetricsName ->
     queryID m1 i = queryID m2 j -> m1 = m2 /\ i = j) /\
  size q = 24 * length D /\
  (forall m i, queryID m i = ToLower m +:+ "_" +:+ pretty i) /\
  (forall metrics i d f res v vs,
     D !! i = Some d ->
     cloudwatch.ResultId res = queryID (field.name f) i ->
     cloudwatch.Values res = Some (v :: vs) ->
     (cloudwatch.processResult q metrics res).2 = None /\
     exists rm,
       (cloudwatch.processResult q metrics res).1 !! d = Some rm /\
       field.get f rm = Some v) /\
  (forall range c id f,
     let run := cloudwatch.GetRDSInstanceMetrics range c D in
     run.2 = None ->
     held (cloudwatch.Instances run.1.2) id f
     = stored q
         (answers (cloudwatch.client c) (length (cloudwatch.issued c))
            (drop (length (cloudwatch.issued c)) (cloudwatch.issued run.1.1)))
         id f).
Proof.
  cbv zeta. split; [|split; [|split; [|split; [|split; [|split]]]]].
  - apply lookup_generated.
  - apply lookup_generated_Some.
  - apply queryID_inj.
  - apply size_generated.
  - reflexivity.
  - intros metrics i d f res v vs Hi Hid Hv.
    assert (cloudwatch.index (cloudwatch.generateCloudWatchQueriesForInstances D)
              (cloudwatch.ResultId res)
            = cloudwatch.generateCloudWatchQueryForInstance
                (queryID (field.name f) i) (field.name f) d) as Hq.
    { unfold cloudwatch.index. rewrite Hid, (lookup_generated D i d (field.name f) Hi).
      - reflexivity.
      - apply known_name. eauto. }
    destruct (processResult_sets (cloudwatch.generateCloudWatchQueriesForInstances D)
                metrics res f v vs Hv) as [He (rm & Hrm & Hg)].
    { rewrite Hq. reflexivity. }
    rewrite Hq in Hrm. eauto.
  - intros range c id f He.
    destruct (GetRDSInstanceMetrics_storing range c D id f He) as (sent & Hi & Hh).
    rewrite Hi, drop_app_length. exact Hh.
Qed.

Lemma queries_one_per_pair_witness :
  let q := cloudwatch.generateCloudWatchQueriesForInstances ["db-a"; "db-b"] in
  let res :=
    {| cloudwatch.ResultId := "freeablememory_1"; cloudwatch.Label := "FreeableMemory";
       cloudwatch.Values := Some [512%float; 256%float] |} in
  let run :=
    cloudwatch.GetRDSInstanceMetrics example.keys
      (cloudwatch.NewRDSFetcher example.cloudwatchOK) ["db-a"; "db-b"] in
  q !! "cpuutilization_1"
  = Some (cloudwatch.generateCloudWatchQueryForInstance
            "cpuutilization_1" "CPUUtilization" "db-b") /\
  ("DBLoad" = "DBLoad" /\ 0 = 0) /\
  ((cloudwatch.processResult q ∅ res).2 = None /\
   exists rm,
     (cloudwatch.processResult q ∅ res).1 !! "db-b" = Some rm /\
     cloudwatch.FreeableMemory rm = Some 512%float) /\
  run.2 = None /\
  held (cloudwatch.Instances run.1.2) "db-a" field.CPUUtilization = Some 12.5%float /\
  held (cloudwatch.Instances run.1.2) "db-a" field.DatabaseConnections = None /\
  held (cloudwatch.Instances run.1.2) "db-b" field.CPUUtilization = None.
Proof.
  destruct (queries_one_per_pair ["db-a"; "db-b"]) as (H1 & _ & H3 & _ & _ & H6 & H7).
  split; [|split; [|split; [|split]]].
  - apply (H1 1 "db-b" "CPUUtilization"); [reflexivity|].
    apply (bool_decide_unpack _). vm_compute. exact I.
  - apply (H3 "DBLoad" "DBLoad" 0 0);
      [ apply (bool_decide_unpack _); vm_compute; exact I
      | apply (bool_decide_unpack _); vm_compute; exact I
      | reflexivity ].
  - apply (H6 ∅ 1 "db-b" field.FreeableMemory
             {| cloudwatch.ResultId := "freeablememory_1";
                cloudwatch.Label := "FreeableMemory";
                cloudwatch.Values := Some [512%float; 256%float] |}
             512%float [256%float]); reflexivity.
  - vm_compute. reflexivity.
  - assert (He : (cloudwatch.GetRDSInstanceMetrics example.keys
                    (cloudwatch.NewRDSFetcher example.cloudwatchOK)
                    ["db-a"; "db-b"]).2 = None) by (vm_compute; reflexivity).
    cbv zeta in H7. split; [|split].
    + etransitivity;
        [ exact (H7 example.keys (cloudwatch.NewRDSFetcher example.cloudwatchOK)
                   "db-a" field.CPUUtilization He)
        | vm_compute; reflexivity ].
    + etransitivity;
        [ exact (H7 example.keys (cloudwatch.NewRDSFetcher example.cloudwatchOK)
                   "db-a" field.DatabaseConnections He)
        | vm_compute; reflexivity ].
    + etransitivity;
        [ exact (H7 example.keys (cloudwatch.NewRDSFetcher example.cloudwatchOK)
                   "db-b" field.CPUUtilization He)
        | vm_compute; reflexivity ].
Defined.




(** C8, as the code has it: [Update] returns no error for a known
    name, and an error that wraps [errUnknownMetric] for any other
    name; when a response to a request of [GetRDSInstanceMetrics] has
    a result with a value whose name is not one of the 24, the fetch
    returns an error that wraps [errUnknownMetric] together with an
    empty result; and when every request is answered and every result
    of the answers has no value or a known name, the fetch returns no
    error. *)
Theorem unknown_metric_fails_fetch :
  (forall m fld v,
     fld ∈ cloudwatch.getCloudWatchMetricsName ->
     (cloudwatch.Update m fld v).2 = None) /\
  (forall m fld v,
     fld ∉ cloudwatch.getCloudWatchMetricsName ->
     exists e,
       (cloudwatch.Update m fld v).2 = Some e /\ errors_Is e errUnknownMetric) /\
  (forall range c D i p resp r,
     cloudwatch.issued (cloudwatch.GetRDSInstanceMetrics range c D).1.1 !! i = Some p ->
     length (cloudwatch.issued c) <= i ->
     cloudwatch.GetMetricData (cloudwatch.client c) i p = inl resp ->
     r ∈ cloudwatch.MetricDataResults resp ->
     dispatchesUnknown (cloudwatch.generateCloudWatchQueriesForInstances D) r ->
     (cloudwatch.GetRDSInstanceMetrics range c D).1.2 = cloudwatch.emptyCloudWatchMetrics /\
     exists e,
       (cloudwatch.GetRDSInstanceMetrics range c D).2 = Some e /\
       errors_Is e errUnknownMetric) /\
  (forall range c D,
     (forall i p,
        cloudwatch.issued (cloudwatch.GetRDSInstanceMetrics range c D).1.1 !! i = Some p ->
        length (cloudwatch.issued c) <= i ->
        exists resp,
          cloudwatch.GetMetricData (cloudwatch.client c) i p = inl resp /\
          forall r,
            r ∈ cloudwatch.MetricDataResults resp ->
            emptySeries r \/
            cloudwatch.MetricName
              (cloudwatch.index (cloudwatch.generateCloudWatchQueriesForInstances D)
                 (cloudwatch.ResultId r))
              ∈ cloudwatch.getCloudWatchMetricsName) ->
     (cloudwatch.GetRDSInstanceMetrics range c D).2 = None).
Proof.
  split; [|split; [|split]].
  - intros m fld v [f ->]%known_name. apply Update_known.
  - intros m fld v Hunk. rewrite Update_unknown.
    + eexists. split; [reflexivity|]. right. left. reflexivity.
    + intros f Hf. apply Hunk. apply known_name. eauto.
  - apply GetRDSInstanceMetrics_unknown.
  - intros range c D Hall.
    destruct (cloudwatch.GetRDSInstanceMetrics range c D).2 as [e|] eqn:He;
      [exfalso | reflexivity].
    revert He Hall. rewrite GetRDSInstanceMetrics_run. cbv zeta.
    set (q := cloudwatch.generateCloudWatchQueriesForInstances D).
    set (chunks := sentChunks _ _).
    pose proof (runChunks_failure q chunks c ∅) as Hwhy.
    destruct (runChunks q chunks c ∅) as [[c' m'] [e'|]]; cbn [fst snd] in *;
      [|discriminate].
    intros _ Hall.
    destruct (Hwhy e' eq_refl) as (sent & p & Hi & Hcause).
    destruct (Hall (length (cloudwatch.issued c ++ sent)) p) as (resp & Hresp & Hres).
    { rewrite Hi, app_assoc. apply list_lookup_middle. reflexivity. }
    { rewrite length_app. lia. }
    destruct Hcause as [(ce & Hce & _) | (resp' & r & Hresp' & Hr & [Hval Hunk] & _)].
    + congruence.
    + rewrite Hresp in Hresp'. injection Hresp' as <-.
      destruct (Hres r Hr) as [[Hnil | Hempty] | Hknown].
      * destruct Hval as (v & vs & Hv). congruence.
      * destruct Hval as (v & vs & Hv). congruence.
      * contradiction.
Qed.

Lemma unknown_metric_fails_fetch_witness :
  let run :=
    cloudwatch.GetRDSInstanceMetrics example.keys
      (cloudwatch.NewRDSFetcher example.cloudwatchOdd) ["db-a"] in
  let quiet :=
    cloudwatch.GetRDSInstanceMetrics example.keys
      (cloudwatch.NewRDSFetcher example.cloudwatchOK) ["db-a"] in
  (cloudwatch.Update cloudwatch.emptyRdsMetrics "ReadIOPS" 1%float).2 = None /\
  (exists e,
     (cloudwatch.Update cloudwatch.emptyRdsMetrics "m1" 1%float).2 = Some e /\
     errors_Is e errUnknownMetric) /\
  (run.1.2 = cloudwatch.emptyCloudWatchMetrics /\
   exists e, run.2 = Some e /\ errors_Is e errUnknownMetric) /\
  quiet.2 = None.
Proof.
  destruct unknown_metric_fails_fetch as (H1 & H2 & H3 & H4).
  split; [|split; [|split]].
  - apply H1. apply (bool_decide_unpack _). vm_compute. exact I.
  - apply H2. apply (bool_decide_unpack _). vm_compute. exact I.
  - apply (H3 example.keys (cloudwatch.NewRDSFetcher example.cloudwatchOdd) ["db-a"] 0
             (requestFor (cloudwatch.generateCloudWatchQueriesForInstances ["db-a"])
                (example.keys (cloudwatch.generateCloudWatchQueriesForInstances ["db-a"])))
             {| cloudwatch.MetricDataResults :=
                  [ {| cloudwatch.ResultId := "m1"; cloudwatch.Label := "m1";
                       cloudwatch.Values := Some [1%float] |} ] |}
             {| cloudwatch.ResultId := "m1"; cloudwatch.Label := "m1";
                cloudwatch.Values := Some [1%float] |}).
    + vm_compute. reflexivity.
    + simpl. lia.
    + reflexivity.
    + simpl. left.
    + split; [eexists _, _; reflexivity|].
      apply (bool_decide_unpack _). vm_compute. exact I.
  - apply H4. intros i p Hi _. eexists. split; [reflexivity|].
    intros r Hr. cbn [cloudwatch.MetricDataResults] in Hr.
    assert (Hp : p = requestFor (cloudwatch.generateCloudWatchQueriesForInstances ["db-a"])
                   (example.keys (cloudwatch.generateCloudWatchQueriesForInstances ["db-a"]))).
    { destruct i as [|i]; [|vm_compute in Hi; discriminate Hi].
      vm_compute in Hi. injection Hi as <-. vm_compute. reflexivity. }
    subst p. revert r Hr. apply Forall_forall.
    match goal with
    | |- Forall ?P ?l => let l' := eval vm_compute in l in change (Forall P l')
    end.
    repeat first [ apply List.Forall_nil
                 | apply List.Forall_cons;
                   [ first [ left; left; reflexivity | left; right; reflexivity
                           | right; apply (bool_decide_unpack _); vm_compute; exact I ] | ] ].
Defined.

(** C8, the claim as written fails: an answer whose results have
    names that are not among the 24, the first with an empty series
    and the second with none, does not fail the fetch; the first
    leaves an empty sample under the identifier of the zero request. *)
Lemma unknown_result_without_value_passes :
  let q := cloudwatch.generateCloudWatchQueriesForInstances ["db-a"] in
  let run :=
    cloudwatch.GetRDSInstanceMetrics example.keys
      (cloudwatch.NewRDSFetcher upstream.valueless) ["db-a"] in
  (exists p resp,
     cloudwatch.issued run.1.1 !! 0 = Some p /\
     cloudwatch.GetMetricData upstream.valueless 0 p = inl resp /\
     Forall (fun r => cloudwatch.MetricName (cloudwatch.index q (cloudwatch.ResultId r))
                      ∉ cloudwatch.getCloudWatchMetricsName)
       (cloudwatch.MetricDataResults resp)) /\
  run.2 = None /\
  cloudwatch.Instances run.1.2 = {[ "" := cloudwatch.emptyRdsMetrics ]}.
Proof.
  cbv zeta. split; [|split].
  - eexists _, _. split; [vm_compute; reflexivity|]. split; [reflexivity|].
    cbn [cloudwatch.MetricDataResults].
    repeat (apply List.Forall_cons || apply List.Forall_nil);
      apply (bool_decide_unpack _); vm_compute; exact I.
  - vm_compute. reflexivity.
  - vm_compute. reflexivity.
Qed.
End fetcherClaims.
Section schedules.
Import golang exporter goroutines.

Lemma exec_app w l1 l2 s :
  exec w (l1 ++ l2) s =
  match exec w l1 s with
  | reached s' => exec w l2 s'
  | o => o
  end.
Proof.
  revert s; induction l1 as [|g l1 IH]; intros s; simpl; [reflexivity|].
  destruct (step w g s); auto.
Qed.

Ltac run_steps :=
  repeat progress
    (cbn [exec replicate step stepSubtask stepCaller positionOf move write counter
          goto go locals start quotas usages ec2 cloudwatch_ collector wg at_
          instanceIdentifiers instanceTypes failure err fst snd];
     try unfold goroutines.GetRDSInstanceMetrics).

Ltac run_subtask Hn E :=
  run_steps; rewrite ?E; run_steps;
  unfold Add; run_steps; rewrite Hn; run_steps;
  unfold count, assign, goroutines.GetRDSInstanceMetrics; run_steps;
  rewrite ?E; reflexivity.

(** A subtask that runs alone from its first statement, after it was
    added to the wait group, does what its function does to the
    collector and takes one from the wait group. *)
Lemma whole_alone w k s :
  positionOf k s = fetching -> (0 < wg s)%Z ->
  exec w (whole w k s) s =
  reached (move k finished
             (counter (wg s - 1) (write (body w k s (collector s)) s))).
Proof.
  intros Hp Hwg.
  assert (Hn : ((wg s + -1 <? 0) = false)%Z) by (apply Z.ltb_ge; lia).
  destruct s as [c n l q u e cw ids tys].
  destruct c as [k0 m acc reg conf tags].
  unfold whole.
  destruct k; simpl in Hp; subst; cbn [wg] in Hn.
  - unfold failure at 1. unfold body, getQuotasMetrics.
    destruct (GetRDSQuotas w) as [r [er|] a] eqn:E; cbn [err result apiCalls];
      run_subtask Hn E.
  - unfold failure at 1. unfold body, getUsagesMetrics.
    destruct (GetUsageMetrics w) as [r [er|] a] eqn:E; cbn [err result apiCalls];
      run_subtask Hn E.
  - unfold failure at 1. unfold body, getEC2Metrics. cbn [instanceTypes].
    destruct (GetDBInstanceTypeInformation w tys) as [r [er|] a] eqn:E; cbn [err result apiCalls];
      run_subtask Hn E.
  - unfold failure at 1. unfold body, getCloudwatchMetrics, goroutines.GetRDSInstanceMetrics.
    cbn [instanceIdentifiers].
    destruct (cloudwatch.GetRDSInstanceMetrics _ _ ids) as [[f r] [er|]] eqn:E; cbn [fst snd];
      run_subtask Hn E.
Qed.

Lemma Add_counter d s :
  (0 <= wg s + d)%Z -> Add d s = inl (counter (wg s + d) s).
Proof.
  intros H. unfold Add. cbv zeta.
  destruct (Z.ltb_spec (wg s + d) 0); [lia | reflexivity].
Qed.

Ltac run_whole :=
  match goal with
  | |- context [exec ?w (whole ?w ?k ?s0) ?s] =>
      change (whole w k s0) with (whole w k s);
      rewrite (whole_alone w k s) by (run_steps; first [reflexivity | lia])
  end.

Ltac run_add :=
  rewrite Add_counter by (run_steps; lia); run_steps.

Lemma configuration_quotas w c : configuration (step.quotas w c) = configuration c.
Proof. rewrite step_quotas. reflexivity. Qed.

Lemma configuration_inventory f c : configuration (step.inventory f c) = configuration c.
Proof. rewrite step_inventory. reflexivity. Qed.

Lemma configuration_types w tys c : configuration (step.types w tys c) = configuration c.
Proof. rewrite step_types. reflexivity. Qed.

Lemma serial_quotas w c n u e cw ids tys q :
  (0 <= n)%Z ->
  exec w (if CollectQuotas (configuration c)
          then [caller; caller] ++ whole w quotasMetrics (start c) else [caller])
    {| collector := c; wg := n; at_ := goQuotas; quotas := q; usages := u;
       ec2 := e; cloudwatch_ := cw; instanceIdentifiers := ids;
       instanceTypes := tys |} =
  reached
    {| collector := step.quotas w c; wg := n; at_ := goUsages;
       quotas := if CollectQuotas (configuration c) then finished else q;
       usages := u; ec2 := e; cloudwatch_ := cw; instanceIdentifiers := ids;
       instanceTypes := tys |}.
Proof.
  intros Hn. unfold step.quotas.
  destruct (CollectQuotas (configuration c)) eqn:F.
  - rewrite exec_app. run_steps. rewrite F. run_steps. run_add. run_whole.
    run_steps. unfold body. replace (n + 1 - 1)%Z with n by lia. reflexivity.
  - run_steps. rewrite F. reflexivity.
Qed.

Lemma serial_usages w c c0 n q e cw ids tys u conf :
  (0 <= n)%Z -> configuration c = conf ->
  exec w (if CollectUsages conf
          then [caller; caller] ++ whole w usagesMetrics (start c0) else [caller])
    {| collector := c; wg := n; at_ := goUsages; quotas := q; usages := u;
       ec2 := e; cloudwatch_ := cw; instanceIdentifiers := ids;
       instanceTypes := tys |} =
  reached
    {| collector := step.usages w c; wg := n; at_ := inventory;
       quotas := q;
       usages := if CollectUsages (configuration c) then finished else u;
       ec2 := e; cloudwatch_ := cw; instanceIdentifiers := ids;
       instanceTypes := tys |}.
Proof.
  intros Hn <-. unfold step.usages.
  destruct (CollectUsages (configuration c)) eqn:F.
  - rewrite exec_app. run_steps. rewrite F. run_steps. run_add. run_whole.
    run_steps. unfold body. replace (n + 1 - 1)%Z with n by lia. reflexivity.
  - run_steps. rewrite F. reflexivity.
Qed.

Lemma serial_ec2 w c s0 n q u cw ids tys e conf :
  (0 <= n)%Z -> instanceTypes s0 = tys -> configuration c = conf ->
  exec w (if CollectInstanceTypes conf && (0 <? length tys)
          then [caller; caller] ++ whole w ec2Metrics s0 else [caller])
    {| collector := c; wg := n; at_ := goEC2; quotas := q; usages := u;
       ec2 := e; cloudwatch_ := cw; instanceIdentifiers := ids;
       instanceTypes := tys |} =
  reached
    {| collector := step.types w tys c; wg := n; at_ := goCloudwatch;
       quotas := q; usages := u;
       ec2 := if CollectInstanceTypes (configuration c) && (0 <? length tys)
              then finished else e;
       cloudwatch_ := cw; instanceIdentifiers := ids;
       instanceTypes := tys |}.
Proof.
  intros Hn Htys <-. unfold step.types.
  destruct (CollectInstanceTypes (configuration c) && (0 <? length tys)) eqn:F.
  - rewrite exec_app. run_steps. rewrite F. run_steps. run_add.
    unfold whole at 1. unfold failure at 1. rewrite Htys.
    change (replicate _ (started ec2Metrics)) with
      (whole w ec2Metrics
         {| collector := c; wg := n + 1; at_ := goCloudwatch; quotas := q;
            usages := u; ec2 := fetching; cloudwatch_ := cw;
            instanceIdentifiers := ids; instanceTypes := tys |}).
    rewrite whole_alone by (run_steps; first [reflexivity | lia]).
    run_steps. unfold body. run_steps. replace (n + 1 - 1)%Z with n by lia. reflexivity.
  - run_steps. rewrite F. reflexivity.
Qed.

Lemma serial_cloudwatch w c s0 n q u e ids tys cw conf :
  (0 <= n)%Z -> instanceIdentifiers s0 = ids -> configuration c = conf ->
  exec w (if CollectInstanceMetrics conf
          then [caller; caller] ++ whole w cloudwatchMetrics s0 else [caller])
    {| collector := c; wg := n; at_ := goCloudwatch; quotas := q; usages := u;
       ec2 := e; cloudwatch_ := cw; instanceIdentifiers := ids;
       instanceTypes := tys |} =
  reached
    {| collector := step.timeSeries w ids c; wg := n; at_ := wait;
       quotas := q; usages := u; ec2 := e;
       cloudwatch_ := if CollectInstanceMetrics (configuration c)
                      then finished else cw;
       instanceIdentifiers := ids; instanceTypes := tys |}.
Proof.
  intros Hn Hids <-. unfold step.timeSeries.
  destruct (CollectInstanceMetrics (configuration c)) eqn:F.
  - rewrite exec_app. run_steps. rewrite F. run_steps. run_add.
    unfold whole at 1. unfold failure at 1. unfold goroutines.GetRDSInstanceMetrics at 1.
    rewrite Hids.
    change (replicate _ (started cloudwatchMetrics)) with
      (whole w cloudwatchMetrics
         {| collector := c; wg := n + 1; at_ := wait; quotas := q;
            usages := u; ec2 := e; cloudwatch_ := fetching;
            instanceIdentifiers := ids; instanceTypes := tys |}).
    rewrite whole_alone by (run_steps; first [reflexivity | lia]).
    run_steps. unfold body. run_steps. replace (n + 1 - 1)%Z with n by lia. reflexivity.
  - run_steps. rewrite F. reflexivity.
Qed.


Lemma caller_inventory w c n q u e cw ids tys :
  stepCaller w
    {| collector := c; wg := n; at_ := inventory; quotas := q; usages := u;
       ec2 := e; cloudwatch_ := cw; instanceIdentifiers := ids;
       instanceTypes := tys |} =
  let fetched :=
    GetInstancesMetrics w (CollectLogsSize (configuration c))
                        (CollectMaintenances (configuration c)) in
  match err fetched with
  | Some err =>
      next {| collector := c; wg := n;
              at_ := returned (Some (Errorf "can't fetch RDS metrics" err));
              quotas := q; usages := u; ec2 := e; cloudwatch_ := cw;
              instanceIdentifiers := ids; instanceTypes := tys |}
  | None =>
      next {| collector := step.inventory fetched c; wg := n; at_ := goEC2;
              quotas := q; usages := u; ec2 := e; cloudwatch_ := cw;
              instanceIdentifiers :=
                (getUniqTypeAndIdentifiers w (rds.Instances (result fetched))).1;
              instanceTypes :=
                (getUniqTypeAndIdentifiers w (rds.Instances (result fetched))).2 |}
  end.
Proof.
  unfold stepCaller. cbn [at_ collector]. cbv zeta.
  destruct (err _); [reflexivity|].
  destruct (getUniqTypeAndIdentifiers w _) as [ids' tys']. reflexivity.
Qed.

(** The serial schedule is an execution, and it does what
    [fetchMetrics] does: the same collector, the same error, every
    started subtask ended and the wait group back at zero. *)
Theorem serial_schedule_is_fetchMetrics w c :
  exists s,
    exec w (serial w c) (start c) = reached s /\
    collector s = (fetchMetrics w c).1 /\
    at_ s = returned (fetchMetrics w c).2 /\
    wg s = 0%Z /\
    forall k, positionOf k s = idle \/ positionOf k s = finished.
Proof.
  rewrite fetchMetrics_steps. cbv zeta. unfold serial. cbv zeta.
  rewrite configuration_before_inventory.
  rewrite exec_app.
  unfold start at 2.
  rewrite serial_quotas by lia.
  rewrite exec_app.
  rewrite serial_usages by first [lia | apply configuration_quotas].
  cbn [exec step]. rewrite caller_inventory. cbv zeta.
  rewrite configuration_before_inventory.
  destruct (err (GetInstancesMetrics w _ _)) as [e|] eqn:Hi.
  - cbn [exec]. eexists. split; [reflexivity|]. cbn [collector at_ wg fst snd].
    repeat split.
    intros []; cbn [positionOf quotas usages ec2 cloudwatch_];
      repeat match goal with |- context [if ?b then _ else _] => destruct b end; auto.
  - destruct (getUniqTypeAndIdentifiers w _) as [ids tys] eqn:Hu. cbn [fst snd].
    rewrite exec_app.
    rewrite serial_ec2;
      [ | lia | reflexivity
        | rewrite configuration_inventory; apply configuration_before_inventory ].
    rewrite exec_app.
    rewrite serial_cloudwatch;
      [ | lia | reflexivity
        | rewrite configuration_types, configuration_inventory;
          apply configuration_before_inventory ].
    run_steps. eexists. split; [reflexivity|]. cbn [collector at_ wg goto fst snd].
    repeat split.
    intros []; cbn [positionOf goto quotas usages ec2 cloudwatch_];
      repeat match goal with |- context [if ?b then _ else _] => destruct b end; auto.
Qed.

Lemma Add_negative d s :
  (wg s + d < 0)%Z -> Add d s = inr "sync: negative WaitGroup counter".
Proof.
  intros H. unfold Add. cbv zeta.
  destruct (Z.ltb_spec (wg s + d) 0); [reflexivity | lia].
Qed.

Ltac run_flag F := run_steps; rewrite ?F; run_steps.
Ltac run_adds :=
  repeat first [ rewrite Add_counter by (run_steps; lia)
               | rewrite Add_negative by (run_steps; lia) ];
  run_steps.

End schedules.
Section interleavings.
Import golang exporter goroutines.

Lemma exec_step w g l s s' :
  step w g s = next s' -> exec w (g :: l) s = exec w l s'.
Proof. intros H. cbn [exec]. rewrite H. reflexivity. Qed.

Lemma exec_panic w g l s msg :
  step w g s = panic msg -> exec w (g :: l) s = panicked msg.
Proof. intros H. cbn [exec]. rewrite H. reflexivity. Qed.

Ltac norm :=
  cbv [step stepSubtask stepCaller positionOf move write counter goto go locals
       start Add quotas usages ec2 cloudwatch_ collector wg at_
       instanceIdentifiers instanceTypes failure
       goroutines.GetRDSInstanceMetrics setErrors count assign setCounters
       setMetrics];
  cbn [counters metrics_ configuration awsAccountID awsRegion
       instanceTags CloudwatchAPICalls EC2APIcalls Errors RDSAPIcalls
       ServiceQuotasAPICalls UsageAPIcalls ServiceQuota RDS EC2
       CloudwatchInstances CloudWatchUsage fst snd].

Ltac settle known :=
  norm; repeat (progress (known; norm));
  simpl Z.add; simpl Z.ltb; simpl Z.eqb; norm.

Ltac advance known :=
  erewrite exec_step; [ | settle known; reflexivity ].

(** C4, the claim fails on the code: a scrape in which a fetcher other
    than the inventory fails can be aborted.  [fetchMetrics] starts
    the quota subtask with [go] before it adds it to the wait group;
    in the execution in which the subtask, whose fetch fails or not,
    reaches its deferred [c.wg.Done()] before [fetchMetrics] reaches
    [c.wg.Add(1)], the counter of the wait group goes below zero and
    the process panics: [fetchMetrics] does not return and no sample
    of the scrape is sent. *)
Theorem subtask_done_before_add_panics w c :
  CollectQuotas (configuration c) = true ->
  exec w (caller :: whole w quotasMetrics (start c)) (start c) =
  panicked "sync: negative WaitGroup counter".
Proof.
  intros F. unfold whole, failure.
  destruct (err (GetRDSQuotas w)) eqn:E; cbn [replicate];
    repeat advance ltac:(rewrite ?F, ?E);
    (erewrite exec_panic; [reflexivity | settle ltac:(rewrite ?F, ?E); reflexivity]).
Qed.

Lemma subtask_done_before_add_panics_witness :
  CollectQuotas (configuration example.collector) = true /\
  exec (example.world example.inventoryOK example.quotasDown example.cloudwatchOK)
    (caller :: replicate 6 (started quotasMetrics)) (start example.collector) =
  panicked "sync: negative WaitGroup counter".
Proof.
  split; [reflexivity|].
  exact (subtask_done_before_add_panics
           (example.world example.inventoryOK example.quotasDown example.cloudwatchOK)
           example.collector eq_refl).
Defined.

(** *** Two failures counted once *)

(** [c.counters.Errors++] is a read and a write with no lock around
    them.  When the quota and the usage fetchers both fail and their
    subtasks both read the counter before either writes it, both
    subtasks run to their end, the wait group is back at zero, and
    the counter has grown by one, where the subtasks run one after
    the other make it grow by two. *)
Theorem concurrent_failures_counted_once w c :
  CollectQuotas (configuration c) = true ->
  CollectUsages (configuration c) = true ->
  err (GetRDSQuotas w) <> None -> err (GetUsageMetrics w) <> None ->
  exists s,
    exec w lostUpdate (start c) = reached s /\
    quotas s = finished /\ usages s = finished /\ wg s = 0%Z /\
    Errors (counters (collector s)) = (Errors (counters c) + 1)%float /\
    Errors (counters (step.usages w (step.quotas w c)))
    = (Errors (counters c) + 1 + 1)%float.
Proof.
  intros Fq Fu Eq Eu.
  destruct (err (GetRDSQuotas w)) as [eq|] eqn:Hq; [clear Eq | contradiction].
  destruct (err (GetUsageMetrics w)) as [eu|] eqn:Hu; [clear Eu | contradiction].
  unfold lostUpdate. cbn [app replicate].
  do 16 advance ltac:(rewrite ?Fq, ?Fu, ?Hq, ?Hu).
  eexists. split; [reflexivity|].
  repeat split.
  rewrite step_usages, step_quotas. cbn [counters Errors configuration].
  rewrite Fq, Fu, Hq, Hu. reflexivity.
Qed.

Lemma concurrent_failures_counted_once_witness :
  exists s,
    exec outage.both lostUpdate (start example.collector) = reached s /\
    Errors (counters (collector s)) = 1%float /\
    Errors (counters (step.usages outage.both (step.quotas outage.both example.collector)))
    = 2%float.
Proof.
  destruct (concurrent_failures_counted_once outage.both example.collector)
    as (s & Hs & _ & _ & _ & He & Hserial);
    [reflexivity | reflexivity | discriminate | discriminate |].
  exists s. split; [exact Hs|]. rewrite He, Hserial. split; reflexivity.
Defined.

(** *** A return before the subtasks end *)

(** When the inventory fetch fails, [fetchMetrics] returns its error
    without waiting: the quota subtask that it started has not run
    yet, the wait group is not at zero, and the collector is as it
    was.  The subtask does its work afterwards, on the collector that
    the next scrape uses. *)
Theorem fetchMetrics_returns_while_subtask_runs w c e :
  CollectQuotas (configuration c) = true ->
  err (GetInstancesMetrics w (CollectLogsSize (configuration c))
                           (CollectMaintenances (configuration c))) = Some e ->
  exists s,
    exec w (earlyReturn c) (start c) = reached s /\
    at_ s = returned (Some (Errorf "can't fetch RDS metrics" e)) /\
    quotas s = fetching /\ (0 < wg s)%Z /\ collector s = c /\
    exists s',
      exec w (earlyReturn c ++ whole w quotasMetrics s) (start c) = reached s' /\
      at_ s' = at_ s /\ quotas s' = finished /\
      collector s' = getQuotasMetrics w c.
Proof.
  intros Fq Hi. unfold earlyReturn. rewrite Fq.
  destruct (CollectUsages (configuration c)) eqn:Fu; cbn [app].
  - do 5 advance ltac:(rewrite ?Fq, ?Fu, ?Hi).
    eexists. split; [reflexivity|]. cbn [at_ quotas wg collector].
    split; [reflexivity|]. split; [reflexivity|]. split; [lia|]. split; [reflexivity|].
    do 5 advance ltac:(rewrite ?Fq, ?Fu, ?Hi).
    rewrite whole_alone by (cbn [positionOf quotas wg]; first [reflexivity | lia]).
    eexists. split; [reflexivity|]. repeat split.
  - do 4 advance ltac:(rewrite ?Fq, ?Fu, ?Hi).
    eexists. split; [reflexivity|]. cbn [at_ quotas wg collector].
    split; [reflexivity|]. split; [reflexivity|]. split; [lia|]. split; [reflexivity|].
    do 4 advance ltac:(rewrite ?Fq, ?Fu, ?Hi).
    rewrite whole_alone by (cbn [positionOf quotas wg]; first [reflexivity | lia]).
    eexists. split; [reflexivity|]. repeat split.
Qed.

Lemma fetchMetrics_returns_while_subtask_runs_witness :
  let w := example.world example.inventoryDown example.quotasOK example.cloudwatchOK in
  exists s,
    exec w (earlyReturn example.collector) (start example.collector) = reached s /\
    at_ s
    = returned (Some (Errorf "can't fetch RDS metrics"
                        (errExternal "can't describe instances: AccessDenied"))) /\
    quotas s = fetching /\ (0 < wg s)%Z.
Proof.
  cbv zeta.
  destruct (fetchMetrics_returns_while_subtask_runs
              (example.world example.inventoryDown example.quotasOK example.cloudwatchOK)
              example.collector (errExternal "can't describe instances: AccessDenied"))
    as (s & Hs & Hat & Hq & Hwg & _); [reflexivity | reflexivity |].
  exists s. auto.
Defined.
End interleavings.
(** ** The serial execution of a scrape *)

Section serial.
Import golang exporter.

(** In the serial execution of a scrape (each subtask run from its
    start to its end as soon as it is started), when exactly one of
    the fetchers other than the inventory (quotas, usage, instance
    types, time series) fails, [fetchMetrics] returns no error,
    [up = 1] is sent, the error counter is one more than before, and
    the samples that do not come from that fetcher are those of the
    same scrape in a world where it answers anything else. *)
Theorem subtask_failure_isolated w w' c k :
  subtask.agreeExcept k w w' ->
  err (subtask.inventory w' c) = None ->
  subtask.failed w' c k = true ->
  (forall x, x <> k -> subtask.failed w' c x = false) ->
  (fetchMetrics w' c).2 = None /\
  MustNewConstMetric up GaugeValue exporterUpStatusCode [awsRegion c] ∈ (Collect w' c).2 /\
  Errors (counters (Collect w' c).1) = (Errors (counters c) + 1)%float /\
  notFrom k (Collect w' c).2 = notFrom k (Collect w c).2.
Proof.
  intros (Hv & Hsha & Hd & Hinv & Huniq & Htags & Hlabels & Hq & Hu & Ht & Hts)
         He' Hfail Hothers.
  assert (err (subtask.inventory w c) = None) as He.
  { unfold subtask.inventory in *. rewrite Hinv. exact He'. }
  assert (subtask.types w c = subtask.types w' c) as Htypes.
  { unfold subtask.types, subtask.inventory. rewrite Hinv, Huniq. reflexivity. }
  assert (subtask.identifiers w c = subtask.identifiers w' c) as Hids.
  { unfold subtask.identifiers, subtask.inventory. rewrite Hinv, Huniq. reflexivity. }
  assert (forall x, subtask.started w c x = subtask.started w' c x) as Hstarted.
  { intros x. unfold subtask.started. rewrite Htypes. reflexivity. }
  split; [rewrite (fetchMetrics_success w' c He'); reflexivity|].
  split.
  { rewrite (Collect_success w' c He'). apply elem_of_app. right. left. }
  split.
  { rewrite Collect_counters, (fetchMetrics_success w' c He'). cbn [counters Errors fst].
    unfold subtask.countFailure.
    destruct k; try discriminate Hfail;
      rewrite ?Hfail, ?(Hothers Quota), ?(Hothers Usage), ?(Hothers InstanceType),
        ?(Hothers TimeSeries) by discriminate; reflexivity. }
  rewrite (Collect_success w' c He'), (Collect_success w c He).
  rewrite (fetchMetrics_success w' c He'), (fetchMetrics_success w c He).
  cbn [fst]. rewrite !notFrom_app. f_equal.
  { unfold part.header. rewrite Hv, Hsha, Hd. reflexivity. }
  f_equal. f_equal.
  { destruct (decide (k = Inventory)) as [-> | Hk]; [discriminate Hfail|].
    f_equal. apply part_inventory_ext; try reflexivity; try (symmetry; assumption).
    - cbn [counters RDSAPIcalls]. unfold subtask.inventory. rewrite Hinv. reflexivity.
    - cbn [metrics_ RDS]. unfold subtask.inventory. rewrite Hinv. reflexivity. }
  f_equal.
  { destruct (decide (k = TimeSeries)) as [-> | Hk].
    - rewrite !notFrom_same by apply source_timeSeries. reflexivity.
    - destruct (Hts Hk) as [Hcl Hrq].
      assert (subtask.timeSeries w' c = subtask.timeSeries w c) as Hsame.
      { unfold subtask.timeSeries. rewrite Hcl, Hrq, Hids. reflexivity. }
      f_equal. apply part_timeSeries_ext; try reflexivity.
      + cbn [counters CloudwatchAPICalls]. rewrite Hstarted, Hsame. reflexivity.
      + cbn [metrics_ CloudwatchInstances]. rewrite Hstarted, Hsame. reflexivity. }
  f_equal.
  { destruct (decide (k = Usage)) as [-> | Hk].
    - rewrite !notFrom_same by apply source_usage. reflexivity.
    - f_equal. apply part_usage_ext; try reflexivity.
      + cbn [counters UsageAPIcalls]. rewrite Hstarted, (Hu Hk). reflexivity.
      + cbn [metrics_ CloudWatchUsage]. rewrite Hstarted, (Hu Hk). reflexivity. }
  f_equal.
  { destruct (decide (k = InstanceType)) as [-> | Hk].
    - rewrite !notFrom_same by apply source_instanceTypes. reflexivity.
    - f_equal. apply part_instanceTypes_ext; try reflexivity.
      + cbn [counters EC2APIcalls]. rewrite Hstarted, (Ht Hk), Htypes. reflexivity.
      + cbn [metrics_ EC2]. rewrite Hstarted, (Ht Hk), Htypes. reflexivity. }
  destruct (decide (k = Quota)) as [-> | Hk].
  - rewrite !notFrom_same by apply source_quotas. reflexivity.
  - f_equal. apply part_quotas_ext; try reflexivity.
    + cbn [counters ServiceQuotasAPICalls]. rewrite Hstarted, (Hq Hk). reflexivity.
    + cbn [metrics_ ServiceQuota]. rewrite Hstarted, (Hq Hk). reflexivity.
Qed.


Lemma subtask_failure_isolated_witness :
  let w := example.healthy in
  let w' := example.world example.inventoryOK example.quotasDown example.cloudwatchOK in
  (fetchMetrics w' example.collector).2 = None /\
  MustNewConstMetric up GaugeValue exporterUpStatusCode ["eu-west-3"]
    ∈ (Collect w' example.collector).2 /\
  Errors (counters (Collect w' example.collector).1) = (0 + 1)%float /\
  notFrom Quota (Collect w' example.collector).2
  = notFrom Quota (Collect w example.collector).2.
Proof.
  apply (subtask_failure_isolated example.healthy
           (example.world example.inventoryOK example.quotasDown example.cloudwatchOK)
           example.collector Quota).
  - repeat split; try reflexivity; intros H; exfalso; apply H; reflexivity.
  - reflexivity.
  - vm_compute. reflexivity.
  - intros x Hx. destruct x; first [vm_compute; reflexivity | exfalso; apply Hx; reflexivity].
Defined.

End serial.
